(** * Satellite tracker: a shallow embedding of [app.py]

    The service polls a live-position source, stores samples in two MySQL
    tables and serves JSON endpoints over them.  This development embeds the
    request handlers of [app.py] as functions over an explicit database
    state and proves the properties its specification states about them.

    Conventions of the embedding.
    - A Python value that reaches a handler (a decoded JSON document, a form
      field, a query argument) is a [pyval]; text is a [string] whose
      characters are code points below 256.
    - A Python [float] is an IEEE binary64 value, [spec_float] of the
      Standard Library; [float(str)] is CPython's [strtod] and enters as the
      section variable [float_of_string].
    - An exception is a value of [exn]; a handler returns either a response
      or the exception that escaped it (which the framework turns into a
      500 page), together with the database it leaves behind.
    - The storage engine is InnoDB under the server's default (strict)
      [sql_mode]: the declared keys, [NOT NULL], [UNIQUE], the width of
      [INT] and [VARCHAR(100)] and the foreign key with its cascade are
      enforced; exhaustion of the [AUTO_INCREMENT] counters is not modelled.
      [ORDER BY] is a sort on the timestamp; the order among rows of equal
      timestamp is the engine's choice and no theorem depends on it.
    - A [TIMESTAMP] column holds the clock reading, in seconds, at the time
      of the insert. *)

From Stdlib Require Import ZArith Lia Ascii String SpecFloat.
From stdpp Require Import base option list gmap strings sorting pretty.

Local Open Scope Z_scope.
Local Set Warnings "-register-all".

(** ** Exceptions and results *)

Inductive exn :=
| ValueError | TypeError | AttributeError | KeyError | OverflowError
| IntegrityError | DataError | ProgrammingError | OperationalError.

Inductive result (A : Type) :=
| Return (a : A)
| Raise (e : exn).
Arguments Return {A} a.
Arguments Raise {A} e.

Definition rbind {A B} (m : result A) (k : A → result B) : result B :=
  match m with
  | Return a => k a
  | Raise e => Raise e
  end.

#[global] Instance result_bind : MBind result := λ A B k m, rbind m k.
#[global] Instance result_ret : MRet result := @Return.

#[global] Instance exn_eq_dec : EqDecision exn.
Proof. solve_decision. Defined.

(** ** Python values *)

Definition float := spec_float.

#[global] Instance float_eq_dec : EqDecision float.
Proof. solve_decision. Defined.

Inductive pyval :=
| PNone
| PBool (b : bool)
| PInt (z : Z)
| PFloat (f : float)
| PStr (s : string)
| PList (l : list pyval)
| PDict (d : gmap string pyval).

Definition float_is_zero (f : float) : bool :=
  match f with S754_zero _ => true | _ => false end.

Definition float_finite (f : float) : bool :=
  match f with S754_nan | S754_infinity _ => false | _ => true end.

(** [bool(v)]. *)
Definition truthy (v : pyval) : bool :=
  match v with
  | PNone => false
  | PBool b => b
  | PInt z => negb (z =? 0)
  | PFloat f => negb (float_is_zero f)
  | PStr s => negb (String.eqb s "")
  | PList l => match l with [] => false | _ => true end
  | PDict d => negb (bool_decide (d = ∅))
  end.

(** [o is None]. *)
Definition is_none {A} (o : option A) : bool :=
  match o with None => true | Some _ => false end.

(** [a or b]. *)
Definition py_or (a b : pyval) : pyval := if truthy a then a else b.

(** *** Text *)

Definition code (c : ascii) : Z := Z.of_N (Ascii.N_of_ascii c).

(** The white space that [str.strip] removes. *)
Definition is_space (c : ascii) : bool :=
  let n := code c in
  ((9 <=? n) && (n <=? 13)) || ((28 <=? n) && (n <=? 32))
  || (n =? 133) || (n =? 160).

(** The white space that [int(str)] skips. *)
Definition is_int_space (c : ascii) : bool :=
  let n := code c in
  ((9 <=? n) && (n <=? 13)) || (n =? 32) || (n =? 133) || (n =? 160).

Fixpoint lstrip (sp : ascii → bool) (s : string) : string :=
  match s with
  | String c s' => if sp c then lstrip sp s' else s
  | EmptyString => EmptyString
  end.

Fixpoint rstrip (sp : ascii → bool) (s : string) : string :=
  match s with
  | EmptyString => EmptyString
  | String c s' =>
      match rstrip sp s' with
      | EmptyString => if sp c then EmptyString else String c EmptyString
      | r => String c r
      end
  end.

Definition strip (s : string) : string := rstrip is_space (lstrip is_space s).

(** [v.strip()]: only text has the method. *)
Definition py_strip (v : pyval) : result string :=
  match v with
  | PStr s => Return (strip s)
  | _ => Raise AttributeError
  end.

Fixpoint is_prefix (p s : string) : bool :=
  match p, s with
  | EmptyString, _ => true
  | String a p', String b s' => bool_decide (a = b) && is_prefix p' s'
  | String _ _, EmptyString => false
  end.

(** [p in s] on text. *)
Fixpoint is_substring (p s : string) : bool :=
  is_prefix p s ||
  match s with
  | EmptyString => false
  | String _ s' => is_substring p s'
  end.

(** *** [int(...)] *)

Definition digit_val (c : ascii) : option Z :=
  let n := code c in
  if (48 <=? n) && (n <=? 57) then Some (n - 48) else None.

(** Decimal digits, single underscores allowed between two digits. *)
Fixpoint parse_digits (acc : Z) (after_underscore : bool) (s : string) : option Z :=
  match s with
  | EmptyString => if after_underscore then None else Some acc
  | String c s' =>
      if bool_decide (c = "_"%char)
      then (if after_underscore then None else parse_digits acc true s')
      else match digit_val c with
           | Some d => parse_digits (10 * acc + d) false s'
           | None => None
           end
  end.

(** The number of digit characters in [s]. *)
Fixpoint count_digits (s : string) : Z :=
  match s with
  | EmptyString => 0
  | String c s' => (if digit_val c is Some _ then 1 else 0) + count_digits s'
  end.

(** [sys.get_int_max_str_digits()]: the interpreter's default bound on the
    digits of a decimal literal that [int] converts. *)
Definition int_max_str_digits : Z := 4300.

(** [int(s)] in base ten: surrounding white space, an optional sign, then
    digits, of which there are at most [int_max_str_digits] (leading zeros
    count, underscores do not).  [None] is [ValueError]. *)
Definition int_of_string (s : string) : option Z :=
  let t := rstrip is_int_space (lstrip is_int_space s) in
  let '(neg, body) :=
    match t with
    | String "+" r => (false, r)
    | String "-" r => (true, r)
    | _ => (false, t)
    end in
  match body with
  | EmptyString => None
  | String c _ =>
      match digit_val c with
      | None => None
      | Some _ =>
          if int_max_str_digits <? count_digits body then None
          else (λ z, if neg : bool then - z else z) <$> parse_digits 0 false body
      end
  end.

(** [int(f)] for a float: truncation towards zero. *)
Definition float_trunc (f : float) : result Z :=
  match f with
  | S754_zero _ => Return 0
  | S754_infinity _ => Raise OverflowError
  | S754_nan => Raise ValueError
  | S754_finite s m e =>
      let mag := Z.shiftl (Z.pos m) e in
      Return (if s then - mag else mag)
  end.

(** [float(n)] for an integer: round to nearest, ties to even. *)
Definition float_of_Z (z : Z) : result float :=
  match binary_normalize 53 1024 z 0 false with
  | S754_infinity _ => Raise OverflowError
  | f => Return f
  end.

Definition py_int (v : pyval) : result Z :=
  match v with
  | PNone => Raise TypeError
  | PBool b => Return (if b then 1 else 0)
  | PInt z => Return z
  | PFloat f => float_trunc f
  | PStr s => match int_of_string s with Some z => Return z | None => Raise ValueError end
  | PList _ | PDict _ => Raise TypeError
  end.

(** [v.get(k, dflt)], [v[k]] and [k in v] for a decoded JSON value. *)
Definition py_get (v : pyval) (k : string) (dflt : pyval) : result pyval :=
  match v with
  | PDict m => Return (default dflt (m !! k))
  | _ => Raise AttributeError
  end.

Definition py_item (v : pyval) (k : string) : result pyval :=
  match v with
  | PDict m => match m !! k with Some x => Return x | None => Raise KeyError end
  | _ => Raise TypeError
  end.

Definition py_contains (v : pyval) (k : string) : result bool :=
  match v with
  | PDict m => Return (bool_decide (is_Some (m !! k)))
  | PList l =>
      Return (existsb (λ x, match x with PStr s => String.eqb s k | _ => false end) l)
  | PStr s => Return (is_substring k s)
  | _ => Raise TypeError
  end.

(** [x in (None, '', '0', 0)]: membership is decided by [==]. *)
Definition is_default_timestamp (v : pyval) : bool :=
  match v with
  | PNone => true
  | PStr s => String.eqb s "" || String.eqb s "0"
  | PInt z => z =? 0
  | PBool b => negb b
  | PFloat f => float_is_zero f
  | PList _ | PDict _ => false
  end.

(** [x in (None, '')]. *)
Definition is_blank (v : pyval) : bool :=
  match v with
  | PNone => true
  | PStr s => String.eqb s ""
  | _ => false
  end.

(** ** Requests and responses *)

(** The body of a request: what [request.get_json(silent=True)] yields and
    the form fields (first value of each). *)
Record request := {
  req_json : option pyval;
  req_form : gmap string string;
}.

Inductive reqdata :=
| DValue (v : pyval)
| DForm (f : gmap string string).

(** [request.get_json(silent=True) or request.form]. *)
Definition request_data (r : request) : reqdata :=
  match req_json r with
  | Some v => if truthy v then DValue v else DForm (req_form r)
  | None => DForm (req_form r)
  end.

Definition data_get (d : reqdata) (k : string) : result pyval :=
  match d with
  | DForm f => Return (from_option PStr PNone (f !! k))
  | DValue v => py_get v k PNone
  end.

Definition data_contains (d : reqdata) (k : string) : result bool :=
  match d with
  | DForm f => Return (bool_decide (is_Some (f !! k)))
  | DValue v => py_contains v k
  end.

Definition data_item (d : reqdata) (k : string) : result pyval :=
  match d with
  | DForm f => match f !! k with Some s => Return (PStr s) | None => Raise KeyError end
  | DValue v => py_item v k
  end.

(** [not data]. *)
Definition data_empty (d : reqdata) : bool :=
  match d with
  | DForm f => bool_decide (f = ∅)
  | DValue v => negb (truthy v)
  end.

Record response := {
  status : Z;
  body : pyval;
}.

Definition jsonify (v : pyval) (code : Z) : response :=
  {| status := code; body := v |}.

Definition obj (fields : list (string * pyval)) : pyval :=
  PDict (list_to_map fields).

Definition error_body (msg : string) : pyval := obj [("error", PStr msg)].

Definition opt_float (o : option float) : pyval :=
  match o with Some f => PFloat f | None => PNone end.

(** ** Storage schema *)

Record satellite := {
  s_id : Z;
  s_norad : Z;
  s_name : string;
  s_created : Z;
}.

Record position := {
  p_id : Z;
  p_sat : Z;
  p_ts : Z;
  p_lat : float;
  p_lon : float;
  p_alt : option float;
  p_vel : option float;
  p_created : Z;
}.

Record db := {
  satellites : list satellite;
  positions : list position;
  sat_auto : Z;
  pos_auto : Z;
}.

#[global] Instance satellite_eq_dec : EqDecision satellite.
Proof. solve_decision. Defined.

#[global] Instance position_eq_dec : EqDecision position.
Proof. solve_decision. Defined.

(** The range of an [INT] column. *)
Definition int32 (z : Z) : bool := (-2147483648 <=? z) && (z <=? 2147483647).

(** A [VARCHAR(100)] column. *)
Definition varchar100 (s : string) : bool := Z.of_nat (String.length s) <=? 100.

(** The driver refuses to render [nan] and the infinities. *)
Definition bindable (f : float) : bool := float_finite f.

Definition opt_bindable (o : option float) : bool :=
  match o with Some f => bindable f | None => true end.

(** State and exceptions: a statement or a handler runs on a database and
    leaves one behind, whether it returns or raises. *)
Definition M (A : Type) : Type := db → result A * db.

#[global] Instance M_ret : MRet M := λ A a d, (Return a, d).
#[global] Instance M_bind : MBind M := λ A B k m d,
  match m d with
  | (Return a, d') => k a d'
  | (Raise e, d') => (Raise e, d')
  end.

Definition raise {A} (e : exn) : M A := λ d, (Raise e, d).

Definition lift {A} (r : result A) : M A := λ d, (r, d).

(** [try: m except e: h]. *)
Definition try_except {A} (m : M A) (e : exn) (h : M A) : M A := λ d,
  match m d with
  | (Raise e', d') => if decide (e' = e) then h d' else (Raise e', d')
  | r => r
  end.

(** What other connections do to the database between two statements. *)
Definition interference := db → db.

Definition interleave (env : interference) : M unit := λ d, (Return (), env d).

(** *** Statements on [satellites] *)

(** [SELECT id FROM satellites WHERE norad_id=%s], then [fetchone()]. *)
Definition select_satellite_by_norad (norad : Z) : M (option satellite) := λ d,
  (Return (find (λ s, s_norad s =? norad) (satellites d)), d).

(** [SELECT 1 FROM satellites WHERE id=%s], then [fetchone()]. *)
Definition select_satellite_by_id (sid : Z) : M (option satellite) := λ d,
  (Return (find (λ s, s_id s =? sid) (satellites d)), d).

(** [INSERT INTO satellites (norad_id, name) VALUES (%s, %s)], then
    [lastrowid].  A rejected duplicate still consumes a counter value. *)
Definition insert_satellite (now norad : Z) (name : option string) : M Z := λ d,
  match name with
  | None => (Raise IntegrityError, d)
  | Some nm =>
      if negb (int32 norad && varchar100 nm) then (Raise DataError, d)
      else if existsb (λ s, s_norad s =? norad) (satellites d)
      then (Raise IntegrityError,
            {| satellites := satellites d; positions := positions d;
               sat_auto := sat_auto d + 1; pos_auto := pos_auto d |})
      else (Return (sat_auto d),
            {| satellites := satellites d ++
                 [{| s_id := sat_auto d; s_norad := norad; s_name := nm;
                     s_created := now |}];
               positions := positions d;
               sat_auto := sat_auto d + 1; pos_auto := pos_auto d |})
  end.

(** The row an [UPDATE satellites SET ...] writes over [s]. *)
Definition set_satellite (name : option string) (norad : option Z) (s : satellite) : satellite :=
  {| s_id := s_id s;
     s_norad := default (s_norad s) norad;
     s_name := default (s_name s) name;
     s_created := s_created s |}.

(** [UPDATE satellites SET ... WHERE id=%s], then [rowcount]: the number of
    rows whose content changed. *)
Definition update_satellites (sid : Z) (name : option string) (norad : option Z) : M Z := λ d,
  let hit := filter (λ s, s_id s = sid) (satellites d) in
  match hit with
  | [] => (Return 0, d)
  | _ =>
      if negb (from_option int32 true norad && from_option varchar100 true name)
      then (Raise DataError, d)
      else if from_option (λ n, existsb (λ s, (s_norad s =? n) && negb (s_id s =? sid))
                                 (satellites d)) false norad
      then (Raise IntegrityError, d)
      else
        (Return (Z.of_nat (length (filter (λ s, set_satellite name norad s ≠ s) hit))),
         {| satellites :=
              (λ s, if decide (s_id s = sid) then set_satellite name norad s else s)
                <$> satellites d;
            positions := positions d;
            sat_auto := sat_auto d; pos_auto := pos_auto d |})
  end.

(** [DELETE FROM satellites WHERE id=%s], then [rowcount]; the foreign key
    of [positions] is declared [ON DELETE CASCADE]. *)
Definition delete_satellites (sid : Z) : M Z := λ d,
  match filter (λ s, s_id s = sid) (satellites d) with
  | [] => (Return 0, d)
  | hit =>
      (Return (Z.of_nat (length hit)),
       {| satellites := filter (λ s, s_id s ≠ sid) (satellites d);
          positions := filter (λ p, p_sat p ≠ sid) (positions d);
          sat_auto := sat_auto d; pos_auto := pos_auto d |})
  end.

(** *** Statements on [positions] *)

(** [INSERT INTO positions (...) VALUES (...)], then [lastrowid]. *)
Definition insert_position (now sat ts : Z) (lat lon : float) (alt vel : option float) : M Z := λ d,
  if negb (bindable lat && bindable lon && opt_bindable alt && opt_bindable vel)
  then (Raise ProgrammingError, d)
  else if negb (int32 ts) then (Raise DataError, d)
  else if negb (existsb (λ s, s_id s =? sat) (satellites d))
  then (Raise IntegrityError, d)
  else (Return (pos_auto d),
        {| satellites := satellites d;
           positions := positions d ++
             [{| p_id := pos_auto d; p_sat := sat; p_ts := ts; p_lat := lat;
                 p_lon := lon; p_alt := alt; p_vel := vel; p_created := now |}];
           sat_auto := sat_auto d; pos_auto := pos_auto d + 1 |}).

(** The columns an [UPDATE positions SET ...] may assign; [None] leaves the
    column out of the statement. *)
Record position_patch := {
  set_ts : option Z;
  set_lat : option float;
  set_lon : option float;
  set_alt : option (option float);
  set_vel : option (option float);
}.

Definition set_position (u : position_patch) (p : position) : position :=
  {| p_id := p_id p;
     p_sat := p_sat p;
     p_ts := default (p_ts p) (set_ts u);
     p_lat := default (p_lat p) (set_lat u);
     p_lon := default (p_lon p) (set_lon u);
     p_alt := default (p_alt p) (set_alt u);
     p_vel := default (p_vel p) (set_vel u);
     p_created := p_created p |}.

Definition patch_bindable (u : position_patch) : bool :=
  from_option bindable true (set_lat u) && from_option bindable true (set_lon u)
  && from_option opt_bindable true (set_alt u)
  && from_option opt_bindable true (set_vel u).

Definition patch_empty (u : position_patch) : bool :=
  match set_ts u, set_lat u, set_lon u, set_alt u, set_vel u with
  | None, None, None, None, None => true
  | _, _, _, _, _ => false
  end.

(** [UPDATE positions SET ... WHERE id=%s], then [rowcount]. *)
Definition update_positions (pid : Z) (u : position_patch) : M Z := λ d,
  if negb (patch_bindable u) then (Raise ProgrammingError, d)
  else
    let hit := filter (λ p, p_id p = pid) (positions d) in
    match hit with
    | [] => (Return 0, d)
    | _ =>
        if negb (from_option int32 true (set_ts u)) then (Raise DataError, d)
        else
          (Return (Z.of_nat (length (filter (λ p, set_position u p ≠ p) hit))),
           {| satellites := satellites d;
              positions :=
                (λ p, if decide (p_id p = pid) then set_position u p else p)
                  <$> positions d;
              sat_auto := sat_auto d; pos_auto := pos_auto d |})
    end.

(** [DELETE FROM positions WHERE id=%s], then [rowcount]. *)
Definition delete_positions (pid : Z) : M Z := λ d,
  match filter (λ p, p_id p = pid) (positions d) with
  | [] => (Return 0, d)
  | hit =>
      (Return (Z.of_nat (length hit)),
       {| satellites := satellites d;
          positions := filter (λ p, p_id p ≠ pid) (positions d);
          sat_auto := sat_auto d; pos_auto := pos_auto d |})
  end.

(** [ORDER BY `timestamp` DESC]. *)
Definition ts_desc (p q : position) : Prop := p_ts q ≤ p_ts p.

#[global] Instance ts_desc_dec : RelDecision ts_desc.
Proof. intros p q. unfold ts_desc. apply _. Defined.

Definition order_by_ts_desc (l : list position) : list position :=
  merge_sort ts_desc l.

(** [LIMIT n]. *)
Definition limit_rows {A} (n : Z) (l : list A) : list A := take (Z.to_nat n) l.

(** [FROM positions p JOIN satellites s ON s.id = p.satellite_id
    WHERE s.norad_id=%s]: one row for each matching pair. *)
Definition positions_of_norad (norad : Z) (d : db) : list position :=
  p ← positions d;
  s ← satellites d;
  if decide (s_id s = p_sat p ∧ s_norad s = norad) then [p] else [].

(** The newest [n] samples of the satellite with external identifier
    [norad], newest first. *)
Definition select_recent_by_norad (norad n : Z) : M (list position) := λ d,
  (Return (limit_rows n (order_by_ts_desc (positions_of_norad norad d))), d).

(** [SELECT ... FROM positions WHERE satellite_id=%s
    ORDER BY `timestamp` DESC LIMIT %s]. *)
Definition select_recent_by_satellite (sat n : Z) : M (list position) := λ d,
  (Return (limit_rows n (order_by_ts_desc (filter (λ p, p_sat p = sat) (positions d)))), d).

(** [cursor.fetchall()] of a [DictCursor]: the driver turns the rows into a
    list of dicts only when there is at least one; an empty result set stays
    the empty tuple it was read into. *)
Inductive fetched :=
| FetchedList (rows : list position)
| FetchedTuple.

Definition fetchall (rows : list position) : fetched :=
  match rows with
  | [] => FetchedTuple
  | _ => FetchedList rows
  end.

Definition fetched_rows (f : fetched) : list position :=
  match f with
  | FetchedList rows => rows
  | FetchedTuple => []
  end.

(** [rows.reverse()]: a method of lists only. *)
Definition reverse_rows (f : fetched) : result fetched :=
  match f with
  | FetchedList rows => Return (FetchedList (reverse rows))
  | FetchedTuple => Raise AttributeError
  end.

(** *** Rows as JSON *)

Definition history_row (p : position) : pyval :=
  obj [("timestamp", PInt (p_ts p));
       ("latitude", PFloat (p_lat p));
       ("longitude", PFloat (p_lon p));
       ("altitude_km", opt_float (p_alt p));
       ("velocity_kmh", opt_float (p_vel p))].

(** A row of [positions]; [created_at], which the framework renders as a
    date, is kept as the instant. *)
Definition position_row (p : position) : pyval :=
  obj [("id", PInt (p_id p));
       ("satellite_id", PInt (p_sat p));
       ("timestamp", PInt (p_ts p));
       ("latitude", PFloat (p_lat p));
       ("longitude", PFloat (p_lon p));
       ("altitude_km", opt_float (p_alt p));
       ("velocity_kmh", opt_float (p_vel p));
       ("created_at", PInt (p_created p))].

(** The external identifier of the tracked object. *)
Definition ISS : Z := 25544.

(** The outcome of [requests.get], [raise_for_status] and [r.json()]: the
    decoded document, or any exception of the three. *)
Inductive fetch :=
| FetchFailed
| FetchOk (data : pyval).

(** *** Aggregates and listings *)

(** [MIN(...)] and [MAX(...)]: [NULL] over no row. *)
Definition min_of (l : list Z) : option Z :=
  foldr (λ z acc, Some (from_option (Z.min z) z acc)) None l.

Definition max_of (l : list Z) : option Z :=
  foldr (λ z acc, Some (from_option (Z.max z) z acc)) None l.

(** [SELECT COUNT( * ) AS cnt, MIN(p.`timestamp`) AS min_ts,
    MAX(p.`timestamp`) AS max_ts FROM positions p JOIN satellites s ...
    WHERE s.norad_id=%s], then [fetchone()]: an aggregate always has its
    one row. *)
Definition select_status (norad : Z) : M (Z * option Z * option Z) := λ d,
  let ts := p_ts <$> positions_of_norad norad d in
  (Return (Z.of_nat (length ts), min_of ts, max_of ts), d).

(** [(SELECT COUNT( * ) FROM positions p WHERE p.satellite_id = s.id)]. *)
Definition position_count (sid : Z) (d : db) : Z :=
  Z.of_nat (length (filter (λ p, p_sat p = sid) (positions d))).

(** [ORDER BY s.id ASC]. *)
Definition id_asc (a b : satellite) : Prop := s_id a ≤ s_id b.

#[global] Instance id_asc_dec : RelDecision id_asc.
Proof. intros a b. unfold id_asc. apply _. Defined.

(** [SELECT s.id, s.norad_id, s.name, s.created_at, (...) AS position_count
    FROM satellites s ORDER BY s.id ASC]. *)
Definition select_satellites : M (list (satellite * Z)) := λ d,
  (Return ((λ s, (s, position_count (s_id s) d)) <$> merge_sort id_asc (satellites d)), d).

Definition opt_int (o : option Z) : pyval :=
  match o with Some z => PInt z | None => PNone end.

(** A row of the satellites listing; [created_at] is kept as the instant. *)
Definition satellite_row (r : satellite * Z) : pyval :=
  obj [("id", PInt (s_id r.1));
       ("norad_id", PInt (s_norad r.1));
       ("name", PStr (s_name r.1));
       ("created_at", PInt (s_created r.1));
       ("position_count", PInt r.2)].

(** The columns of a sample that the CSV export writes, in order. *)
Definition csv_fields (p : position) : list pyval :=
  [PInt (p_ts p); PFloat (p_lat p); PFloat (p_lon p);
   opt_float (p_alt p); opt_float (p_vel p)].

Definition csv_header : list pyval :=
  [PStr "timestamp"; PStr "latitude"; PStr "longitude";
   PStr "altitude_km"; PStr "velocity_kmh"].

(** A [Response] with a text body served as a file. *)
Record attachment := {
  att_status : Z;
  att_mimetype : string;
  att_disposition : string;
  att_data : string;
}.

(** ** The handlers *)

Section Handlers.

(** [float(s)] for text, [None] being [ValueError]. *)
Variable float_of_string : string → option float.

(** The text the driver and the server make of a value other than a string
    or [None] when it is bound to a [VARCHAR] column. *)
Variable driver_text : pyval → result string.

Definition py_float (v : pyval) : result float :=
  match v with
  | PNone => Raise TypeError
  | PBool b => float_of_Z (if b then 1 else 0)
  | PInt z => float_of_Z z
  | PFloat f => Return f
  | PStr s => match float_of_string s with Some f => Return f | None => Raise ValueError end
  | PList _ | PDict _ => Raise TypeError
  end.

(** [None if v in (None, '') else float(v)]. *)
Definition py_opt_float (v : pyval) : result (option float) :=
  if is_blank v then Return None else f ← py_float v; mret (Some f).

(** The value bound to the [name] column; [None] is SQL [NULL]. *)
Definition bind_name (v : pyval) : result (option string) :=
  match v with
  | PStr s => Return (Some s)
  | PNone => Return None
  | _ => s ← driver_text v; mret (Some s)
  end.

(** [get_satellite_id(norad_id, name)].  [env1] and [env2] are what other
    connections do between the three statements; a request served alone
    has [id] for both. *)
Definition get_satellite_id (env1 env2 : interference) (now norad : Z) (name : pyval) : M Z :=
  row ← select_satellite_by_norad norad;
  match row with
  | Some s => mret (s_id s)
  | None =>
      _ ← interleave env1;
      try_except
        (nm ← lift (bind_name name);
         insert_satellite now norad nm)
        IntegrityError
        (_ ← interleave env2;
         row' ← select_satellite_by_norad norad;
         match row' with
         | Some s => mret (s_id s)
         | None => raise TypeError
         end)
  end.

(** [GET /api/iss]. *)
Definition api_iss (now : Z) (f : fetch) : M response :=
  match f with
  | FetchFailed =>
      rows ← select_recent_by_norad ISS 1;
      match head rows with
      | Some row =>
          mret (jsonify (obj [("source", PStr "cache");
                              ("timestamp", PInt (p_ts row));
                              ("latitude", PFloat (p_lat row));
                              ("longitude", PFloat (p_lon row));
                              ("altitude_km", opt_float (p_alt row));
                              ("velocity_kmh", opt_float (p_vel row))]) 200)
      | None => mret (jsonify (error_body "Failed to fetch ISS position") 502)
      end
  | FetchOk data =>
      name ← lift (py_get data "name" (PStr "ISS"));
      sid ← get_satellite_id id id now ISS name;
      ts ← lift (v ← py_item data "timestamp"; x ← py_float v; float_trunc x);
      lat ← lift (v ← py_item data "latitude"; py_float v);
      lon ← lift (v ← py_item data "longitude"; py_float v);
      alt ← lift (v ← py_get data "altitude" (PInt 0); py_float v);
      vel ← lift (v ← py_get data "velocity" (PInt 0); py_float v);
      _ ← insert_position now sid ts lat lon (Some alt) (Some vel);
      mret (jsonify (obj [("source", PStr "live");
                          ("timestamp", PInt ts);
                          ("latitude", PFloat lat);
                          ("longitude", PFloat lon);
                          ("altitude_km", PFloat alt);
                          ("velocity_kmh", PFloat vel)]) 200)
  end.

(** [int(request.args.get('limit', dflt))], then [max(1, min(limit, top))]. *)
Definition limit_of (arg : option string) (dflt top : Z) : result Z :=
  n ← py_int (from_option PStr (PInt dflt) arg);
  mret (Z.max 1 (Z.min n top)).

(** [GET /api/history]. *)
Definition api_history (limit_arg : option string) : M response :=
  limit ← lift (limit_of limit_arg 50 1000);
  rows ← select_recent_by_norad ISS limit;
  rows ← lift (reverse_rows (fetchall rows));
  mret (jsonify (PList (history_row <$> fetched_rows rows)) 200).

(** [POST /api/satellites]. *)
Definition create_satellite (now : Z) (r : request) : M response :=
  let data := request_data r in
  v ← lift (data_get data "name");
  name ← lift (py_strip (py_or v (PStr "")));
  norad ← lift (data_get data "norad_id");
  if String.eqb name "" || match norad with PNone => true | _ => false end
  then mret (jsonify (error_body "name and norad_id are required") 400)
  else
    match py_int norad with
    | Raise ValueError => mret (jsonify (error_body "norad_id must be integer") 400)
    | Raise e => raise e
    | Return norad =>
        try_except
          (sid ← insert_satellite now norad (Some name);
           mret (jsonify (obj [("id", PInt sid); ("norad_id", PInt norad);
                               ("name", PStr name)]) 201))
          IntegrityError
          (mret (jsonify (error_body "norad_id already exists") 409))
    end.

(** [if k in data: ... conv(data[k])], [None] when the key is absent. *)
Definition field_opt {A} (data : reqdata) (k : string) (conv : pyval → result A) : result (option A) :=
  has ← data_contains data k;
  if has : bool then v ← data_item data k; x ← conv v; mret (Some x) else mret None.

(** [PUT /api/satellites/<int:sid>]. *)
Definition update_satellite (sid : Z) (r : request) : M response :=
  let data := request_data r in
  name ← lift (field_opt data "name" (λ v, py_strip (py_or v (PStr ""))));
  match field_opt data "norad_id" py_int with
  | Raise ValueError => mret (jsonify (error_body "norad_id must be integer") 400)
  | Raise e => raise e
  | Return norad =>
      if is_none name && is_none norad
      then mret (jsonify (error_body "no fields to update") 400)
      else
        try_except
          (n ← update_satellites sid name norad;
           if n =? 0
           then mret (jsonify (error_body "satellite not found") 404)
           else mret (jsonify (obj [("updated", PBool true)]) 200))
          IntegrityError
          (mret (jsonify (error_body "norad_id already exists") 409))
  end.

(** [DELETE /api/satellites/<int:sid>]. *)
Definition delete_satellite (sid : Z) : M response :=
  deleted ← delete_satellites sid;
  if deleted =? 0
  then mret (jsonify (error_body "satellite not found") 404)
  else mret (jsonify (obj [("deleted", PBool true)]) 200).

(** The tail of [list_positions], once [sat_id] is settled. *)
Definition list_positions_of (sat_id : pyval) (limit : Z) : M response :=
  if negb (truthy sat_id)
  then mret (jsonify (error_body "satellite_id or norad_id required") 400)
  else
    match py_int sat_id with
    | Raise ValueError => mret (jsonify (error_body "satellite_id must be integer") 400)
    | Raise e => raise e
    | Return sat =>
        rows ← select_recent_by_satellite sat limit;
        mret (jsonify (PList (position_row <$> fetched_rows (fetchall rows))) 200)
    end.

(** [GET /api/positions]. *)
Definition list_positions (sat_arg norad_arg limit_arg : option string) : M response :=
  let sat_id := from_option PStr PNone sat_arg in
  let norad := from_option PStr PNone norad_arg in
  limit ← lift (limit_of limit_arg 50 1000);
  if truthy norad && negb (truthy sat_id)
  then
    match py_int norad with
    | Raise ValueError => mret (jsonify (error_body "norad_id must be integer") 400)
    | Raise e => raise e
    | Return n =>
        r ← select_satellite_by_norad n;
        match r with
        | None => mret (jsonify (PList []) 200)
        | Some s => list_positions_of (PInt (s_id s)) limit
        end
    end
  else list_positions_of sat_id limit.

(** [POST /api/positions]. *)
Definition create_position (now : Z) (r : request) : M response :=
  let data := request_data r in
  if data_empty data
  then mret (jsonify (error_body "no data provided") 400)
  else
    sat_id ← lift (data_get data "satellite_id");
    match py_int sat_id with
    | Raise TypeError | Raise ValueError =>
        mret (jsonify (error_body "satellite_id is required (int)") 400)
    | Raise e => raise e
    | Return sat_id =>
        ts ← lift (data_get data "timestamp");
        match (if is_default_timestamp ts then Return now else py_int ts) with
        | Raise ValueError =>
            mret (jsonify (error_body "timestamp must be unix seconds") 400)
        | Raise e => raise e
        | Return ts =>
            match (a ← data_get data "latitude"; lat ← py_float a;
                   b ← data_get data "longitude"; lon ← py_float b;
                   mret (lat, lon)) with
            | Raise TypeError | Raise ValueError =>
                mret (jsonify (error_body "latitude and longitude are required numbers") 400)
            | Raise e => raise e
            | Return (lat, lon) =>
                alt ← lift (data_get data "altitude_km");
                vel ← lift (data_get data "velocity_kmh");
                alt_val ← lift (py_opt_float alt);
                vel_val ← lift (py_opt_float vel);
                found ← select_satellite_by_id sat_id;
                match found with
                | None => mret (jsonify (error_body "satellite not found") 404)
                | Some _ =>
                    pid ← insert_position now sat_id ts lat lon alt_val vel_val;
                    mret (jsonify (obj [("id", PInt pid);
                                        ("satellite_id", PInt sat_id);
                                        ("timestamp", PInt ts);
                                        ("latitude", PFloat lat);
                                        ("longitude", PFloat lon);
                                        ("altitude_km", opt_float alt_val);
                                        ("velocity_kmh", opt_float vel_val)]) 201)
                end
            end
        end
    end.

(** [PUT /api/positions/<int:pid>]. *)
Definition update_position_row (pid : Z) (r : request) : M response :=
  let data := request_data r in
  match field_opt data "timestamp" py_int with
  | Raise ValueError => mret (jsonify (error_body "timestamp must be int") 400)
  | Raise e => raise e
  | Return ts =>
      match field_opt data "latitude" py_float with
      | Raise ValueError => mret (jsonify (error_body "latitude must be number") 400)
      | Raise e => raise e
      | Return lat =>
          match field_opt data "longitude" py_float with
          | Raise ValueError => mret (jsonify (error_body "longitude must be number") 400)
          | Raise e => raise e
          | Return lon =>
              alt ← lift (field_opt data "altitude_km" py_opt_float);
              vel ← lift (field_opt data "velocity_kmh" py_opt_float);
              let u := {| set_ts := ts; set_lat := lat; set_lon := lon;
                          set_alt := alt; set_vel := vel |} in
              if patch_empty u
              then mret (jsonify (error_body "no fields to update") 400)
              else
                n ← update_positions pid u;
                if n =? 0
                then mret (jsonify (error_body "position not found") 404)
                else mret (jsonify (obj [("updated", PBool true)]) 200)
          end
      end
  end.

(** [DELETE /api/positions/<int:pid>]. *)
Definition delete_position_row (pid : Z) : M response :=
  deleted ← delete_positions pid;
  if deleted =? 0
  then mret (jsonify (error_body "position not found") 404)
  else mret (jsonify (obj [("deleted", PBool true)]) 200).

(** [GET /api/status]. *)
Definition api_status : M response :=
  row ← select_status ISS;
  points ← lift (py_int (py_or (PInt row.1.1) (PInt 0)));
  mret (jsonify (obj [("points", PInt points);
                      ("first_timestamp", opt_int row.1.2);
                      ("last_timestamp", opt_int row.2)]) 200).

(** [GET /api/satellites]. *)
Definition list_satellites : M response :=
  rows ← select_satellites;
  mret (jsonify (PList (satellite_row <$> rows)) 200).

(** [setup_app()], on the schema [init_db()] has created: the key that
    [get_satellite_id] returns is dropped and the function returns [None]. *)
Definition setup_app (now : Z) : M unit :=
  _ ← get_satellite_id id id now ISS (PStr "ISS");
  mret ().

End Handlers.

Section CsvExport.

(** The line [csv.writer] writes for one row of values. *)
Variable csv_line : list pyval → string.

(** [GET /api/history.csv]. *)
Definition api_history_csv (limit_arg : option string) : M attachment :=
  limit ← lift (limit_of limit_arg 500 5000);
  rows ← select_recent_by_norad ISS limit;
  rows ← lift (reverse_rows (fetchall rows));
  mret {| att_status := 200;
          att_mimetype := "text/csv";
          att_disposition := "attachment; filename=iss_history.csv";
          att_data := String.concat ""
            (csv_line csv_header :: (csv_line ∘ csv_fields <$> fetched_rows rows)) |}.

End CsvExport.

(** ** Sample states and requests

    Concrete inputs on which the handlers are run below. *)

(** Agrees with [float(s)] on integer literals that a binary64 holds
    exactly and rejects all other text; none of the samples sends other
    text to [float]. *)
Definition integer_strtod (s : string) : option float :=
  z ← int_of_string s;
  if Z.abs z <? 2 ^ 53
  then match float_of_Z z with Return f => Some f | Raise _ => None end
  else None.

(** None of the samples binds anything but a string to a text column. *)
Definition no_driver_text (v : pyval) : result string := Raise TypeError.

Definition json_request (fields : list (string * pyval)) : request :=
  {| req_json := Some (obj fields); req_form := ∅ |}.

Definition empty_db : db :=
  {| satellites := []; positions := []; sat_auto := 1; pos_auto := 1 |}.

(** The database [setup_app()] leaves on a fresh schema at time 1000
    ([setup_app_seeds]). *)
Definition seeded_db : db :=
  {| satellites := [{| s_id := 1; s_norad := ISS; s_name := "ISS"; s_created := 1000 |}];
     positions := []; sat_auto := 2; pos_auto := 1 |}.

Definition half : float := S754_finite false 1 (-1).

Definition sample_at (pid ts : Z) : position :=
  {| p_id := pid; p_sat := 1; p_ts := ts; p_lat := half; p_lon := half;
     p_alt := None; p_vel := None; p_created := ts |}.

(** The seeded database after samples at 1700000000 and 1700000060. *)
Definition tracked_db : db :=
  {| satellites := satellites seeded_db;
     positions := [sample_at 1 1700000000; sample_at 2 1700000060];
     sat_auto := 2; pos_auto := 3 |}.

(** The tracked database with a second satellite and one sample of it. *)
Definition paired_db : db :=
  {| satellites := satellites seeded_db ++
       [{| s_id := 2; s_norad := 20580; s_name := "Hubble"; s_created := 1500 |}];
     positions := positions tracked_db ++
       [{| p_id := 3; p_sat := 2; p_ts := 1700000030; p_lat := half; p_lon := half;
           p_alt := None; p_vel := None; p_created := 1700000030 |}];
     sat_auto := 3; pos_auto := 4 |}.

Definition ten : float :=
  Eval vm_compute in default S754_nan (integer_strtod "10").

Definition twenty : float :=
  Eval vm_compute in default S754_nan (integer_strtod "20").

(** The tracked object with fifty samples, one a second from 1700000001. *)
Definition crowded_db : db :=
  {| satellites := satellites seeded_db;
     positions := (λ i, sample_at i (1700000000 + i)) <$> seqZ 1 50;
     sat_auto := 2; pos_auto := 51 |}.

(** A request to record a sample of satellite 1 with the timestamp given. *)
Definition sample_request (ts : pyval) : request :=
  json_request [("satellite_id", PInt 1); ("timestamp", ts);
                ("latitude", PInt 10); ("longitude", PStr "20")].

(** The sample that request describes, under key [pid], when it is
    received at time [now] and stored with timestamp [ts]. *)
Definition requested_sample (pid ts now : Z) : position :=
  {| p_id := pid; p_sat := 1; p_ts := ts; p_lat := ten; p_lon := twenty;
     p_alt := None; p_vel := None; p_created := now |}.

(** A reading as the live source sends it, with a fractional timestamp and
    neither altitude nor velocity. *)
Definition bare_reading : gmap string pyval :=
  list_to_map [("name", PStr "iss");
               ("timestamp", PFloat (S754_finite false 6800000003 (-2)));
               ("latitude", PInt 10); ("longitude", PInt 20)].

(** The line [csv.writer] writes for a row of text, integers, [None] and
    the float 0.5, the only float in the samples of [tracked_db]: the
    values in decimal, separated by commas, then CR LF. *)
Definition sample_field_text (v : pyval) : string :=
  match v with
  | PStr s => s
  | PInt z => pretty z
  | PFloat _ => "0.5"
  | _ => ""
  end.

Definition sample_csv_line (row : list pyval) : string :=
  String.concat "," (sample_field_text <$> row)
  ++ String (ascii_of_nat 13) (String (ascii_of_nat 10) "").

(** Another connection registers the tracked object at time 1000, as
    [setup_app()] of a second worker does. *)
Definition concurrent_seed : interference := λ _, seeded_db.

(** ** Vocabulary of the statements *)

(** Oldest first. *)
Definition ts_asc (p q : position) : Prop := p_ts p ≤ p_ts q.

(** What the schema guarantees of a stored satellite and of a stored
    sample: keys below the counter, values within their columns, and the
    sample's satellite present. *)
Definition satellite_ok (d : db) (s : satellite) : Prop :=
  s_id s < sat_auto d ∧ int32 (s_norad s) = true ∧ varchar100 (s_name s) = true.

Definition position_ok (d : db) (p : position) : Prop :=
  p_id p < pos_auto d ∧ int32 (p_ts p) = true ∧
  bindable (p_lat p) = true ∧ bindable (p_lon p) = true ∧
  opt_bindable (p_alt p) = true ∧ opt_bindable (p_vel p) = true ∧
  Exists (λ s, s_id s = p_sat p) (satellites d).

(** A database the engine can be in: primary keys and external
    identifiers are unique and every row is within the schema. *)
Definition wf (d : db) : Prop :=
  NoDup (s_id <$> satellites d) ∧
  NoDup (s_norad <$> satellites d) ∧
  NoDup (p_id <$> positions d) ∧
  Forall (satellite_ok d) (satellites d) ∧
  Forall (position_ok d) (positions d).

#[global] Instance satellite_ok_dec d s : Decision (satellite_ok d s).
Proof. unfold satellite_ok. apply _. Defined.

#[global] Instance position_ok_dec d p : Decision (position_ok d p).
Proof. unfold position_ok. apply _. Defined.

#[global] Instance wf_dec d : Decision (wf d).
Proof. unfold wf. apply _. Defined.

(** The request body does not carry the field [k]. *)
Definition absent (data : reqdata) (k : string) : Prop :=
  data_contains data k ≠ Return true.

(** How an update of satellite [sid] carrying [data] may change the table:
    row by row, in place; the key and the creation time stay, rows of
    other keys stay whole, and a column stays unless its field is in the
    request. *)
Definition satellite_frame (sid : Z) (data : reqdata) (old new : list satellite) : Prop :=
  Forall2 (λ s s',
    s_id s' = s_id s ∧ s_created s' = s_created s ∧
    (s_id s ≠ sid → s' = s) ∧
    (absent data "name" → s_name s' = s_name s) ∧
    (absent data "norad_id" → s_norad s' = s_norad s)) old new.

Definition position_frame (pid : Z) (data : reqdata) (old new : list position) : Prop :=
  Forall2 (λ p p',
    p_id p' = p_id p ∧ p_sat p' = p_sat p ∧ p_created p' = p_created p ∧
    (p_id p ≠ pid → p' = p) ∧
    (absent data "timestamp" → p_ts p' = p_ts p) ∧
    (absent data "latitude" → p_lat p' = p_lat p) ∧
    (absent data "longitude" → p_lon p' = p_lon p) ∧
    (absent data "altitude_km" → p_alt p' = p_alt p) ∧
    (absent data "velocity_kmh" → p_vel p' = p_vel p)) old new.

(** The body of the answer to a successful [POST /api/positions]. *)
Definition created_body (p : position) : pyval :=
  obj [("id", PInt (p_id p));
       ("satellite_id", PInt (p_sat p));
       ("timestamp", PInt (p_ts p));
       ("latitude", PFloat (p_lat p));
       ("longitude", PFloat (p_lon p));
       ("altitude_km", opt_float (p_alt p));
       ("velocity_kmh", opt_float (p_vel p))].

(** The fields of a JSON object. *)
Definition fields (v : pyval) : gmap string pyval :=
  match v with PDict m => m | _ => ∅ end.

(** The database after the sample [p] is appended. *)
Definition with_position (d : db) (p : position) : db :=
  {| satellites := satellites d; positions := positions d ++ [p];
     sat_auto := sat_auto d; pos_auto := pos_auto d + 1 |}.

Section Acceptance.
Context (float_of_string : string → option float).

(** The request body [data], received at time [now] on database [d], is a
    valid description of the sample [p]: it is not empty, its fields
    convert to the columns of [p] (the timestamp to the clock reading when
    it is one of the default markers), the satellite is stored, and the
    values fit their columns. *)
Definition accepted_sample (now : Z) (data : reqdata) (d : db) (p : position) : Prop :=
  data_empty data = false ∧
  (v ← data_get data "satellite_id"; py_int v) = Return (p_sat p) ∧
  (v ← data_get data "timestamp";
   if is_default_timestamp v then Return now else py_int v) = Return (p_ts p) ∧
  (v ← data_get data "latitude"; py_float float_of_string v) = Return (p_lat p) ∧
  (v ← data_get data "longitude"; py_float float_of_string v) = Return (p_lon p) ∧
  (v ← data_get data "altitude_km"; py_opt_float float_of_string v) = Return (p_alt p) ∧
  (v ← data_get data "velocity_kmh"; py_opt_float float_of_string v) = Return (p_vel p) ∧
  p_id p = pos_auto d ∧
  p_created p = now ∧
  position_ok (with_position d p) p.

End Acceptance.

(** The rows the join yields for one sample: one for each satellite in [S]
    that has its key and the external identifier [norad]. *)
Definition joined (norad : Z) (S : list satellite) (p : position) : list position :=
  s ← S;
  if decide (s_id s = p_sat p ∧ s_norad s = norad) then [p] else [].

(** A statement or handler that never changes the database. *)
Definition read_only {A} (m : M A) : Prop := ∀ d, (m d).2 = d.

(** A statement or handler that keeps the database within the schema. *)
Definition preserves {A} (m : M A) : Prop := ∀ d, wf d → wf (m d).2.

(** * Properties *)

(** ** The monad of statements *)

Lemma lift_return {A B} (a : A) (k : A → M B) d :
  (lift (Return a) ≫= k) d = k a d.
Proof. reflexivity. Qed.

Lemma lift_raise {A B} e (k : A → M B) d :
  (lift (Raise e) ≫= k) d = (Raise e, d).
Proof. reflexivity. Qed.

(** ** The samples of a satellite

    The join of the two tables, in terms of the tables themselves: a sample
    is in it when a stored satellite has its key and the external
    identifier, and once when satellite keys are unique. *)

Lemma positions_of_norad_joined norad d :
  positions_of_norad norad d = positions d ≫= joined norad (satellites d).
Proof. reflexivity. Qed.

Lemma joined_none norad S p :
  Forall (λ s, ¬ (s_id s = p_sat p ∧ s_norad s = norad)) S → joined norad S p = [].
Proof.
  unfold joined. induction 1 as [|s S Hs _ IH]; [done|].
  rewrite bind_cons, IH, decide_False by done. done.
Qed.

Lemma joined_one norad S p s0 :
  NoDup (s_id <$> S) → s0 ∈ S → s_id s0 = p_sat p → s_norad s0 = norad →
  joined norad S p = [p].
Proof.
  intros Hnd Hin Hid Hnorad.
  apply list_elem_of_split in Hin as (S1 & S2 & ->).
  rewrite fmap_app, fmap_cons in Hnd. apply NoDup_app in Hnd as (_ & Hdis & Hnd2).
  apply NoDup_cons in Hnd2 as [Hnot2 _].
  unfold joined. rewrite bind_app, bind_cons, decide_True by done.
  fold (joined norad S1 p). fold (joined norad S2 p).
  rewrite !joined_none; [done| |].
  - apply Forall_forall. intros s Hs [Heq _]. apply Hnot2.
    rewrite Hid, <- Heq. by apply list_elem_of_fmap_2.
  - apply Forall_forall. intros s Hs [Heq _]. apply (Hdis (s_id s)).
    + by apply list_elem_of_fmap_2.
    + rewrite Heq, <- Hid. left.
Qed.

Lemma joined_snoc norad S s p :
  joined norad (S ++ [s]) p =
    joined norad S p ++ (if decide (s_id s = p_sat p ∧ s_norad s = norad) then [p] else []).
Proof. unfold joined. by rewrite bind_app, bind_singleton. Qed.

Lemma bind_all_nil {A B} (f : A → list B) l :
  Forall (λ x, f x = []) l → l ≫= f = [].
Proof. induction 1 as [|x l Hx _ IH]; [done|]. by rewrite bind_cons, Hx, IH. Qed.

Lemma positions_of_norad_elem norad d p :
  p ∈ positions_of_norad norad d ↔
  p ∈ positions d ∧ Exists (λ s, s_id s = p_sat p ∧ s_norad s = norad) (satellites d).
Proof.
  unfold positions_of_norad. rewrite list_elem_of_bind. split.
  - intros (q & (s & Hp & Hs)%list_elem_of_bind & Hq).
    case_decide as Hmatch; [|by apply elem_of_nil in Hp].
    apply list_elem_of_singleton in Hp as ->.
    split; [done|]. apply Exists_exists. by exists s.
  - intros (Hp & (s & Hs & Hmatch)%Exists_exists).
    exists p. split; [|done]. apply list_elem_of_bind. exists s.
    rewrite decide_True by done. split; [left|done].
Qed.

Lemma joined_exists norad S p :
  NoDup (s_id <$> S) →
  joined norad S p =
    if decide (Exists (λ s, s_id s = p_sat p ∧ s_norad s = norad) S) then [p] else [].
Proof.
  intros Hnd. case_decide as Hex.
  - apply Exists_exists in Hex as (s & Hin & Hid & Hn).
    by apply (joined_one norad S p s).
  - apply joined_none. by apply Forall_Exists_neg.
Qed.

Lemma positions_of_norad_filter norad d :
  NoDup (s_id <$> satellites d) →
  positions_of_norad norad d =
    filter (λ p, Exists (λ s, s_id s = p_sat p ∧ s_norad s = norad) (satellites d))
      (positions d).
Proof.
  intros Hnd. rewrite positions_of_norad_joined.
  induction (positions d) as [|p l IH]; [done|].
  rewrite bind_cons, filter_cons, IH, joined_exists by done.
  by case_decide.
Qed.

Lemma positions_of_norad_none norad d :
  Forall (λ p, ¬ Exists (λ s, s_id s = p_sat p ∧ s_norad s = norad) (satellites d))
    (positions d) →
  positions_of_norad norad d = [].
Proof.
  intros Hnone. destruct (positions_of_norad norad d) as [|p l] eqn:E; [done|].
  assert (p ∈ positions_of_norad norad d) as Hp by (rewrite E; left).
  apply positions_of_norad_elem in Hp as [Hin Hex].
  rewrite Forall_forall in Hnone. by destruct (Hnone p Hin).
Qed.

Lemma positions_of_norad_some norad d :
  Exists (λ p, Exists (λ s, s_id s = p_sat p ∧ s_norad s = norad) (satellites d))
    (positions d) →
  positions_of_norad norad d ≠ [].
Proof.
  intros (p & Hin & Hex)%Exists_exists Hnil.
  assert (p ∈ positions_of_norad norad d) as Hp by (by apply positions_of_norad_elem).
  rewrite Hnil in Hp. by apply elem_of_nil in Hp.
Qed.

(** ** Ordering by timestamp *)

#[global] Instance ts_desc_trans : Transitive ts_desc.
Proof. unfold ts_desc. intros p q r ? ?. lia. Qed.

#[global] Instance ts_desc_total : Total ts_desc.
Proof. unfold ts_desc. intros p q. lia. Qed.

Lemma order_by_ts_desc_perm l : order_by_ts_desc l ≡ₚ l.
Proof. apply merge_sort_Permutation. Qed.

Lemma order_by_ts_desc_sorted l : StronglySorted ts_desc (order_by_ts_desc l).
Proof. apply (StronglySorted_merge_sort _). Qed.

Lemma order_by_ts_desc_elem p l : p ∈ order_by_ts_desc l ↔ p ∈ l.
Proof. by rewrite order_by_ts_desc_perm. Qed.

Lemma order_by_ts_desc_nil l : order_by_ts_desc l = [] ↔ l = [].
Proof.
  split; intros H.
  - apply Permutation_nil_r. rewrite <- H. symmetry. apply order_by_ts_desc_perm.
  - subst. reflexivity.
Qed.

(** The first row of the ordered result is a newest one. *)
Lemma order_by_ts_desc_head l p :
  head (order_by_ts_desc l) = Some p →
  p ∈ l ∧ ∀ q, q ∈ l → p_ts q ≤ p_ts p.
Proof.
  intros Hhd.
  pose proof (order_by_ts_desc_sorted l) as Hs.
  destruct (order_by_ts_desc l) as [|p' rest] eqn:E; simplify_eq/=.
  split.
  - apply order_by_ts_desc_elem. rewrite E. left.
  - intros q Hq. apply order_by_ts_desc_elem in Hq. rewrite E in Hq.
    apply StronglySorted_cons in Hs as [Hall _].
    apply elem_of_cons in Hq as [->|Hq]; [lia|].
    rewrite Forall_forall in Hall. apply (Hall q Hq).
Qed.

(** The first [n] rows of the ordered result are [n] newest ones: what is
    left out is no newer than anything kept. *)
Lemma limit_order_by_split n l :
  ∃ rest,
    limit_rows n (order_by_ts_desc l) ++ rest ≡ₚ l ∧
    ∀ p q, p ∈ limit_rows n (order_by_ts_desc l) → q ∈ rest → p_ts q ≤ p_ts p.
Proof.
  exists (drop (Z.to_nat n) (order_by_ts_desc l)). unfold limit_rows. split.
  - rewrite take_drop. apply order_by_ts_desc_perm.
  - intros p q Hp Hq.
    pose proof (order_by_ts_desc_sorted l) as Hs.
    rewrite <- (take_drop (Z.to_nat n)) in Hs.
    apply (StronglySorted_app_1_elem_of _ _ _ _ _ Hs Hp Hq).
Qed.

Lemma limit_rows_length {A} n (l : list A) :
  length (limit_rows n l) = Nat.min (Z.to_nat n) (length l).
Proof. apply length_take. Qed.

Lemma limit_rows_one {A} (l : list A) : head (limit_rows 1 l) = head l.
Proof. by destruct l. Qed.

(** ** Ingestion fallback *)

Section Fallback.
Context (float_of_string : string → option float) (driver_text : pyval → result string).

Lemma api_iss_uncached now d :
  positions_of_norad ISS d = [] →
  api_iss float_of_string driver_text now FetchFailed d =
    (Return (jsonify (error_body "Failed to fetch ISS position") 502), d).
Proof.
  intros Hnil. unfold api_iss, select_recent_by_norad, mbind, M_bind, mret, M_ret.
  by rewrite limit_rows_one, Hnil.
Qed.

Lemma api_iss_cached now d p :
  head (order_by_ts_desc (positions_of_norad ISS d)) = Some p →
  api_iss float_of_string driver_text now FetchFailed d =
    (Return (jsonify (obj [("source", PStr "cache");
                           ("timestamp", PInt (p_ts p));
                           ("latitude", PFloat (p_lat p));
                           ("longitude", PFloat (p_lon p));
                           ("altitude_km", opt_float (p_alt p));
                           ("velocity_kmh", opt_float (p_vel p))]) 200), d).
Proof.
  intros Hhd. unfold api_iss, select_recent_by_norad, mbind, M_bind, mret, M_ret.
  by rewrite limit_rows_one, Hhd.
Qed.

Lemma order_by_ts_desc_has_head l :
  l ≠ [] → ∃ p, head (order_by_ts_desc l) = Some p.
Proof.
  intros Hne. destruct (order_by_ts_desc l) as [|p k] eqn:E; [|by exists p].
  by apply (proj1 (order_by_ts_desc_nil _)) in E.
Qed.

(** X23.  When the fetch itself fails (the request, its status or the
    decoding of its body raises), the ingestion endpoint leaves the
    database alone and answers from it.  When no stored sample belongs to
    a satellite with the tracked identifier it answers 502 with an error
    body.  Otherwise it answers 200 with source "cache" and the
    timestamp, latitude, longitude, altitude and velocity of a stored
    sample of such a satellite that no other such sample is newer than. *)
Theorem api_iss_fallback (now : Z) (d : db) :
  (Forall (λ p, ¬ Exists (λ s, s_id s = p_sat p ∧ s_norad s = ISS) (satellites d))
     (positions d) →
   api_iss float_of_string driver_text now FetchFailed d =
     (Return (jsonify (obj [("error", PStr "Failed to fetch ISS position")]) 502), d)) ∧
  (Exists (λ p, Exists (λ s, s_id s = p_sat p ∧ s_norad s = ISS) (satellites d))
     (positions d) →
   ∃ p,
     p ∈ positions d ∧
     Exists (λ s, s_id s = p_sat p ∧ s_norad s = ISS) (satellites d) ∧
     (∀ q, q ∈ positions d →
           Exists (λ s, s_id s = p_sat q ∧ s_norad s = ISS) (satellites d) →
           p_ts q ≤ p_ts p) ∧
     api_iss float_of_string driver_text now FetchFailed d =
       (Return (jsonify (obj [("source", PStr "cache");
                              ("timestamp", PInt (p_ts p));
                              ("latitude", PFloat (p_lat p));
                              ("longitude", PFloat (p_lon p));
                              ("altitude_km", opt_float (p_alt p));
                              ("velocity_kmh", opt_float (p_vel p))]) 200), d)).
Proof.
  split.
  - intros Hnone. by apply api_iss_uncached, positions_of_norad_none.
  - intros Hsome%positions_of_norad_some.
    destruct (order_by_ts_desc_has_head _ Hsome) as (p & Hhd).
    pose proof (order_by_ts_desc_head _ _ Hhd) as [Hin Hmax].
    apply positions_of_norad_elem in Hin as [Hin Htracked].
    exists p. split_and!; [done|done| |by apply api_iss_cached].
    intros q Hq Hqt. apply Hmax. by apply positions_of_norad_elem.
Qed.

End Fallback.

(** C1.  A response of the live source that decodes as JSON but is
    malformed is not answered from the cache, although samples of the
    tracked object are stored: without its timestamp [KeyError] escapes
    the handler, with a timestamp that is not a number [ValueError]
    does, and a document that is no object escapes as [AttributeError];
    on the same database a fetch that fails is answered with the newest
    stored sample tagged "cache". *)
Theorem api_iss_malformed_unhandled :
  api_iss integer_strtod no_driver_text 2000
    (FetchOk (obj [("latitude", PInt 10); ("longitude", PInt 20)])) tracked_db =
    (Raise KeyError, tracked_db) ∧
  api_iss integer_strtod no_driver_text 2000
    (FetchOk (obj [("timestamp", PStr "soon"); ("latitude", PInt 10);
                   ("longitude", PInt 20)])) tracked_db =
    (Raise ValueError, tracked_db) ∧
  api_iss integer_strtod no_driver_text 2000 (FetchOk (PList [])) tracked_db =
    (Raise AttributeError, tracked_db) ∧
  api_iss integer_strtod no_driver_text 2000 FetchFailed tracked_db =
    (Return (jsonify (obj [("source", PStr "cache");
                           ("timestamp", PInt 1700000060);
                           ("latitude", PFloat half);
                           ("longitude", PFloat half);
                           ("altitude_km", PNone);
                           ("velocity_kmh", PNone)]) 200), tracked_db).
Proof. split_and!; reflexivity. Qed.

Lemma api_iss_fallback_witness :
  api_iss integer_strtod no_driver_text 2000 FetchFailed seeded_db =
    (Return (jsonify (obj [("error", PStr "Failed to fetch ISS position")]) 502),
     seeded_db) ∧
  ∃ p, p ∈ positions paired_db ∧ p_sat p = 1 ∧ 1700000060 ≤ p_ts p ∧
       api_iss integer_strtod no_driver_text 2000 FetchFailed paired_db =
         (Return (jsonify (obj [("source", PStr "cache");
                                ("timestamp", PInt (p_ts p));
                                ("latitude", PFloat (p_lat p));
                                ("longitude", PFloat (p_lon p));
                                ("altitude_km", opt_float (p_alt p));
                                ("velocity_kmh", opt_float (p_vel p))]) 200),
          paired_db).
Proof.
  split.
  - apply (api_iss_fallback integer_strtod no_driver_text 2000 seeded_db). constructor.
  - destruct (api_iss_fallback integer_strtod no_driver_text 2000 paired_db)
      as (_ & Hcache).
    destruct Hcache as (p & Hin & Htracked & Hmax & Hrun); [compute_done|].
    exists p. split_and!; [exact Hin| | |exact Hrun].
    + apply Exists_exists in Htracked as (s & Hs & Hid & Hn).
      rewrite <- Hid. vm_compute in Hs.
      apply elem_of_cons in Hs as [->|Hs]; [reflexivity|].
      apply elem_of_cons in Hs as [->|Hs]; [by vm_compute in Hn|].
      by apply elem_of_nil in Hs.
    + apply (Hmax (sample_at 2 1700000060)); compute_done.
Defined.

(** ** History query *)

Lemma limit_of_clamp arg dflt top n :
  limit_of arg dflt top = Return n →
  ∃ N, py_int (from_option PStr (PInt dflt) arg) = Return N ∧ n = Z.max 1 (Z.min N top).
Proof.
  unfold limit_of. destruct (py_int _) as [N|e]; simpl; [|done].
  intros [= <-]. by exists N.
Qed.

Lemma limit_of_range arg dflt top n :
  limit_of arg dflt top = Return n → 1 ≤ top → 1 ≤ n ≤ top.
Proof. intros (N & _ & ->)%limit_of_clamp ?. lia. Qed.

Lemma limit_of_absent dflt top : limit_of None dflt top = Return (Z.max 1 (Z.min dflt top)).
Proof. reflexivity. Qed.

Lemma reverse_ts_desc_asc l :
  StronglySorted ts_desc l → StronglySorted ts_asc (reverse l).
Proof.
  intros Hs. apply Sorted_StronglySorted.
  - intros p q r. unfold ts_asc. lia.
  - apply (Sorted_reverse ts_desc). by apply StronglySorted_Sorted.
Qed.

(** The history query over the join, when the join is not empty. *)
Lemma api_history_join limit_arg n d :
  limit_of limit_arg 50 1000 = Return n →
  positions_of_norad ISS d ≠ [] →
  ∃ rows rest,
    api_history limit_arg d =
      (Return (jsonify (PList (history_row <$> rows)) 200), d) ∧
    length rows = Nat.min (Z.to_nat n) (length (positions_of_norad ISS d)) ∧
    StronglySorted ts_asc rows ∧
    rows ++ rest ≡ₚ positions_of_norad ISS d ∧
    ∀ p q, p ∈ rows → q ∈ rest → p_ts q ≤ p_ts p.
Proof.
  intros Hn Hne.
  destruct (limit_order_by_split n (positions_of_norad ISS d)) as (rest & Hperm & Hnew).
  set (kept := limit_rows n (order_by_ts_desc (positions_of_norad ISS d))) in *.
  assert (Hlen : length kept = Nat.min (Z.to_nat n) (length (positions_of_norad ISS d))).
  { unfold kept. rewrite limit_rows_length.
    by rewrite (Permutation_length (order_by_ts_desc_perm _)). }
  assert (kept ≠ []) as Hkept.
  { intros Hnil. rewrite Hnil in Hlen. simpl in Hlen.
    apply limit_of_range in Hn; [|lia].
    destruct (positions_of_norad ISS d); [done|]. simpl in Hlen. lia. }
  exists (reverse kept), rest. split_and!.
  - unfold api_history. rewrite Hn, lift_return.
    unfold select_recent_by_norad, mbind, M_bind. fold kept.
    destruct kept; [done|]. reflexivity.
  - by rewrite length_reverse.
  - apply reverse_ts_desc_asc. unfold kept, limit_rows.
    pose proof (order_by_ts_desc_sorted (positions_of_norad ISS d)) as Hs.
    rewrite <- (take_drop (Z.to_nat n)) in Hs.
    by apply StronglySorted_app_1_l in Hs.
  - by rewrite reverse_Permutation.
  - intros p q Hp Hq. rewrite elem_of_reverse in Hp. by apply Hnew.
Qed.

(** X8.  With a limit that is absent (50) or that [int] reads as [N],
    unique satellite keys, and at least one stored sample of a satellite
    with the tracked identifier, the history query answers 200 with
    [min(max(1, min(N, 1000)), count)] rows; they are a newest selection
    of the stored samples of such satellites (none left out is newer than
    one returned) and come oldest first; the database is unchanged. *)
Theorem api_history_recent (limit_arg : option string) (N : Z) (d : db) :
  py_int (from_option PStr (PInt 50) limit_arg) = Return N →
  NoDup (s_id <$> satellites d) →
  Exists (λ p, Exists (λ s, s_id s = p_sat p ∧ s_norad s = ISS) (satellites d))
    (positions d) →
  ∃ rows rest,
    api_history limit_arg d =
      (Return (jsonify (PList ((λ p, obj [("timestamp", PInt (p_ts p));
                                           ("latitude", PFloat (p_lat p));
                                           ("longitude", PFloat (p_lon p));
                                           ("altitude_km", opt_float (p_alt p));
                                           ("velocity_kmh", opt_float (p_vel p))])
                                     <$> rows)) 200), d) ∧
    length rows =
      Nat.min (Z.to_nat (Z.max 1 (Z.min N 1000)))
        (length (filter (λ p, Exists (λ s, s_id s = p_sat p ∧ s_norad s = ISS)
                                (satellites d)) (positions d))) ∧
    StronglySorted ts_asc rows ∧
    rows ++ rest ≡ₚ
      filter (λ p, Exists (λ s, s_id s = p_sat p ∧ s_norad s = ISS) (satellites d))
        (positions d) ∧
    ∀ p q, p ∈ rows → q ∈ rest → p_ts q ≤ p_ts p.
Proof.
  intros HN Hnd Hsome%positions_of_norad_some.
  rewrite <- (positions_of_norad_filter ISS d Hnd).
  apply api_history_join; [|done]. unfold limit_of. by rewrite HN.
Qed.

(** With no sample stored, [rows.reverse()] is called on the empty tuple
    that [fetchall()] returned. *)
Lemma api_history_empty limit_arg n d :
  limit_of limit_arg 50 1000 = Return n →
  positions_of_norad ISS d = [] →
  api_history limit_arg d = (Raise AttributeError, d).
Proof.
  intros Hn Hnil. unfold api_history. rewrite Hn, lift_return.
  unfold select_recent_by_norad, mbind, M_bind.
  rewrite Hnil, (proj2 (order_by_ts_desc_nil [])) by done.
  unfold limit_rows. by rewrite take_nil.
Qed.

(** A limit that is not an integer literal escapes as [ValueError]. *)
Lemma api_history_bad_limit s d :
  int_of_string s = None →
  api_history (Some s) d = (Raise ValueError, d).
Proof.
  intros Hs. unfold api_history, limit_of. simpl. by rewrite Hs.
Qed.

(** C2.  On the database that start-up leaves behind (the tracked object
    registered, no sample stored yet) the history query with the default
    limit does not answer with an empty list of rows: the [AttributeError]
    of [rows.reverse()] on an empty tuple escapes the handler. *)
Theorem api_history_no_samples :
  api_history None seeded_db = (Raise AttributeError, seeded_db).
Proof. apply (api_history_empty None 50); reflexivity. Qed.

(** ** Validation of numeric fields *)

(** C5.  Two requests with a malformed numeric field that are not answered
    with a client error: a history query whose limit is not an integer
    literal ([ValueError] escapes), and a satellite create whose external
    identifier is a JSON array ([TypeError] escapes, only [ValueError] is
    caught). *)
Theorem malformed_number_unhandled :
  api_history (Some "abc") seeded_db = (Raise ValueError, seeded_db) ∧
  create_satellite 2000
    (json_request [("name", PStr "Hubble"); ("norad_id", PList [PInt 20580])])
    seeded_db = (Raise TypeError, seeded_db).
Proof. split; reflexivity. Qed.

(** ** Looking rows up by a key *)

Section FindByKey.
Context {A : Type} (key : A → Z).

Lemma find_key_Some l k a :
  find (λ x, key x =? k) l = Some a → a ∈ l ∧ key a = k.
Proof.
  induction l as [|x l IH]; simpl; [done|].
  destruct (Z.eqb_spec (key x) k) as [Hk|Hk].
  - intros [= ->]. split; [left|done].
  - intros H. destruct (IH H) as [? ?]. split; [by right|done].
Qed.

Lemma find_key_None l k :
  find (λ x, key x =? k) l = None ↔ Forall (λ x, key x ≠ k) l.
Proof.
  induction l as [|x l IH]; simpl.
  - split; [constructor|done].
  - rewrite Forall_cons. destruct (Z.eqb_spec (key x) k) as [Hk|Hk].
    + split; [done|]. by intros [? _].
    + rewrite IH. tauto.
Qed.

Lemma find_key_unique l k a :
  NoDup (key <$> l) → a ∈ l → key a = k →
  find (λ x, key x =? k) l = Some a.
Proof.
  induction l as [|x l IH]; simpl; intros Hnd Hin Hk.
  - by apply elem_of_nil in Hin.
  - apply NoDup_cons in Hnd as [Hx Hnd].
    apply elem_of_cons in Hin as [->|Hin].
    + by rewrite (proj2 (Z.eqb_eq _ _) Hk).
    + destruct (Z.eqb_spec (key x) k) as [Hxk|Hxk]; [|by apply IH].
      exfalso. apply Hx. rewrite Hxk, <- Hk. by apply list_elem_of_fmap_2.
Qed.

Lemma existsb_key l k :
  existsb (λ x, key x =? k) l = true ↔ Exists (λ x, key x = k) l.
Proof.
  rewrite existsb_exists, Exists_exists. split.
  - intros (x & Hin%list_elem_of_In & Hk%Z.eqb_eq). eauto.
  - intros (x & Hin%list_elem_of_In & Hk%Z.eqb_eq). eauto.
Qed.

Lemma existsb_key_false l k :
  existsb (λ x, key x =? k) l = false ↔ Forall (λ x, key x ≠ k) l.
Proof.
  rewrite <- not_true_iff_false, existsb_key, <- Forall_Exists_neg.
  done.
Qed.

End FindByKey.

(** ** Inserting a satellite *)

Lemma insert_satellite_fresh now norad nm d :
  int32 norad = true → varchar100 nm = true →
  Forall (λ s, s_norad s ≠ norad) (satellites d) →
  insert_satellite now norad (Some nm) d =
    (Return (sat_auto d),
     {| satellites := satellites d ++
          [{| s_id := sat_auto d; s_norad := norad; s_name := nm; s_created := now |}];
        positions := positions d;
        sat_auto := sat_auto d + 1; pos_auto := pos_auto d |}).
Proof.
  intros Hint Hlen Hnone. unfold insert_satellite. rewrite Hint, Hlen. simpl.
  by rewrite (proj2 (existsb_key_false s_norad _ _) Hnone).
Qed.

Lemma insert_satellite_duplicate now norad nm d :
  int32 norad = true → varchar100 nm = true →
  Exists (λ s, s_norad s = norad) (satellites d) →
  insert_satellite now norad (Some nm) d =
    (Raise IntegrityError,
     {| satellites := satellites d; positions := positions d;
        sat_auto := sat_auto d + 1; pos_auto := pos_auto d |}).
Proof.
  intros Hint Hlen Hsome. unfold insert_satellite. rewrite Hint, Hlen. simpl.
  by rewrite (proj2 (existsb_key s_norad _ _) Hsome).
Qed.

(** ** Identity resolver *)

Section Resolver.
Context (driver_text : pyval → result string).

(** C4.  The identity resolver, for an external identifier [norad] and a
    display name, under any interference [env1], [env2] of other
    connections between its statements:
    - when a record with that external identifier exists it returns the
      key of that record and changes nothing;
    - when none exists and none appears before the insert, it inserts a
      record with the next key and returns that key;
    - when none exists at the first look-up but another connection has
      inserted one before the insert, the insert is refused for the
      duplicate identifier and the resolver returns the key of the record
      it finds on looking again, instead of failing. *)
Theorem get_satellite_id_resolves (env1 env2 : interference) (now norad : Z) (name : pyval) (d : db) :
  (∀ s, NoDup (s_norad <$> satellites d) → s ∈ satellites d → s_norad s = norad →
        get_satellite_id driver_text env1 env2 now norad name d = (Return (s_id s), d)) ∧
  (∀ nm, Forall (λ s, s_norad s ≠ norad) (satellites d) →
         Forall (λ s, s_norad s ≠ norad) (satellites (env1 d)) →
         bind_name driver_text name = Return (Some nm) →
         int32 norad = true → varchar100 nm = true →
         ∃ d', get_satellite_id driver_text env1 env2 now norad name d =
                 (Return (sat_auto (env1 d)), d') ∧
               satellites d' = satellites (env1 d) ++
                 [{| s_id := sat_auto (env1 d); s_norad := norad; s_name := nm;
                     s_created := now |}] ∧
               positions d' = positions (env1 d)) ∧
  (∀ nm, Forall (λ s, s_norad s ≠ norad) (satellites d) →
         Exists (λ s, s_norad s = norad) (satellites (env1 d)) →
         bind_name driver_text name = Return (Some nm) →
         int32 norad = true → varchar100 nm = true →
         ∃ d2, insert_satellite now norad (Some nm) (env1 d) = (Raise IntegrityError, d2) ∧
               satellites d2 = satellites (env1 d) ∧
               ∀ w, NoDup (s_norad <$> satellites (env2 d2)) →
                    w ∈ satellites (env2 d2) → s_norad w = norad →
                    get_satellite_id driver_text env1 env2 now norad name d =
                      (Return (s_id w), env2 d2)).
Proof.
  unfold get_satellite_id, select_satellite_by_norad, interleave, try_except, lift,
    mbind, M_bind, mret, M_ret.
  split_and!.
  - intros s Hnd Hin Hk. by rewrite (find_key_unique s_norad _ _ s).
  - intros nm Hnone Hnone1 Hnm Hint Hlen.
    rewrite (proj2 (find_key_None s_norad _ _) Hnone), Hnm.
    rewrite insert_satellite_fresh by done.
    eexists. split; [reflexivity|]. done.
  - intros nm Hnone Hsome Hnm Hint Hlen.
    rewrite insert_satellite_duplicate by done.
    eexists. split; [reflexivity|]. split; [done|].
    intros w Hnd Hin Hk.
    rewrite (proj2 (find_key_None s_norad _ _) Hnone), Hnm.
    rewrite insert_satellite_duplicate by done. simpl.
    by rewrite (find_key_unique s_norad _ _ w).
Qed.

End Resolver.

Lemma get_satellite_id_resolves_witness :
  get_satellite_id no_driver_text id id 2000 ISS (PStr "ISS") seeded_db =
    (Return 1, seeded_db) ∧
  (∃ d', get_satellite_id no_driver_text id id 2000 ISS (PStr "ISS") empty_db =
           (Return 1, d') ∧
         satellites d' =
           [{| s_id := 1; s_norad := ISS; s_name := "ISS"; s_created := 2000 |}] ∧
         positions d' = []) ∧
  get_satellite_id no_driver_text concurrent_seed id 2000 ISS (PStr "ISS") empty_db =
    (Return 1, {| satellites := satellites seeded_db; positions := [];
                  sat_auto := 3; pos_auto := 1 |}).
Proof.
  split_and!.
  - destruct (get_satellite_id_resolves no_driver_text id id 2000 ISS (PStr "ISS")
                seeded_db) as (Hexists & _ & _).
    apply (Hexists {| s_id := 1; s_norad := ISS; s_name := "ISS"; s_created := 1000 |});
      [compute_done | left | reflexivity].
  - destruct (get_satellite_id_resolves no_driver_text id id 2000 ISS (PStr "ISS")
                empty_db) as (_ & Hfresh & _).
    apply (Hfresh "ISS");
      [compute_done | compute_done | reflexivity | reflexivity | reflexivity].
  - destruct (get_satellite_id_resolves no_driver_text concurrent_seed id 2000 ISS
                (PStr "ISS") empty_db) as (_ & _ & Hrace).
    destruct (Hrace "ISS") as (d2 & Hins & Hsat & Hget);
      [compute_done | compute_done | reflexivity | reflexivity | reflexivity |].
    injection Hins as <-.
    apply (Hget {| s_id := 1; s_norad := ISS; s_name := "ISS"; s_created := 1000 |});
      [compute_done | left | reflexivity].
Defined.

(** ** Creating and deleting satellites *)

Lemma filter_none {A} (P : A → Prop) `{∀ x, Decision (P x)} (l : list A) :
  Forall (λ x, ¬ P x) l → filter P l = [].
Proof.
  induction 1 as [|x l Hx _ IH]; [done|].
  by rewrite filter_cons_False.
Qed.

Lemma filter_key_unique {A} (key : A → Z) (l : list A) (a : A) :
  NoDup (key <$> l) → a ∈ l →
  filter (λ x, key x = key a) l = [a].
Proof.
  induction l as [|x l IH]; simpl; intros Hnd Hin.
  - by apply elem_of_nil in Hin.
  - apply NoDup_cons in Hnd as [Hx Hnd].
    assert (Hrest : ∀ y, y ∈ l → key y = key x → False).
    { intros y Hy Heq. apply Hx. rewrite <- Heq. by apply list_elem_of_fmap_2. }
    apply elem_of_cons in Hin as [->|Hin].
    + rewrite filter_cons_True by done. f_equal.
      apply filter_none. apply Forall_forall. intros y Hy Heq. eauto.
    + rewrite filter_cons_False; [by apply IH|].
      intros Heq. eauto.
Qed.

Lemma wf_norad_int32 d s : wf d → s ∈ satellites d → int32 (s_norad s) = true.
Proof.
  intros (_ & _ & _ & Hsat & _) Hin.
  rewrite Forall_forall in Hsat. by destruct (Hsat s Hin) as (_ & ? & _).
Qed.

(** C6.  In a database where a satellite with external identifier [norad]
    exists, a create request with a non-empty name and that identifier is
    answered 409 with an error body; the tables are as before (only the
    key counter has moved) and exactly one satellite with that identifier
    is stored. *)
Theorem create_satellite_conflict (now : Z) (r : request) (d : db)
    (v nv : pyval) (name : string) (norad : Z) :
  wf d →
  data_get (request_data r) "name" = Return v →
  py_strip (py_or v (PStr "")) = Return name →
  name ≠ "" →
  varchar100 name = true →
  data_get (request_data r) "norad_id" = Return nv →
  py_int nv = Return norad →
  Exists (λ s, s_norad s = norad) (satellites d) →
  ∃ d', create_satellite now r d =
          (Return (jsonify (error_body "norad_id already exists") 409), d') ∧
        satellites d' = satellites d ∧
        positions d' = positions d ∧
        length (filter (λ s, s_norad s = norad) (satellites d')) = 1%nat.
Proof.
  intros Hwf Hv Hname Hne Hlen Hnv Hint Hex.
  apply Exists_exists in Hex as Hex'. destruct Hex' as (s & Hin & Hs).
  assert (int32 norad = true) as Hrange by (rewrite <- Hs; by eapply wf_norad_int32).
  unfold create_satellite.
  rewrite Hv, lift_return, Hname, lift_return, Hnv, lift_return.
  rewrite (proj2 (String.eqb_neq _ _) Hne).
  replace (match nv with PNone => true | _ => false end) with false
    by (by destruct nv).
  cbn [orb]. rewrite Hint.
  unfold try_except, mbind, M_bind.
  rewrite insert_satellite_duplicate by done.
  rewrite decide_True by done.
  eexists. split_and!; [reflexivity|done|done|]. simpl.
  rewrite <- Hs, (filter_key_unique s_norad) by (done || apply Hwf). done.
Qed.

Lemma create_satellite_conflict_witness :
  ∃ d', create_satellite 2000
          (json_request [("name", PStr " Zarya "); ("norad_id", PStr "25544")])
          seeded_db =
          (Return (jsonify (error_body "norad_id already exists") 409), d') ∧
        satellites d' = satellites seeded_db ∧
        positions d' = positions seeded_db ∧
        length (filter (λ s, s_norad s = ISS) (satellites d')) = 1%nat.
Proof.
  apply (create_satellite_conflict 2000 _ seeded_db (PStr " Zarya ") (PStr "25544")
           "Zarya" ISS);
    [compute_done | reflexivity | reflexivity | done | reflexivity
    | reflexivity | reflexivity | compute_done].
Defined.

Lemma int_of_string_nonempty s z : int_of_string s = Some z → s ≠ "".
Proof. by intros H ->. Qed.

Lemma select_recent_by_satellite_none sat n d :
  Forall (λ p, p_sat p ≠ sat) (positions d) →
  select_recent_by_satellite sat n d = (Return [], d).
Proof.
  intros Hnone. unfold select_recent_by_satellite.
  rewrite (filter_none (λ p, p_sat p = sat)) by done.
  rewrite (proj2 (order_by_ts_desc_nil [])) by done.
  unfold limit_rows. by rewrite take_nil.
Qed.

(** A positions query by the key of a satellite that has no sample. *)
Lemma list_positions_none sat_arg norad_arg limit_arg sat n d :
  int_of_string sat_arg = Some sat →
  limit_of limit_arg 50 1000 = Return n →
  Forall (λ p, p_sat p ≠ sat) (positions d) →
  list_positions (Some sat_arg) norad_arg limit_arg d =
    (Return (jsonify (PList []) 200), d).
Proof.
  intros Hsat Hn Hnone. unfold list_positions. rewrite Hn, lift_return. simpl.
  assert (String.eqb sat_arg "" = false) as ->.
  { apply String.eqb_neq. by eapply int_of_string_nonempty. }
  rewrite andb_false_r. unfold list_positions_of. simpl.
  assert (String.eqb sat_arg "" = false) as ->.
  { apply String.eqb_neq. by eapply int_of_string_nonempty. }
  simpl. rewrite Hsat.
  unfold mbind, M_bind. by rewrite select_recent_by_satellite_none.
Qed.

(** C8.  Deleting a satellite by a key that is stored answers 200, removes
    the satellite and every sample that refers to it, and a positions query
    by that key then answers with the empty list; deleting by a key that
    is not stored answers 404 and leaves the database as it was. *)
Theorem delete_satellite_cascade (sid : Z) (d : db) :
  (Exists (λ s, s_id s = sid) (satellites d) →
   ∃ d', delete_satellite sid d =
           (Return (jsonify (obj [("deleted", PBool true)]) 200), d') ∧
         satellites d' = filter (λ s, s_id s ≠ sid) (satellites d) ∧
         positions d' = filter (λ p, p_sat p ≠ sid) (positions d) ∧
         ∀ sat_arg norad_arg limit_arg n,
           int_of_string sat_arg = Some sid →
           limit_of limit_arg 50 1000 = Return n →
           list_positions (Some sat_arg) norad_arg limit_arg d' =
             (Return (jsonify (PList []) 200), d')) ∧
  (Forall (λ s, s_id s ≠ sid) (satellites d) →
   delete_satellite sid d =
     (Return (jsonify (error_body "satellite not found") 404), d)).
Proof.
  unfold delete_satellite, delete_satellites, mbind, M_bind. split.
  - intros Hex.
    destruct (filter (λ s, s_id s = sid) (satellites d)) as [|s0 hit] eqn:Hhit.
    { exfalso. apply Exists_exists in Hex as (s & Hin & Hs).
      by apply (filter_nil_not_elem_of _ _ s Hhit Hs). }
    eexists. split_and!; [reflexivity|done|done|].
    intros sat_arg norad_arg limit_arg n Hsat Hn.
    apply (list_positions_none _ _ _ sid n); [done|done|]. simpl.
    apply Forall_forall. by intros p [? _]%list_elem_of_filter.
  - intros Hnone. by rewrite (filter_none (λ s, s_id s = sid)).
Qed.

Lemma delete_satellite_cascade_witness :
  (∃ d', delete_satellite 1 tracked_db =
           (Return (jsonify (obj [("deleted", PBool true)]) 200), d') ∧
         satellites d' = [] ∧
         positions d' = [] ∧
         list_positions (Some "1") None None d' =
           (Return (jsonify (PList []) 200), d')) ∧
  delete_satellite 9 tracked_db =
    (Return (jsonify (error_body "satellite not found") 404), tracked_db).
Proof.
  destruct (delete_satellite_cascade 1 tracked_db) as (Hdel & _).
  destruct (delete_satellite_cascade 9 tracked_db) as (_ & Hmiss).
  split.
  - destruct Hdel as (d' & Hrun & Hsat & Hpos & Hlist); [compute_done|].
    exists d'. split_and!; [done|done|done|].
    apply (Hlist "1" None None 50); reflexivity.
  - apply Hmiss. compute_done.
Defined.

(** ** Partial updates *)

Lemma field_opt_inv {A} data k (conv : pyval → result A) o :
  field_opt data k conv = Return o →
  data_contains data k = Return (bool_decide (is_Some o)).
Proof.
  unfold field_opt. destruct (data_contains data k) as [[|]|e]; simpl; [| |done].
  - destruct (data_item data k) as [v|e]; simpl; [|done].
    destruct (conv v) as [x|e]; simpl; [|done]. by intros [= <-].
  - by intros [= <-].
Qed.

Lemma field_opt_absent {A} data k (conv : pyval → result A) :
  data_contains data k = Return false → field_opt data k conv = Return None.
Proof. intros H. unfold field_opt. by rewrite H. Qed.

Lemma field_opt_absent_None {A} data k (conv : pyval → result A) o :
  field_opt data k conv = Return o → absent data k → o = None.
Proof.
  intros H%field_opt_inv Habs. destruct o; [|done].
  by destruct Habs.
Qed.

Lemma satellite_frame_refl sid data l : satellite_frame sid data l l.
Proof. apply Forall_Forall2_diag, Forall_forall. by intros s _. Qed.

Lemma position_frame_refl pid data l : position_frame pid data l l.
Proof. apply Forall_Forall2_diag, Forall_forall. intros p _. by split_and!. Qed.

Lemma update_satellites_frame sid data name norad d :
  (absent data "name" → name = None) →
  (absent data "norad_id" → norad = None) →
  positions (update_satellites sid name norad d).2 = positions d ∧
  satellite_frame sid data (satellites d) (satellites (update_satellites sid name norad d).2).
Proof.
  intros Hname Hnorad. unfold update_satellites.
  destruct (filter _ (satellites d)) as [|s0 hit]; simpl;
    [split; [done|apply satellite_frame_refl]|].
  destruct (negb _); [split; [done|apply satellite_frame_refl]|].
  destruct (from_option _ false norad); [split; [done|apply satellite_frame_refl]|].
  split; [done|]. cbn [snd satellites].
  apply Forall2_fmap_r, Forall_Forall2_diag, Forall_forall. intros s _.
  unfold compose. case_decide; [|by split_and!]. split_and!; try done; unfold set_satellite; simpl.
  - intros Ha%Hname. by rewrite Ha.
  - intros Ha%Hnorad. by rewrite Ha.
Qed.

Lemma update_positions_frame pid data u d :
  (absent data "timestamp" → set_ts u = None) →
  (absent data "latitude" → set_lat u = None) →
  (absent data "longitude" → set_lon u = None) →
  (absent data "altitude_km" → set_alt u = None) →
  (absent data "velocity_kmh" → set_vel u = None) →
  satellites (update_positions pid u d).2 = satellites d ∧
  position_frame pid data (positions d) (positions (update_positions pid u d).2).
Proof.
  intros Hts Hlat Hlon Halt Hvel. unfold update_positions.
  destruct (negb (patch_bindable u)); simpl;
    [split; [done|apply position_frame_refl]|].
  destruct (filter _ (positions d)) as [|p0 hit]; simpl;
    [split; [done|apply position_frame_refl]|].
  destruct (negb _); [split; [done|apply position_frame_refl]|].
  split; [done|]. cbn [snd positions].
  apply Forall2_fmap_r, Forall_Forall2_diag, Forall_forall. intros p _.
  unfold compose. case_decide; [|by split_and!]. split_and!; try done; unfold set_position; simpl.
  - intros Ha%Hts. by rewrite Ha.
  - intros Ha%Hlat. by rewrite Ha.
  - intros Ha%Hlon. by rewrite Ha.
  - intros Ha%Halt. by rewrite Ha.
  - intros Ha%Hvel. by rewrite Ha.
Qed.

Lemma update_satellites_missing sid name norad d :
  Forall (λ s, s_id s ≠ sid) (satellites d) →
  update_satellites sid name norad d = (Return 0, d).
Proof.
  intros Hnone. unfold update_satellites.
  by rewrite (filter_none (λ s, s_id s = sid)).
Qed.

Lemma update_positions_missing pid u d :
  patch_bindable u = true →
  Forall (λ p, p_id p ≠ pid) (positions d) →
  update_positions pid u d = (Return 0, d).
Proof.
  intros Hb Hnone. unfold update_positions. rewrite Hb. simpl.
  by rewrite (filter_none (λ p, p_id p = pid)).
Qed.

(** The update of a satellite touches nothing but the columns named in the
    request, on the row of the given key. *)
Lemma update_satellite_frame sid r d :
  positions (update_satellite sid r d).2 = positions d ∧
  satellite_frame sid (request_data r) (satellites d)
    (satellites (update_satellite sid r d).2).
Proof.
  unfold update_satellite.
  set (data := request_data r).
  assert (Hsame : positions d = positions d ∧
                  satellite_frame sid data (satellites d) (satellites d))
    by (split; [done|apply satellite_frame_refl]).
  destruct (field_opt data "name" _) as [name|e] eqn:Hname;
    [rewrite lift_return|by rewrite lift_raise].
  destruct (field_opt data "norad_id" py_int) as [norad|e] eqn:Hnorad;
    [|by destruct e].
  destruct (is_none name && is_none norad); [done|].
  pose proof (update_satellites_frame sid data name norad d
                (field_opt_absent_None _ _ _ _ Hname)
                (field_opt_absent_None _ _ _ _ Hnorad)) as Hframe.
  unfold try_except, mbind, M_bind.
  destruct (update_satellites sid name norad d) as [[n|e] d'] eqn:Hrun; simpl in *.
  - by destruct (n =? 0).
  - by destruct (decide (e = IntegrityError)).
Qed.

Lemma update_satellite_no_fields sid r d :
  data_contains (request_data r) "name" = Return false →
  data_contains (request_data r) "norad_id" = Return false →
  update_satellite sid r d =
    (Return (jsonify (error_body "no fields to update") 400), d).
Proof.
  intros Hname Hnorad. unfold update_satellite.
  by rewrite !field_opt_absent.
Qed.

Lemma update_satellite_missing sid r d name norad :
  field_opt (request_data r) "name" (λ v, py_strip (py_or v (PStr ""))) = Return name →
  field_opt (request_data r) "norad_id" py_int = Return norad →
  is_none name && is_none norad = false →
  Forall (λ s, s_id s ≠ sid) (satellites d) →
  update_satellite sid r d =
    (Return (jsonify (error_body "satellite not found") 404), d).
Proof.
  intros Hname Hnorad Hsome Hnone. unfold update_satellite.
  rewrite Hname, lift_return, Hnorad, Hsome.
  unfold try_except, mbind, M_bind.
  by rewrite update_satellites_missing.
Qed.

(** An update answered 200 has written the converted fields over every
    column named in the request, on the row of the given key. *)
Lemma update_satellite_applies sid r d d' name norad :
  field_opt (request_data r) "name" (λ v, py_strip (py_or v (PStr ""))) = Return name →
  field_opt (request_data r) "norad_id" py_int = Return norad →
  update_satellite sid r d =
    (Return (jsonify (obj [("updated", PBool true)]) 200), d') →
  satellites d' =
    (λ s, if decide (s_id s = sid) then set_satellite name norad s else s)
      <$> satellites d.
Proof.
  intros Hname Hnorad. unfold update_satellite.
  rewrite Hname, lift_return, Hnorad.
  destruct (is_none name && is_none norad); [by intros [= ?]|].
  unfold try_except, mbind, M_bind, update_satellites.
  destruct (filter _ (satellites d)) as [|s0 hit]; [by intros [= ?]|].
  destruct (negb _); [by intros [= ?]|].
  destruct (from_option _ false norad); [by intros [= ?]|].
  destruct (_ =? 0); [by intros [= ?]|].
  by intros [= <-].
Qed.

Section PartialUpdate.
Context (float_of_string : string → option float).

(** The update of a sample touches nothing but the columns named in the
    request, on the row of the given key. *)
Lemma update_position_row_frame pid r d :
  satellites (update_position_row float_of_string pid r d).2 = satellites d ∧
  position_frame pid (request_data r) (positions d)
    (positions (update_position_row float_of_string pid r d).2).
Proof.
  unfold update_position_row.
  set (data := request_data r).
  assert (Hsame : satellites d = satellites d ∧
                  position_frame pid data (positions d) (positions d))
    by (split; [done|apply position_frame_refl]).
  destruct (field_opt data "timestamp" py_int) as [ts|e] eqn:Hts; [|by destruct e].
  destruct (field_opt data "latitude" (py_float float_of_string)) as [lat|e] eqn:Hlat; [|by destruct e].
  destruct (field_opt data "longitude" (py_float float_of_string)) as [lon|e] eqn:Hlon; [|by destruct e].
  destruct (field_opt data "altitude_km" (py_opt_float float_of_string)) as [alt|e] eqn:Halt;
    [rewrite lift_return|by rewrite lift_raise].
  destruct (field_opt data "velocity_kmh" (py_opt_float float_of_string)) as [vel|e] eqn:Hvel;
    [rewrite lift_return|by rewrite lift_raise].
  destruct (patch_empty _); [done|].
  unfold mbind, M_bind.
  match goal with |- context [update_positions pid ?u d] =>
    pose proof (update_positions_frame pid data u d
                  (field_opt_absent_None _ _ _ _ Hts)
                  (field_opt_absent_None _ _ _ _ Hlat)
                  (field_opt_absent_None _ _ _ _ Hlon)
                  (field_opt_absent_None _ _ _ _ Halt)
                  (field_opt_absent_None _ _ _ _ Hvel)) as Hframe;
    destruct (update_positions pid u d) as [[n|e] d'] eqn:Hrun
  end; simpl in *; [by destruct (n =? 0)|done].
Qed.

Lemma update_position_row_applies pid r d d' u :
  field_opt (request_data r) "timestamp" py_int = Return (set_ts u) →
  field_opt (request_data r) "latitude" (py_float float_of_string) = Return (set_lat u) →
  field_opt (request_data r) "longitude" (py_float float_of_string) = Return (set_lon u) →
  field_opt (request_data r) "altitude_km" (py_opt_float float_of_string) = Return (set_alt u) →
  field_opt (request_data r) "velocity_kmh" (py_opt_float float_of_string) = Return (set_vel u) →
  update_position_row float_of_string pid r d =
    (Return (jsonify (obj [("updated", PBool true)]) 200), d') →
  positions d' =
    (λ p, if decide (p_id p = pid) then set_position u p else p) <$> positions d.
Proof.
  intros Hts Hlat Hlon Halt Hvel. unfold update_position_row.
  rewrite Hts, Hlat, Hlon, Halt, lift_return, Hvel, lift_return.
  destruct u as [ts lat lon alt vel]; cbn [set_ts set_lat set_lon set_alt set_vel].
  destruct (patch_empty _); [by intros [= ?]|].
  unfold mbind, M_bind, update_positions.
  destruct (negb (patch_bindable _)); [by intros [= ?]|].
  destruct (filter _ (positions d)) as [|p0 hit]; [by intros [= ?]|].
  destruct (negb _); [by intros [= ?]|].
  destruct (_ =? 0); [by intros [= ?]|].
  by intros [= <-].
Qed.

Lemma update_position_row_no_fields pid r d :
  data_contains (request_data r) "timestamp" = Return false →
  data_contains (request_data r) "latitude" = Return false →
  data_contains (request_data r) "longitude" = Return false →
  data_contains (request_data r) "altitude_km" = Return false →
  data_contains (request_data r) "velocity_kmh" = Return false →
  update_position_row float_of_string pid r d =
    (Return (jsonify (error_body "no fields to update") 400), d).
Proof.
  intros Hts Hlat Hlon Halt Hvel. unfold update_position_row.
  by rewrite !field_opt_absent.
Qed.

Lemma update_position_row_missing pid r d u :
  field_opt (request_data r) "timestamp" py_int = Return (set_ts u) →
  field_opt (request_data r) "latitude" (py_float float_of_string) = Return (set_lat u) →
  field_opt (request_data r) "longitude" (py_float float_of_string) = Return (set_lon u) →
  field_opt (request_data r) "altitude_km" (py_opt_float float_of_string) = Return (set_alt u) →
  field_opt (request_data r) "velocity_kmh" (py_opt_float float_of_string) = Return (set_vel u) →
  patch_empty u = false →
  patch_bindable u = true →
  Forall (λ p, p_id p ≠ pid) (positions d) →
  update_position_row float_of_string pid r d =
    (Return (jsonify (error_body "position not found") 404), d).
Proof.
  intros Hts Hlat Hlon Halt Hvel Hsome Hbind Hnone. unfold update_position_row.
  rewrite Hts, Hlat, Hlon, Halt, lift_return, Hvel, lift_return.
  destruct u as [ts lat lon alt vel]; simpl in *. rewrite Hsome.
  unfold mbind, M_bind.
  by rewrite update_positions_missing.
Qed.

(** C7.  A partial update, of a satellite by [PUT /api/satellites/sid] and
    of a sample by [PUT /api/positions/pid], whatever the request and
    however it is answered:
    - leaves the other table as it was and changes the addressed table only
      in place, on rows of the given key and in columns whose field the
      request body carries ([satellite_frame], [position_frame]);
    - is answered 400 and changes nothing when the body carries none of the
      fields the handler knows;
    - is answered 404 and changes nothing when the body carries fields that
      convert (and, for a sample, that the driver can render) and no row
      has the given key. *)
Theorem partial_update_frame (sid pid : Z) (r : request) (d : db) :
  (positions (update_satellite sid r d).2 = positions d ∧
   satellite_frame sid (request_data r) (satellites d)
     (satellites (update_satellite sid r d).2)) ∧
  (data_contains (request_data r) "name" = Return false →
   data_contains (request_data r) "norad_id" = Return false →
   update_satellite sid r d =
     (Return (jsonify (error_body "no fields to update") 400), d)) ∧
  (∀ name norad,
     field_opt (request_data r) "name" (λ v, py_strip (py_or v (PStr ""))) = Return name →
     field_opt (request_data r) "norad_id" py_int = Return norad →
     is_none name && is_none norad = false →
     Forall (λ s, s_id s ≠ sid) (satellites d) →
     update_satellite sid r d =
       (Return (jsonify (error_body "satellite not found") 404), d)) ∧
  (satellites (update_position_row float_of_string pid r d).2 = satellites d ∧
   position_frame pid (request_data r) (positions d)
     (positions (update_position_row float_of_string pid r d).2)) ∧
  (data_contains (request_data r) "timestamp" = Return false →
   data_contains (request_data r) "latitude" = Return false →
   data_contains (request_data r) "longitude" = Return false →
   data_contains (request_data r) "altitude_km" = Return false →
   data_contains (request_data r) "velocity_kmh" = Return false →
   update_position_row float_of_string pid r d =
     (Return (jsonify (error_body "no fields to update") 400), d)) ∧
  (∀ u,
     field_opt (request_data r) "timestamp" py_int = Return (set_ts u) →
     field_opt (request_data r) "latitude" (py_float float_of_string) = Return (set_lat u) →
     field_opt (request_data r) "longitude" (py_float float_of_string) = Return (set_lon u) →
     field_opt (request_data r) "altitude_km" (py_opt_float float_of_string) = Return (set_alt u) →
     field_opt (request_data r) "velocity_kmh" (py_opt_float float_of_string) = Return (set_vel u) →
     patch_empty u = false →
     patch_bindable u = true →
     Forall (λ p, p_id p ≠ pid) (positions d) →
     update_position_row float_of_string pid r d =
       (Return (jsonify (error_body "position not found") 404), d)).
Proof.
  split_and!.
  - apply update_satellite_frame.
  - apply update_satellite_frame.
  - apply update_satellite_no_fields.
  - intros name norad. apply update_satellite_missing.
  - apply update_position_row_frame.
  - apply update_position_row_frame.
  - apply update_position_row_no_fields.
  - intros u. apply update_position_row_missing.
Qed.

End PartialUpdate.

Lemma partial_update_frame_witness :
  update_satellite 1 (json_request [("colour", PStr "red")]) tracked_db =
    (Return (jsonify (error_body "no fields to update") 400), tracked_db) ∧
  update_satellite 9 (json_request [("name", PStr "Mir")]) tracked_db =
    (Return (jsonify (error_body "satellite not found") 404), tracked_db) ∧
  update_position_row integer_strtod 1 (json_request [("colour", PStr "red")]) tracked_db =
    (Return (jsonify (error_body "no fields to update") 400), tracked_db) ∧
  update_position_row integer_strtod 9 (json_request [("latitude", PStr "12")]) tracked_db =
    (Return (jsonify (error_body "position not found") 404), tracked_db).
Proof.
  split_and!.
  - apply (partial_update_frame integer_strtod 1 1
             (json_request [("colour", PStr "red")]) tracked_db); reflexivity.
  - destruct (partial_update_frame integer_strtod 9 9
                (json_request [("name", PStr "Mir")]) tracked_db)
      as (_ & _ & Hmiss & _).
    apply (Hmiss (Some "Mir") None); [reflexivity | reflexivity | reflexivity | compute_done].
  - apply (partial_update_frame integer_strtod 1 1
             (json_request [("colour", PStr "red")]) tracked_db); reflexivity.
  - destruct (partial_update_frame integer_strtod 9 9
                (json_request [("latitude", PStr "12")]) tracked_db)
      as (_ & _ & _ & _ & _ & Hmiss).
    apply (Hmiss {| set_ts := None;
                    set_lat := Some (S754_finite false 6755399441055744 (-49));
                    set_lon := None; set_alt := None; set_vel := None |});
      [reflexivity | reflexivity | reflexivity | reflexivity | reflexivity
      | reflexivity | reflexivity | compute_done].
Defined.

(** ** Creating and reading back a sample *)

Lemma filter_all {A} (P : A → Prop) `{∀ x, Decision (P x)} (l : list A) :
  Forall P l → filter P l = l.
Proof.
  induction 1 as [|x l Hx _ IH]; [done|].
  by rewrite filter_cons_True, IH.
Qed.

(** A row is within the first [n] of the ordered result when at most [n]
    rows, itself included, are at least as new. *)
Lemma limit_order_by_keeps p n l :
  p ∈ l →
  (length (filter (λ q, (p_ts p ≤ p_ts q)%Z) l) ≤ Z.to_nat n)%nat →
  p ∈ limit_rows n (order_by_ts_desc l).
Proof.
  intros Hin Hcount. unfold limit_rows.
  set (k := Z.to_nat n) in *. set (S := order_by_ts_desc l).
  assert (HpS : p ∈ S) by by apply order_by_ts_desc_elem.
  rewrite <- (take_drop k S) in HpS. apply elem_of_app in HpS as [Htake|Hdrop]; [done|].
  exfalso.
  assert (Hlen : length (take k S) = k).
  { apply length_take_le. destruct (decide (k ≤ length S)%nat) as [|Hgt]; [done|].
    rewrite drop_ge in Hdrop by lia. by apply elem_of_nil in Hdrop. }
  pose proof (order_by_ts_desc_sorted l) as Hsorted. fold S in Hsorted.
  rewrite <- (take_drop k S) in Hsorted.
  assert (Hnewer : Forall (λ q, p_ts p ≤ p_ts q) (take k S)).
  { apply Forall_forall. intros q Hq.
    apply (StronglySorted_app_1_elem_of _ _ _ _ _ Hsorted Hq Hdrop). }
  assert (Hsame : length (filter (λ q, p_ts p ≤ p_ts q) S) =
                  length (filter (λ q, p_ts p ≤ p_ts q) l)).
  { apply Permutation_length. unfold S. by rewrite order_by_ts_desc_perm. }
  rewrite <- (take_drop k S), filter_app, length_app, filter_all, Hlen in Hsame by done.
  assert (p ∈ filter (λ q, p_ts p ≤ p_ts q) (drop k S)) as Hp.
  { apply list_elem_of_filter. split; [lia|done]. }
  destruct (filter (λ q, p_ts p ≤ p_ts q) (drop k S)); [by apply elem_of_nil in Hp|].
  simpl in Hsame. lia.
Qed.

Lemma fetched_rows_fetchall rows : fetched_rows (fetchall rows) = rows.
Proof. by destruct rows. Qed.

Lemma rbind_Return {A B} (m : result A) (k : A → result B) b :
  (m ≫= k) = Return b → ∃ a, m = Return a ∧ k a = Return b.
Proof. destruct m as [a|e]; [|done]. intros H. by exists a. Qed.

Section CreatePosition.
Context (float_of_string : string → option float).

(** A valid request is answered 201 with the sample, which is appended to
    the table. *)
Lemma create_position_accepts now r d p :
  accepted_sample float_of_string now (request_data r) d p →
  create_position float_of_string now r d =
    (Return (jsonify (created_body p) 201), with_position d p).
Proof.
  intros (Hne & Hsat & Hts & Hlat & Hlon & Halt & Hvel & Hid & Hcr & Hok).
  destruct Hok as (_ & Hts32 & Hblat & Hblon & Hbalt & Hbvel & Hfk).
  apply rbind_Return in Hsat as (sv & Hsv & Hsat).
  apply rbind_Return in Hts as (tv & Htv & Hts).
  apply rbind_Return in Hlat as (lav & Hlav & Hlat).
  apply rbind_Return in Hlon as (lov & Hlov & Hlon).
  apply rbind_Return in Halt as (av & Hav & Halt).
  apply rbind_Return in Hvel as (vv & Hvv & Hvel).
  unfold create_position. rewrite Hne, Hsv, lift_return, Hsat, Htv, lift_return, Hts.
  rewrite Hlav, Hlov. simpl. rewrite Hlat, Hlon. simpl.
  rewrite Hav, lift_return, Hvv, lift_return, Halt, lift_return, Hvel, lift_return.
  unfold select_satellite_by_id, mbind, M_bind.
  destruct (find (λ s, s_id s =? p_sat p) (satellites d)) as [s|] eqn:Hfind.
  2:{ apply find_key_None in Hfind. simpl in Hfk.
      apply Exists_exists in Hfk as (s & Hin & Hs).
      rewrite Forall_forall in Hfind. by destruct (Hfind s Hin). }
  unfold insert_position.
  rewrite Hblat, Hblon, Hbalt, Hbvel, Hts32. simpl negb. cbv iota.
  rewrite (proj2 (existsb_key s_id _ _)) by done. simpl negb. cbv iota.
  unfold mret, M_ret, with_position, created_body. rewrite <- Hid, <- Hcr.
  by destruct p.
Qed.

Lemma created_body_in_row p : fields (created_body p) ⊆ fields (position_row p).
Proof.
  apply map_subseteq_spec. intros k v.
  unfold created_body, position_row, obj, fields.
  cbn [list_to_map foldr fst snd curry uncurry].
  rewrite !lookup_insert.
  repeat case_decide; done.
Qed.

Lemma created_body_id p q :
  fields (created_body p) ⊆ fields (position_row q) → p_id p = p_id q.
Proof.
  intros Hsub. rewrite map_subseteq_spec in Hsub.
  specialize (Hsub "id" (PInt (p_id p)) eq_refl).
  by injection Hsub.
Qed.

(** A positions query by the key of a stored satellite answers with the
    newest [n] samples of that satellite. *)
Lemma list_positions_by_key sat_arg norad_arg limit_arg sat n d :
  int_of_string sat_arg = Some sat →
  limit_of limit_arg 50 1000 = Return n →
  list_positions (Some sat_arg) norad_arg limit_arg d =
    (Return (jsonify (PList (position_row <$>
       limit_rows n (order_by_ts_desc (filter (λ p, p_sat p = sat) (positions d))))) 200), d).
Proof.
  intros Hsat Hn. unfold list_positions. rewrite Hn, lift_return. simpl.
  assert (String.eqb sat_arg "" = false) as Hne.
  { apply String.eqb_neq. by eapply int_of_string_nonempty. }
  rewrite Hne, andb_false_r. unfold list_positions_of. simpl.
  rewrite Hne. simpl. rewrite Hsat.
  unfold select_recent_by_satellite, mbind, M_bind, mret, M_ret.
  by rewrite fetched_rows_fetchall.
Qed.

(** What a create request that was answered 201 has done. *)
Lemma create_position_inv now r d resp d' :
  create_position float_of_string now r d = (Return resp, d') →
  status resp = 201 →
  ∃ p, accepted_sample float_of_string now (request_data r) d p ∧
       resp = jsonify (created_body p) 201 ∧ d' = with_position d p.
Proof.
  unfold create_position, accepted_sample. set (data := request_data r).
  destruct (data_empty data) eqn:Hne; [by intros [= <- <-]|].
  destruct (data_get data "satellite_id") as [sv|e] eqn:Hsv;
    [rewrite lift_return|by rewrite lift_raise].
  destruct (py_int sv) as [sat|e] eqn:Hsat; [|by destruct e; intros [= <- <-]].
  destruct (data_get data "timestamp") as [tv|e] eqn:Htv;
    [rewrite lift_return|by rewrite lift_raise].
  destruct (if is_default_timestamp tv then Return now else py_int tv) as [ts|e] eqn:Hts;
    [|by destruct e; intros [= <- <-]].
  destruct (data_get data "latitude") as [lav|e] eqn:Hlav;
    [|by destruct e; intros [= <- <-]].
  cbn [mbind result_bind rbind].
  destruct (py_float float_of_string lav) as [lat|e] eqn:Hlat;
    [|by destruct e; intros [= <- <-]].
  destruct (data_get data "longitude") as [lov|e] eqn:Hlov;
    [|by destruct e; intros [= <- <-]].
  cbn [mbind result_bind rbind].
  destruct (py_float float_of_string lov) as [lon|e] eqn:Hlon;
    [|by destruct e; intros [= <- <-]].
  cbn [mbind result_bind rbind mret result_ret].
  destruct (data_get data "altitude_km") as [av|e] eqn:Hav;
    [rewrite lift_return|by rewrite lift_raise].
  destruct (data_get data "velocity_kmh") as [vv|e] eqn:Hvv;
    [rewrite lift_return|by rewrite lift_raise].
  destruct (py_opt_float float_of_string av) as [alt|e] eqn:Halt;
    [rewrite lift_return|by rewrite lift_raise].
  destruct (py_opt_float float_of_string vv) as [vel|e] eqn:Hvel;
    [rewrite lift_return|by rewrite lift_raise].
  unfold select_satellite_by_id, mbind, M_bind.
  destruct (find (λ s, s_id s =? sat) (satellites d)) as [s|] eqn:Hfind;
    [|by intros [= <- <-]].
  unfold insert_position.
  destruct (bindable lat && bindable lon && opt_bindable alt && opt_bindable vel)
    eqn:Hbind; simpl negb; cbv iota; [|done].
  destruct (int32 ts) eqn:Hts32; simpl negb; cbv iota; [|done].
  destruct (existsb _ (satellites d)) eqn:Hfk; simpl negb; cbv iota; [|done].
  intros [= <- <-] _.
  apply andb_prop in Hbind as [Hbind Hbvel]. apply andb_prop in Hbind as [Hbind Hbalt].
  apply andb_prop in Hbind as [Hblat Hblon]. apply existsb_key in Hfk.
  exists {| p_id := pos_auto d; p_sat := sat; p_ts := ts; p_lat := lat; p_lon := lon;
            p_alt := alt; p_vel := vel; p_created := now |}.
  split; [|done].
  cbn [p_id p_sat p_ts p_lat p_lon p_alt p_vel p_created].
  split_and!; try done.
  unfold position_ok. simpl. split_and!; try done. lia.
Qed.
Lemma data_get_absent data k v :
  data_contains data k = Return false → data_get data k = Return v → v = PNone.
Proof.
  destruct data as [pv|f]; simpl.
  - destruct pv as [| | | | | |m]; simpl; try done.
    intros [= Hno%bool_decide_eq_false] [= <-].
    destruct (m !! k); [|done]. by destruct Hno.
  - intros [= Hno%bool_decide_eq_false] [= <-].
    destruct (f !! k); [|done]. by destruct Hno.
Qed.

(** C9.  Whenever a create request is answered 201, the answer carries
    the fields of one sample [p], which has been appended to the stored
    samples; every field of that answer has the same value in the row of
    [p] that the positions query renders; and a positions query by the
    key of its satellite, with a limit that is absent (50) or that [int]
    reads as [N], has [p] among its rows whenever fewer than
    [max(1, min(N, 1000))] samples of that satellite stored before are at
    least as new as [p]. *)
Theorem create_position_roundtrip (now : Z) (r : request) (d d' : db) (resp : response) :
  create_position float_of_string now r d = (Return resp, d') →
  status resp = 201 →
  ∃ p,
    resp = jsonify (created_body p) 201 ∧
    positions d' = positions d ++ [p] ∧
    satellites d' = satellites d ∧
    fields (created_body p) ⊆ fields (position_row p) ∧
    ∀ sat_arg norad_arg limit_arg N,
      int_of_string sat_arg = Some (p_sat p) →
      py_int (from_option PStr (PInt 50) limit_arg) = Return N →
      (length (filter (λ q, p_sat q = p_sat p ∧ (p_ts p ≤ p_ts q)%Z) (positions d))
         < Z.to_nat (Z.max 1 (Z.min N 1000)))%nat →
      ∃ rows,
        list_positions (Some sat_arg) norad_arg limit_arg d' =
          (Return (jsonify (PList (position_row <$> rows)) 200), d') ∧
        p ∈ rows.
Proof.
  intros Hrun Hst.
  destruct (create_position_inv now r d resp d' Hrun Hst) as (p & _ & -> & ->).
  exists p. split_and!; [done|done|done|apply created_body_in_row|].
  intros sat_arg norad_arg limit_arg N Hsat HN Hfew.
  eexists. split.
  - apply (list_positions_by_key _ _ _ (p_sat p) (Z.max 1 (Z.min N 1000))); [done|].
    unfold limit_of. by rewrite HN.
  - apply limit_order_by_keeps.
    + apply list_elem_of_filter. split; [done|]. simpl.
      apply elem_of_app. right. left.
    + simpl. rewrite list_filter_filter, filter_app, length_app.
      rewrite (list_filter_iff _ (λ q, p_sat q = p_sat p ∧ p_ts p ≤ p_ts q))
        by (intros; tauto).
      pose proof (length_filter (λ q, p_ts p ≤ p_ts q ∧ p_sat q = p_sat p) [p]) as Hone.
      simpl in Hone. lia.
Qed.

(** C10.  Whenever a create request is answered 201, the timestamp of the
    answer is that of the one sample it has stored.  It is the clock
    reading when the timestamp field is absent, null, the empty string,
    the string "0", the integer 0 or, as these compare equal to 0, false
    or a float zero; for every other value of the field it is what [int]
    makes of that value, so that text such as "00" is stored as
    timestamp 0. *)
Theorem create_position_default_timestamp (now : Z) (r : request) (d d' : db)
    (resp : response) :
  create_position float_of_string now r d = (Return resp, d') →
  status resp = 201 →
  ∃ p v,
    data_get (request_data r) "timestamp" = Return v ∧
    positions d' = positions d ++ [p] ∧
    fields (body resp) !! "timestamp" = Some (PInt (p_ts p)) ∧
    (data_contains (request_data r) "timestamp" = Return false → p_ts p = now) ∧
    (v = PNone ∨ v = PStr "" ∨ v = PStr "0" ∨ v = PInt 0 ∨ v = PBool false ∨
     v = PFloat (S754_zero false) ∨ v = PFloat (S754_zero true) →
     p_ts p = now) ∧
    (v ≠ PNone → v ≠ PStr "" → v ≠ PStr "0" → v ≠ PInt 0 → v ≠ PBool false →
     v ≠ PFloat (S754_zero false) → v ≠ PFloat (S754_zero true) →
     py_int v = Return (p_ts p)).
Proof.
  intros Hrun Hst.
  destruct (create_position_inv now r d resp d' Hrun Hst) as (p & Hacc & -> & ->).
  destruct Hacc as (_ & _ & Hts & _).
  apply rbind_Return in Hts as (v & Hv & Hts).
  assert (Hmarker : v = PNone ∨ v = PStr "" ∨ v = PStr "0" ∨ v = PInt 0 ∨
                    v = PBool false ∨ v = PFloat (S754_zero false) ∨
                    v = PFloat (S754_zero true) → p_ts p = now).
  { intros Hcase.
    assert (is_default_timestamp v = true) as Hdef
      by (by destruct Hcase as [->|[->|[->|[->|[->|[->| ->]]]]]]).
    rewrite Hdef in Hts. by injection Hts. }
  exists p, v. split_and!; [done|done|reflexivity| |exact Hmarker|].
  - intros Habsent. apply Hmarker. left.
    by apply (data_get_absent (request_data r) "timestamp").
  - intros H1 H2 H3 H4 H5 H6 H7.
    assert (is_default_timestamp v = false) as Hdef.
    { destruct v as [|[|]|z|[[|]| | |]|s| |]; simpl; try done.
      - apply Z.eqb_neq. by intros ->.
      - apply orb_false_iff. split; apply String.eqb_neq; by intros ->. }
    by rewrite Hdef in Hts.
Qed.

End CreatePosition.

Lemma sample_request_accepted (ts : pyval) (stored now : Z) (d : db) :
  (if is_default_timestamp ts then Return now else py_int ts) = Return stored →
  int32 stored = true →
  Exists (λ s, s_id s = 1) (satellites d) →
  accepted_sample integer_strtod now (request_data (sample_request ts)) d
    (requested_sample (pos_auto d) stored now).
Proof.
  intros Hts Hrange Hsat. unfold accepted_sample, position_ok.
  split_and!;
    [reflexivity | reflexivity | exact Hts | reflexivity | reflexivity
    | reflexivity | reflexivity | reflexivity | reflexivity
    | simpl; lia | exact Hrange | reflexivity | reflexivity | reflexivity
    | reflexivity | exact Hsat].
Qed.

Lemma create_position_roundtrip_witness :
  ∃ d' rows,
    create_position integer_strtod 1800000000 (sample_request (PInt 1700000030)) tracked_db =
      (Return (jsonify (created_body (requested_sample 3 1700000030 1800000000)) 201), d') ∧
    list_positions (Some "1") None (Some "2") d' =
      (Return (jsonify (PList (position_row <$> rows)) 200), d') ∧
    requested_sample 3 1700000030 1800000000 ∈ rows.
Proof.
  assert (create_position integer_strtod 1800000000 (sample_request (PInt 1700000030))
            tracked_db =
            (Return (jsonify (created_body (requested_sample 3 1700000030 1800000000)) 201),
             with_position tracked_db (requested_sample 3 1700000030 1800000000))) as Hrun.
  { apply create_position_accepts.
    apply (sample_request_accepted _ _ _ tracked_db);
      [reflexivity|reflexivity|compute_done]. }
  rewrite Hrun.
  destruct (create_position_roundtrip integer_strtod 1800000000
              (sample_request (PInt 1700000030)) tracked_db _ _ Hrun eq_refl)
    as (p & Hresp & Hpos & _ & _ & Hread).
  assert (p = requested_sample 3 1700000030 1800000000) as ->.
  { apply app_inj_tail in Hpos as [_ Hp]. by symmetry. }
  destruct (Hread "1" None (Some "2") 2) as (rows & Hlist & Hin);
    [reflexivity|reflexivity|vm_compute; lia|].
  eexists _, rows. by split_and!.
Defined.

Lemma create_position_roundtrip_counterexample :
  create_position integer_strtod 1800000000 (sample_request (PInt 5)) crowded_db =
    (Return (jsonify (created_body (requested_sample 51 5 1800000000)) 201),
     with_position crowded_db (requested_sample 51 5 1800000000)) ∧
  ∃ rows,
    list_positions (Some "1") None None
      (with_position crowded_db (requested_sample 51 5 1800000000)) =
      (Return (jsonify (PList (position_row <$> rows)) 200),
       with_position crowded_db (requested_sample 51 5 1800000000)) ∧
    length rows = 50%nat ∧
    Forall (λ q, ¬ fields (created_body (requested_sample 51 5 1800000000))
                     ⊆ fields (position_row q)) rows.
Proof.
  split.
  - apply create_position_accepts.
    apply (sample_request_accepted _ _ _ crowded_db); [reflexivity|reflexivity|compute_done].
  - eexists. split; [by apply (list_positions_by_key _ _ _ 1 50)|].
    split; [by vm_compute|].
    eapply Forall_impl.
    + assert (Forall (λ q, p_id q ≠ 51)
                (limit_rows 50 (order_by_ts_desc
                   (filter (λ p, p_sat p = 1)
                      (positions (with_position crowded_db
                                    (requested_sample 51 5 1800000000)))))))
        as Hids by compute_done.
      exact Hids.
    + intros q Hq Hsub%created_body_id. simpl in Hsub. congruence.
Qed.

Lemma create_position_default_timestamp_witness :
  ∃ d' p,
    create_position integer_strtod 1800000000 (sample_request (PStr "0")) seeded_db =
      (Return (jsonify (created_body p) 201), d') ∧
    positions d' = [p] ∧
    p_ts p = 1800000000 ∧
    fields (created_body p) !! "timestamp" = Some (PInt 1800000000).
Proof.
  assert (create_position integer_strtod 1800000000 (sample_request (PStr "0")) seeded_db =
            (Return (jsonify (created_body (requested_sample 1 1800000000 1800000000)) 201),
             with_position seeded_db (requested_sample 1 1800000000 1800000000))) as Hrun.
  { apply create_position_accepts.
    apply (sample_request_accepted _ _ _ seeded_db);
      [reflexivity|reflexivity|compute_done]. }
  rewrite Hrun.
  destruct (create_position_default_timestamp integer_strtod 1800000000
              (sample_request (PStr "0")) seeded_db _ _ Hrun eq_refl)
    as (p & v & Hv & Hpos & Hfield & _ & Hmarker & _).
  assert (Return v = Return (PStr "0")) as [= ->].
  { rewrite <- Hv. vm_compute. reflexivity. }
  assert (p = requested_sample 1 1800000000 1800000000) as ->.
  { apply (app_inj_tail []) in Hpos as [_ Hp]. by symmetry. }
  eexists _, _. split_and!; [reflexivity|reflexivity| |reflexivity].
  apply Hmarker. right. right. left. reflexivity.
Defined.

Lemma create_position_zero_timestamp_counterexample :
  create_position integer_strtod 1800000000 (sample_request (PStr "00")) seeded_db =
    (Return (jsonify (created_body (requested_sample 1 0 1800000000)) 201),
     with_position seeded_db (requested_sample 1 0 1800000000)) ∧
  fields (created_body (requested_sample 1 0 1800000000)) !! "timestamp" = Some (PInt 0) ∧
  p_ts <$> positions (with_position seeded_db (requested_sample 1 0 1800000000)) = [0].
Proof.
  split; [|split; reflexivity].
  apply create_position_accepts.
  apply (sample_request_accepted _ _ _ seeded_db); [reflexivity|reflexivity|compute_done].
Qed.

(** ** Live ingestion *)

(** [int(f)] drops the fraction: the result has the sign of [f] and its
    magnitude is the integer part of the magnitude of [f]. *)
Lemma float_trunc_truncates s m e z :
  float_trunc (S754_finite s m e) = Return z →
  (if s then z ≤ 0 else 0 ≤ z) ∧
  (0 ≤ e → Z.abs z = Z.pos m * 2 ^ e) ∧
  (e < 0 → Z.abs z * 2 ^ (- e) ≤ Z.pos m < (Z.abs z + 1) * 2 ^ (- e)).
Proof.
  simpl. intros [= <-].
  assert (0 ≤ Z.shiftl (Z.pos m) e) as Hpos by (apply Z.shiftl_nonneg; lia).
  assert (Z.abs (if s then - Z.shiftl (Z.pos m) e else Z.shiftl (Z.pos m) e) =
          Z.shiftl (Z.pos m) e) as -> by (destruct s; lia).
  split_and!.
  - destruct s; lia.
  - intros He. by rewrite Z.shiftl_mul_pow2.
  - intros He. rewrite Z.shiftl_div_pow2 by lia.
    assert (0 < 2 ^ (- e)) as Hpow by (apply Z.pow_pos_nonneg; lia).
    pose proof (Z.mul_div_le (Z.pos m) (2 ^ (- e)) Hpow).
    pose proof (Z.mul_succ_div_gt (Z.pos m) (2 ^ (- e)) Hpow).
    lia.
Qed.

(** [float(0)], the default of an absent altitude or velocity. *)
Lemma float_of_zero : float_of_Z 0 = Return (S754_zero false).
Proof. reflexivity. Qed.

Lemma insert_position_appends now sat ts lat lon alt vel d :
  bindable lat = true → bindable lon = true →
  opt_bindable alt = true → opt_bindable vel = true →
  int32 ts = true →
  Exists (λ s, s_id s = sat) (satellites d) →
  insert_position now sat ts lat lon alt vel d =
    (Return (pos_auto d),
     with_position d {| p_id := pos_auto d; p_sat := sat; p_ts := ts; p_lat := lat;
                        p_lon := lon; p_alt := alt; p_vel := vel; p_created := now |}).
Proof.
  intros Hlat Hlon Halt Hvel Hts Hsat. unfold insert_position.
  rewrite Hlat, Hlon, Halt, Hvel, Hts. simpl negb. cbv iota.
  by rewrite (proj2 (existsb_key s_id _ _) Hsat).
Qed.

Section Ingestion.
Context (float_of_string : string → option float) (driver_text : pyval → result string).

(** Served alone, the resolver answers with the key of a satellite that
    carries the external identifier, registering one if need be, and
    leaves the samples alone. *)
Lemma get_satellite_id_alone now norad name nm d :
  Exists (λ s, s_norad s = norad) (satellites d) ∨
    (bind_name driver_text name = Return (Some nm) ∧
     int32 norad = true ∧ varchar100 nm = true) →
  ∃ sid d',
    get_satellite_id driver_text id id now norad name d = (Return sid, d') ∧
    positions d' = positions d ∧ pos_auto d' = pos_auto d ∧
    Exists (λ s, s_id s = sid ∧ s_norad s = norad) (satellites d').
Proof.
  intros Hcase.
  unfold get_satellite_id, select_satellite_by_norad, interleave, try_except, lift,
    mbind, M_bind, mret, M_ret.
  destruct (find (λ s, s_norad s =? norad) (satellites d)) as [s|] eqn:Hfind.
  - apply find_key_Some in Hfind as [Hin Hs].
    exists (s_id s), d. split_and!; try done.
    apply Exists_exists. by exists s.
  - apply find_key_None in Hfind.
    destruct Hcase as [Hex|(Hnm & Hint & Hlen)].
    { exfalso. apply Exists_exists in Hex as (s & Hin & Hs).
      rewrite Forall_forall in Hfind. by apply (Hfind s Hin). }
    rewrite Hnm. unfold id. rewrite insert_satellite_fresh by done.
    eexists _, _. split_and!; [reflexivity|done|done|]. simpl.
    apply Exists_app. right. apply Exists_cons. by left.
Qed.

(** C3.  When the fetch succeeds with a JSON object whose timestamp,
    latitude and longitude convert (and whose altitude and velocity
    convert when present) to values the columns hold, the ingestion
    endpoint answers 200 with the object whose source is "live", whose
    timestamp is the converted one cut to an integer by [float_trunc] and
    whose latitude, longitude, altitude_km and velocity_kmh are the
    converted values, altitude and velocity being 0.0 when the payload
    has none; and it appends exactly one sample with those values, under
    the key of the tracked object, whatever samples are already stored. *)
Theorem api_iss_live (now : Z) (m : gmap string pyval) (d : db) (nm : string)
    (tv lav lov : pyval) (tx : float) (ts : Z) (lat lon alt vel : float) :
  Exists (λ s, s_norad s = ISS) (satellites d) ∨
    (bind_name driver_text (default (PStr "ISS") (m !! "name")) = Return (Some nm) ∧
     varchar100 nm = true) →
  m !! "timestamp" = Some tv →
  py_float float_of_string tv = Return tx →
  float_trunc tx = Return ts →
  m !! "latitude" = Some lav →
  py_float float_of_string lav = Return lat →
  m !! "longitude" = Some lov →
  py_float float_of_string lov = Return lon →
  py_float float_of_string (default (PInt 0) (m !! "altitude")) = Return alt →
  py_float float_of_string (default (PInt 0) (m !! "velocity")) = Return vel →
  int32 ts = true →
  bindable lat = true → bindable lon = true →
  bindable alt = true → bindable vel = true →
  ∃ sid d',
    api_iss float_of_string driver_text now (FetchOk (PDict m)) d =
      (Return (jsonify (obj [("source", PStr "live");
                             ("timestamp", PInt ts);
                             ("latitude", PFloat lat);
                             ("longitude", PFloat lon);
                             ("altitude_km", PFloat alt);
                             ("velocity_kmh", PFloat vel)]) 200), d') ∧
    positions d' = positions d ++
      [{| p_id := pos_auto d; p_sat := sid; p_ts := ts; p_lat := lat; p_lon := lon;
          p_alt := Some alt; p_vel := Some vel; p_created := now |}] ∧
    Exists (λ s, s_id s = sid ∧ s_norad s = ISS) (satellites d') ∧
    (m !! "altitude" = None → alt = S754_zero false) ∧
    (m !! "velocity" = None → vel = S754_zero false).
Proof.
  intros Hsat Htv Htx Hts Hlav Hlat Hlov Hlon Halt Hvel Hrange Hblat Hblon Hbalt Hbvel.
  destruct (get_satellite_id_alone now ISS (default (PStr "ISS") (m !! "name")) nm d)
    as (sid & d1 & Hrun & Hpos & Hauto & Hsid).
  { destruct Hsat as [?|[? ?]]; [by left|right]. by split_and!. }
  exists sid. eexists. split_and!.
  - unfold api_iss. simpl. rewrite lift_return.
    unfold mbind at 1. unfold M_bind at 1. rewrite Hrun.
    rewrite Htv. simpl. rewrite Htx. simpl. rewrite Hts, lift_return.
    rewrite Hlav. simpl. rewrite Hlat, lift_return.
    rewrite Hlov. simpl. rewrite Hlon, lift_return.
    rewrite Halt, lift_return, Hvel, lift_return.
    unfold mbind, M_bind.
    rewrite insert_position_appends; [reflexivity|done..|].
    eapply Exists_impl; [exact Hsid|]. by intros s [? _].
  - simpl. by rewrite Hpos, Hauto.
  - exact Hsid.
  - intros Hnone. rewrite Hnone in Halt. simpl in Halt. by injection Halt.
  - intros Hnone. rewrite Hnone in Hvel. simpl in Hvel. by injection Hvel.
Qed.

End Ingestion.

Lemma api_iss_live_witness :
  ∃ d1 d2,
    api_iss integer_strtod no_driver_text 2000 (FetchOk (PDict bare_reading)) seeded_db =
      (Return (jsonify (obj [("source", PStr "live");
                             ("timestamp", PInt 1700000000);
                             ("latitude", PFloat ten);
                             ("longitude", PFloat twenty);
                             ("altitude_km", PFloat (S754_zero false));
                             ("velocity_kmh", PFloat (S754_zero false))]) 200), d1) ∧
    api_iss integer_strtod no_driver_text 2001 (FetchOk (PDict bare_reading)) d1 =
      (Return (jsonify (obj [("source", PStr "live");
                             ("timestamp", PInt 1700000000);
                             ("latitude", PFloat ten);
                             ("longitude", PFloat twenty);
                             ("altitude_km", PFloat (S754_zero false));
                             ("velocity_kmh", PFloat (S754_zero false))]) 200), d2) ∧
    p_ts <$> positions d2 = [1700000000; 1700000000].
Proof.
  destruct (api_iss_live integer_strtod no_driver_text 2000 bare_reading seeded_db "iss"
              (PFloat (S754_finite false 6800000003 (-2))) (PInt 10) (PInt 20)
              (S754_finite false 6800000003 (-2)) 1700000000 ten twenty
              (S754_zero false) (S754_zero false))
    as (sid1 & d1 & Hrun1 & Hpos1 & Hsat1 & _);
    [left; compute_done | reflexivity..|].
  destruct (api_iss_live integer_strtod no_driver_text 2001 bare_reading d1 "iss"
              (PFloat (S754_finite false 6800000003 (-2))) (PInt 10) (PInt 20)
              (S754_finite false 6800000003 (-2)) 1700000000 ten twenty
              (S754_zero false) (S754_zero false))
    as (sid2 & d2 & Hrun2 & Hpos2 & _);
    [left; eapply Exists_impl; [exact Hsat1|]; by intros s [_ ?] | reflexivity..|].
  exists d1, d2. split_and!; [exact Hrun1|exact Hrun2|].
  rewrite Hpos2, Hpos1. reflexivity.
Defined.

(** Start-up on a fresh schema registers the tracked object under key 1. *)
Lemma setup_app_seeds : setup_app no_driver_text 1000 empty_db = (Return (), seeded_db).
Proof. reflexivity. Qed.

(** A document that decodes but carries no timestamp is not a failed
    fetch: the tracked object is registered and [KeyError] escapes. *)
Lemma api_iss_incomplete_payload :
  api_iss integer_strtod no_driver_text 1000 (FetchOk (obj [("name", PStr "ISS")])) empty_db =
    (Raise KeyError, seeded_db).
Proof. reflexivity. Qed.

(** ** The schema invariant *)

Lemma preserves_ret {A} (a : A) : preserves (mret a).
Proof. by intros d. Qed.

Lemma preserves_lift {A} (r : result A) : preserves (lift r).
Proof. by intros d. Qed.

Lemma preserves_raise {A} e : preserves (@raise A e).
Proof. by intros d. Qed.

Lemma preserves_bind {A B} (m : M A) (k : A → M B) :
  preserves m → (∀ a, preserves (k a)) → preserves (m ≫= k).
Proof.
  intros Hm Hk d Hwf. unfold mbind, M_bind.
  specialize (Hm d Hwf). destruct (m d) as [[a|e] d']; simpl in *; [|done].
  by apply Hk.
Qed.

Lemma preserves_try_except {A} (m h : M A) e :
  preserves m → preserves h → preserves (try_except m e h).
Proof.
  intros Hm Hh d Hwf. unfold try_except.
  specialize (Hm d Hwf). destruct (m d) as [[a|e'] d']; simpl in *; [done|].
  destruct (decide (e' = e)); [by apply Hh|done].
Qed.

Lemma NoDup_fmap_elem_inj {A B} (f : A → B) (l : list A) x y :
  NoDup (f <$> l) → x ∈ l → y ∈ l → f x = f y → x = y.
Proof.
  induction l as [|a l IH]; simpl; intros Hnd Hx Hy Heq.
  - by apply elem_of_nil in Hx.
  - apply NoDup_cons in Hnd as [Ha Hnd].
    apply elem_of_cons in Hx as [->|Hx]; apply elem_of_cons in Hy as [->|Hy].
    + done.
    + destruct Ha. rewrite Heq. by apply list_elem_of_fmap_2.
    + destruct Ha. rewrite <- Heq. by apply list_elem_of_fmap_2.
    + by apply IH.
Qed.

Lemma satellite_ok_mono d d' s :
  sat_auto d ≤ sat_auto d' → satellite_ok d s → satellite_ok d' s.
Proof. intros Hle (? & ? & ?). split_and!; [lia|done|done]. Qed.

Lemma position_ok_mono d d' p :
  pos_auto d ≤ pos_auto d' →
  (∀ k, Exists (λ s, s_id s = k) (satellites d) →
        Exists (λ s, s_id s = k) (satellites d')) →
  position_ok d p → position_ok d' p.
Proof.
  intros Hle Hsat (? & ? & ? & ? & ? & ? & ?).
  split_and!; [lia|done..|by apply Hsat].
Qed.

Lemma insert_satellite_wf now norad name : preserves (insert_satellite now norad name).
Proof.
  intros d (Hids & Hnorads & Hpids & Hsats & Hposs). unfold insert_satellite.
  destruct name as [nm|]; [|by split_and!].
  destruct (int32 norad && varchar100 nm) eqn:Hcols; simpl; [|by split_and!].
  apply andb_prop in Hcols as [Hint Hlen].
  destruct (existsb _ (satellites d)) eqn:Hdup; simpl.
  - split_and!; try done.
    eapply Forall_impl; [exact Hsats|]. intros s. apply satellite_ok_mono. simpl. lia.
  - apply existsb_key_false in Hdup.
    assert (Hfresh : ∀ s, s ∈ satellites d → s_id s < sat_auto d).
    { intros s Hin. rewrite Forall_forall in Hsats. by destruct (Hsats s Hin). }
    split_and!; simpl.
    + rewrite fmap_app. apply NoDup_app. split_and!; [done| |apply NoDup_singleton].
      intros k (s & -> & Hin)%list_elem_of_fmap Hk. simpl in Hk.
      apply list_elem_of_singleton in Hk. specialize (Hfresh s Hin). lia.
    + rewrite fmap_app. apply NoDup_app. split_and!; [done| |apply NoDup_singleton].
      intros k (s & -> & Hin)%list_elem_of_fmap Hk. simpl in Hk.
      apply list_elem_of_singleton in Hk. rewrite Forall_forall in Hdup.
      by apply (Hdup s Hin).
    + done.
    + apply Forall_app. split.
      * eapply Forall_impl; [exact Hsats|]. intros s. apply satellite_ok_mono. simpl. lia.
      * apply Forall_singleton. split_and!; simpl; [lia|done|done].
    + eapply Forall_impl; [exact Hposs|]. intros p. apply position_ok_mono; [done|].
      simpl. intros k Hk. apply Exists_app. by left.
Qed.

Lemma set_satellite_id name norad s : s_id (set_satellite name norad s) = s_id s.
Proof. done. Qed.

Lemma set_position_keys u p :
  p_id (set_position u p) = p_id p ∧ p_sat (set_position u p) = p_sat p.
Proof. done. Qed.

Lemma update_satellites_wf sid name norad : preserves (update_satellites sid name norad).
Proof.
  intros d (Hids & Hnorads & Hpids & Hsats & Hposs). unfold update_satellites.
  destruct (filter _ (satellites d)) as [|s0 hit]; [by split_and!|].
  destruct (from_option int32 true norad && from_option varchar100 true name) eqn:Hcols;
    simpl negb; cbv iota; [|by split_and!].
  apply andb_prop in Hcols as [Hint Hlen].
  destruct (from_option _ false norad) eqn:Hdup; [by split_and!|].
  set (f := λ s, if decide (s_id s = sid) then set_satellite name norad s else s).
  assert (Hfid : ∀ s, s_id (f s) = s_id s) by (intros s; unfold f; by case_decide).
  assert (Hidmap : s_id <$> (f <$> satellites d) = s_id <$> satellites d).
  { rewrite <- list_fmap_compose. apply list_fmap_ext. intros i s _. apply Hfid. }
  split_and!; cbn [snd satellites positions sat_auto pos_auto].
  - by rewrite Hidmap.
  - rewrite <- list_fmap_compose. apply NoDup_fmap_2_strong; [|by eapply NoDup_fmap_1].
    intros x y Hx Hy Heq. unfold compose, f in Heq.
    assert (Hother : ∀ a b, a ∈ satellites d → b ∈ satellites d →
              s_id a = sid → s_id b ≠ sid →
              s_norad (set_satellite name norad a) = s_norad b → False).
    { intros a b Ha Hb Haid Hbid Hn. destruct norad as [n|]; simpl in *.
      - assert (existsb (λ s, (s_norad s =? n) && negb (s_id s =? sid)) (satellites d) = true)
          as Habs; [|congruence].
        apply existsb_exists. exists b. split; [by apply list_elem_of_In|].
        rewrite Hn, Z.eqb_refl. simpl. apply negb_true_iff. by apply Z.eqb_neq.
      - apply Hbid. rewrite <- Haid. f_equal.
        by apply (NoDup_fmap_elem_inj s_norad (satellites d)). }
    repeat case_decide.
    + apply (NoDup_fmap_elem_inj s_id (satellites d)); [done..|congruence].
    + exfalso. by eapply (Hother x y).
    + exfalso. by eapply (Hother y x).
    + by apply (NoDup_fmap_elem_inj s_norad (satellites d)).
  - done.
  - apply Forall_fmap. eapply Forall_impl; [exact Hsats|].
    intros s (Hlt & Hn & Hl). unfold compose, f. case_decide; [|by split_and!].
    split_and!; [done| |]; simpl.
    + destruct norad; simpl in *; done.
    + destruct name; simpl in *; done.
  - eapply Forall_impl; [exact Hposs|]. intros p. apply position_ok_mono; [done|].
    simpl. intros k Hk. apply Exists_fmap. eapply Exists_impl; [exact Hk|].
    intros s Hs. unfold compose. by rewrite Hfid.
Qed.

Lemma delete_satellites_wf sid : preserves (delete_satellites sid).
Proof.
  intros d (Hids & Hnorads & Hpids & Hsats & Hposs). unfold delete_satellites.
  destruct (filter (λ s, s_id s = sid) (satellites d)) as [|s0 hit]; [by split_and!|].
  split_and!; cbn [snd satellites positions sat_auto pos_auto].
  - eapply sublist_NoDup; [exact Hids|]. apply fmap_sublist, sublist_filter.
  - eapply sublist_NoDup; [exact Hnorads|]. apply fmap_sublist, sublist_filter.
  - eapply sublist_NoDup; [exact Hpids|]. apply fmap_sublist, sublist_filter.
  - apply Forall_forall. intros s [_ Hin]%list_elem_of_filter.
    rewrite Forall_forall in Hsats. by apply Hsats.
  - apply Forall_forall. intros p [Hp Hin]%list_elem_of_filter.
    rewrite Forall_forall in Hposs.
    destruct (Hposs p Hin) as (? & ? & ? & ? & ? & ? & Hfk).
    split_and!; try done. simpl.
    apply Exists_exists in Hfk as (s & Hs & Hid). apply Exists_exists.
    exists s. split; [|done]. apply list_elem_of_filter. split; [congruence|done].
Qed.

Lemma insert_position_wf now sat ts lat lon alt vel :
  preserves (insert_position now sat ts lat lon alt vel).
Proof.
  intros d (Hids & Hnorads & Hpids & Hsats & Hposs). unfold insert_position.
  destruct (bindable lat && bindable lon && opt_bindable alt && opt_bindable vel)
    eqn:Hbind; simpl negb; cbv iota; [|by split_and!].
  apply andb_prop in Hbind as [Hbind Hvel]. apply andb_prop in Hbind as [Hbind Halt].
  apply andb_prop in Hbind as [Hlat Hlon].
  destruct (int32 ts) eqn:Hts; simpl negb; cbv iota; [|by split_and!].
  destruct (existsb _ (satellites d)) eqn:Hfk; simpl negb; cbv iota; [|by split_and!].
  apply existsb_key in Hfk.
  split_and!; cbn [snd satellites positions sat_auto pos_auto]; try done.
  - rewrite fmap_app. apply NoDup_app. split_and!; [done| |apply NoDup_singleton].
    intros k (p & -> & Hin)%list_elem_of_fmap Hk. simpl in Hk.
    apply list_elem_of_singleton in Hk. rewrite Forall_forall in Hposs.
    destruct (Hposs p Hin) as (Hlt & _). lia.
  - apply Forall_app. split.
    + eapply Forall_impl; [exact Hposs|]. intros p. apply position_ok_mono; [simpl; lia|done].
    + apply Forall_singleton. split_and!; simpl; [lia|done..].
Qed.

Lemma update_positions_wf pid u : preserves (update_positions pid u).
Proof.
  intros d (Hids & Hnorads & Hpids & Hsats & Hposs). unfold update_positions.
  destruct (patch_bindable u) eqn:Hbind; simpl negb; cbv iota; [|by split_and!].
  destruct (filter _ (positions d)) as [|p0 hit]; [by split_and!|].
  destruct (from_option int32 true (set_ts u)) eqn:Hts; simpl negb; cbv iota;
    [|by split_and!].
  unfold patch_bindable in Hbind.
  apply andb_prop in Hbind as [Hbind Hvel]. apply andb_prop in Hbind as [Hbind Halt].
  apply andb_prop in Hbind as [Hlat Hlon].
  split_and!; cbn [snd satellites positions sat_auto pos_auto]; try done.
  - rewrite <- list_fmap_compose.
    erewrite list_fmap_ext; [exact Hpids|]. intros i p _. unfold compose.
    by case_decide.
  - apply Forall_fmap. eapply Forall_impl; [exact Hposs|].
    intros p (Hlt & Hp & Hplat & Hplon & Hpalt & Hpvel & Hfk). unfold compose.
    case_decide; [|by split_and!].
    destruct u as [uts ulat ulon ualt uvel]; simpl in *.
    split_and!; simpl; try done.
    + by destruct uts.
    + by destruct ulat.
    + by destruct ulon.
    + by destruct ualt.
    + by destruct uvel.
Qed.

Lemma delete_positions_wf pid : preserves (delete_positions pid).
Proof.
  intros d (Hids & Hnorads & Hpids & Hsats & Hposs). unfold delete_positions.
  destruct (filter (λ p, p_id p = pid) (positions d)) as [|p0 hit]; [by split_and!|].
  split_and!; cbn [snd satellites positions sat_auto pos_auto]; try done.
  - eapply sublist_NoDup; [exact Hpids|]. apply fmap_sublist, sublist_filter.
  - apply Forall_forall. intros p [_ Hin]%list_elem_of_filter.
    rewrite Forall_forall in Hposs. by apply Hposs.
Qed.

Lemma select_status_wf norad : preserves (select_status norad).
Proof. by intros d. Qed.

Lemma select_satellites_wf : preserves select_satellites.
Proof. by intros d. Qed.

Lemma select_satellite_by_norad_wf norad : preserves (select_satellite_by_norad norad).
Proof. by intros d. Qed.

Lemma select_satellite_by_id_wf sid : preserves (select_satellite_by_id sid).
Proof. by intros d. Qed.

Lemma select_recent_by_norad_wf norad n : preserves (select_recent_by_norad norad n).
Proof. by intros d. Qed.

Lemma select_recent_by_satellite_wf sat n : preserves (select_recent_by_satellite sat n).
Proof. by intros d. Qed.

Lemma interleave_wf env : (∀ d, wf d → wf (env d)) → preserves (interleave env).
Proof. intros Henv d Hwf. by apply Henv. Qed.

Ltac preserve_step :=
  first
    [ apply preserves_ret | apply preserves_lift | apply preserves_raise
    | apply insert_satellite_wf | apply update_satellites_wf
    | apply delete_satellites_wf | apply insert_position_wf
    | apply update_positions_wf | apply delete_positions_wf
    | apply select_satellite_by_norad_wf
    | apply select_status_wf | apply select_satellites_wf
    | apply select_satellite_by_id_wf | apply select_recent_by_norad_wf
    | apply select_recent_by_satellite_wf
    | apply preserves_try_except
    | apply preserves_bind; [|intros ?]
    | match goal with
      | |- preserves (match ?x with _ => _ end) => destruct x
      end ].

Ltac preserve := cbv zeta; repeat preserve_step.

Section Invariant.
Context (float_of_string : string → option float) (driver_text : pyval → result string).

Lemma get_satellite_id_wf env1 env2 now norad name :
  (∀ d, wf d → wf (env1 d)) → (∀ d, wf d → wf (env2 d)) →
  preserves (get_satellite_id driver_text env1 env2 now norad name).
Proof.
  intros H1 H2. unfold get_satellite_id. preserve; by apply interleave_wf.
Qed.

(** X10.  Every handler keeps the database within the schema, whatever
    the request and however it is answered: from the empty database on,
    primary keys and external identifiers stay unique, keys stay below
    their counters, stored values stay within their columns and every
    sample refers to a stored satellite. *)
Theorem handlers_preserve_wf :
  wf empty_db ∧
  (∀ now f, preserves (api_iss float_of_string driver_text now f)) ∧
  (∀ limit, preserves (api_history limit)) ∧
  (∀ now r, preserves (create_satellite now r)) ∧
  (∀ sid r, preserves (update_satellite sid r)) ∧
  (∀ sid, preserves (delete_satellite sid)) ∧
  (∀ sat norad limit, preserves (list_positions sat norad limit)) ∧
  (∀ now r, preserves (create_position float_of_string now r)) ∧
  (∀ pid r, preserves (update_position_row float_of_string pid r)) ∧
  (∀ pid, preserves (delete_position_row pid)) ∧
  (∀ now, preserves (setup_app driver_text now)) ∧
  preserves api_status ∧
  preserves list_satellites ∧
  (∀ csv_line limit, preserves (api_history_csv csv_line limit)).
Proof.
  split_and!.
  - compute_done.
  - intros now f. unfold api_iss. preserve.
  - intros limit. unfold api_history. preserve.
  - intros now r. unfold create_satellite. preserve.
  - intros sid r. unfold update_satellite. preserve.
  - intros sid. unfold delete_satellite. preserve.
  - intros sat norad limit. unfold list_positions, list_positions_of. preserve.
  - intros now r. unfold create_position. preserve.
  - intros pid r. unfold update_position_row. preserve.
  - intros pid. unfold delete_position_row. preserve.
  - intros now. unfold setup_app, get_satellite_id. preserve.
  - unfold api_status. preserve.
  - unfold list_satellites. preserve.
  - intros csv_line limit. unfold api_history_csv. preserve.
Qed.

End Invariant.

(** ** Status *)

Lemma min_of_spec l :
  match min_of l with
  | None => l = []
  | Some m => m ∈ l ∧ ∀ z, z ∈ l → m ≤ z
  end.
Proof.
  induction l as [|z l IH]; simpl; [done|].
  destruct (min_of l) as [m|]; simpl.
  - destruct IH as [Hin Hle]. split.
    + destruct (Z.min_spec z m) as [[_ ->]|[_ ->]]; [left|by right].
    + intros y [->|Hy]%elem_of_cons; [lia|]. specialize (Hle y Hy). lia.
  - subst l. split; [left|]. intros y [->|Hy]%elem_of_cons; [lia|].
    by apply elem_of_nil in Hy.
Qed.

Lemma max_of_spec l :
  match max_of l with
  | None => l = []
  | Some m => m ∈ l ∧ ∀ z, z ∈ l → z ≤ m
  end.
Proof.
  induction l as [|z l IH]; simpl; [done|].
  destruct (max_of l) as [m|]; simpl.
  - destruct IH as [Hin Hle]. split.
    + destruct (Z.max_spec z m) as [[_ ->]|[_ ->]]; [by right|left].
    + intros y [->|Hy]%elem_of_cons; [lia|]. specialize (Hle y Hy). lia.
  - subst l. split; [left|]. intros y [->|Hy]%elem_of_cons; [lia|].
    by apply elem_of_nil in Hy.
Qed.

Lemma api_status_run d :
  api_status d =
    (Return (jsonify (obj [("points", PInt (Z.of_nat (length (positions_of_norad ISS d))));
                           ("first_timestamp",
                            opt_int (min_of (p_ts <$> positions_of_norad ISS d)));
                           ("last_timestamp",
                            opt_int (max_of (p_ts <$> positions_of_norad ISS d)))]) 200),
     d).
Proof.
  unfold api_status, select_status, mbind, M_bind. cbn [fst snd].
  rewrite length_fmap. unfold py_or, truthy.
  by destruct (Z.of_nat (length (positions_of_norad ISS d)) =? 0) eqn:E;
    [apply Z.eqb_eq in E; rewrite E|].
Qed.

(** The status query over the join. *)
Lemma api_status_join d :
  match positions_of_norad ISS d with
  | [] =>
      api_status d =
        (Return (jsonify (obj [("points", PInt 0); ("first_timestamp", PNone);
                               ("last_timestamp", PNone)]) 200), d)
  | _ :: _ =>
      ∃ lo hi,
        api_status d =
          (Return (jsonify (obj [("points",
                                  PInt (Z.of_nat (length (positions_of_norad ISS d))));
                                 ("first_timestamp", PInt lo);
                                 ("last_timestamp", PInt hi)]) 200), d) ∧
        (∃ p, p ∈ positions_of_norad ISS d ∧ p_ts p = lo) ∧
        (∃ p, p ∈ positions_of_norad ISS d ∧ p_ts p = hi) ∧
        ∀ p, p ∈ positions_of_norad ISS d → lo ≤ p_ts p ≤ hi
  end.
Proof.
  rewrite api_status_run.
  destruct (positions_of_norad ISS d) as [|p0 l] eqn:E; [done|].
  pose proof (min_of_spec (p_ts <$> p0 :: l)) as Hmin.
  pose proof (max_of_spec (p_ts <$> p0 :: l)) as Hmax.
  destruct (min_of _) as [lo|]; [|done]. destruct (max_of _) as [hi|]; [|done].
  destruct Hmin as [Hlo Hmin], Hmax as [Hhi Hmax].
  exists lo, hi. split_and!; [done| | |].
  - apply list_elem_of_fmap in Hlo as (p & -> & Hp). by exists p.
  - apply list_elem_of_fmap in Hhi as (p & -> & Hp). by exists p.
  - intros p Hp. split; [apply Hmin|apply Hmax]; by apply list_elem_of_fmap_2.
Qed.

(** X1.  The status query leaves the database alone and always answers
    200.  When no stored sample belongs to a satellite with the tracked
    identifier it reports 0 points and null for both bounds.  Otherwise,
    satellite keys being unique, it reports the number of stored samples
    of such satellites, and as first and last timestamp two timestamps
    that such samples carry and that bound the timestamps of all of
    them. *)
Theorem api_status_summary (d : db) :
  (Forall (λ p, ¬ Exists (λ s, s_id s = p_sat p ∧ s_norad s = ISS) (satellites d))
     (positions d) →
   api_status d =
     (Return (jsonify (obj [("points", PInt 0); ("first_timestamp", PNone);
                            ("last_timestamp", PNone)]) 200), d)) ∧
  (NoDup (s_id <$> satellites d) →
   Exists (λ p, Exists (λ s, s_id s = p_sat p ∧ s_norad s = ISS) (satellites d))
     (positions d) →
   ∃ lo hi,
     api_status d =
       (Return (jsonify (obj [("points",
                               PInt (Z.of_nat (length (filter
                                 (λ p, Exists (λ s, s_id s = p_sat p ∧ s_norad s = ISS)
                                         (satellites d)) (positions d)))));
                              ("first_timestamp", PInt lo);
                              ("last_timestamp", PInt hi)]) 200), d) ∧
     (∃ p, p ∈ positions d ∧
           Exists (λ s, s_id s = p_sat p ∧ s_norad s = ISS) (satellites d) ∧
           p_ts p = lo) ∧
     (∃ p, p ∈ positions d ∧
           Exists (λ s, s_id s = p_sat p ∧ s_norad s = ISS) (satellites d) ∧
           p_ts p = hi) ∧
     ∀ p, p ∈ positions d →
          Exists (λ s, s_id s = p_sat p ∧ s_norad s = ISS) (satellites d) →
          lo ≤ p_ts p ≤ hi).
Proof.
  pose proof (api_status_join d) as Hjoin. split.
  - intros Hnone. by rewrite (positions_of_norad_none ISS d Hnone) in Hjoin.
  - intros Hnd Hsome%positions_of_norad_some.
    rewrite <- (positions_of_norad_filter ISS d Hnd).
    destruct (positions_of_norad ISS d) as [|p0 l] eqn:E; [done|]. rewrite <- E in *.
    destruct Hjoin as (lo & hi & Hrun & (p & Hp & Hlo) & (q & Hq & Hhi) & Hbound).
    apply positions_of_norad_elem in Hp as [Hp Hpt], Hq as [Hq Hqt].
    exists lo, hi. split_and!; [done|by exists p|by exists q|].
    intros r Hr Hrt. apply Hbound. by apply positions_of_norad_elem.
Qed.

Lemma api_status_summary_witness :
  api_status seeded_db =
    (Return (jsonify (obj [("points", PInt 0); ("first_timestamp", PNone);
                           ("last_timestamp", PNone)]) 200), seeded_db) ∧
  ∃ lo hi,
    api_status paired_db =
      (Return (jsonify (obj [("points", PInt 2); ("first_timestamp", PInt lo);
                             ("last_timestamp", PInt hi)]) 200), paired_db) ∧
    lo ≤ 1700000000 ∧ 1700000060 ≤ hi.
Proof.
  split.
  - apply (api_status_summary seeded_db). constructor.
  - destruct (api_status_summary paired_db) as (_ & Hsome).
    destruct Hsome as (lo & hi & Hrun & _ & _ & Hbound); [compute_done|compute_done|].
    exists lo, hi. split_and!; [exact Hrun| |].
    + apply (Hbound (sample_at 1 1700000000)); compute_done.
    + apply (Hbound (sample_at 2 1700000060)); compute_done.
Defined.

Section StatusAndIngestion.
Context (float_of_string : string → option float) (driver_text : pyval → result string).

(** X2.  When a stored sample belongs to a satellite with the tracked
    identifier, a failed fetch is answered from the cache with the values
    of such a sample, and the timestamp of that answer is the one the
    status query reports as last_timestamp. *)
Theorem api_status_last_is_cached (now : Z) (d : db) :
  Exists (λ p, Exists (λ s, s_id s = p_sat p ∧ s_norad s = ISS) (satellites d))
    (positions d) →
  ∃ p summary,
    p ∈ positions d ∧
    Exists (λ s, s_id s = p_sat p ∧ s_norad s = ISS) (satellites d) ∧
    api_iss float_of_string driver_text now FetchFailed d =
      (Return (jsonify (obj [("source", PStr "cache");
                             ("timestamp", PInt (p_ts p));
                             ("latitude", PFloat (p_lat p));
                             ("longitude", PFloat (p_lon p));
                             ("altitude_km", opt_float (p_alt p));
                             ("velocity_kmh", opt_float (p_vel p))]) 200), d) ∧
    api_status d = (Return (jsonify summary 200), d) ∧
    fields summary !! "last_timestamp" = Some (PInt (p_ts p)).
Proof.
  intros Hne%positions_of_norad_some. rewrite api_status_run.
  destruct (order_by_ts_desc_has_head _ Hne) as (p & Hhd).
  pose proof (max_of_spec (p_ts <$> positions_of_norad ISS d)) as Hmax.
  destruct (max_of _) as [hi|]; [|by apply fmap_nil_inv in Hmax].
  pose proof (order_by_ts_desc_head _ _ Hhd) as [Hin Hnewest].
  destruct Hmax as [Hhi Hmax].
  apply list_elem_of_fmap in Hhi as (q & -> & Hq).
  assert (p_ts q = p_ts p) as Heq.
  { specialize (Hnewest q Hq).
    specialize (Hmax (p_ts p) (list_elem_of_fmap_2 _ _ _ Hin)). lia. }
  pose proof (proj1 (positions_of_norad_elem _ _ _) Hin) as [Hp Htracked].
  exists p. eexists. split_and!; [done|done|by apply api_iss_cached|reflexivity|].
  rewrite Heq. reflexivity.
Qed.

End StatusAndIngestion.

Lemma api_status_last_is_cached_witness :
  ∃ p summary,
    p ∈ positions paired_db ∧
    api_iss integer_strtod no_driver_text 2000 FetchFailed paired_db =
      (Return (jsonify (obj [("source", PStr "cache");
                             ("timestamp", PInt (p_ts p));
                             ("latitude", PFloat (p_lat p));
                             ("longitude", PFloat (p_lon p));
                             ("altitude_km", opt_float (p_alt p));
                             ("velocity_kmh", opt_float (p_vel p))]) 200), paired_db) ∧
    api_status paired_db = (Return (jsonify summary 200), paired_db) ∧
    fields summary !! "last_timestamp" = Some (PInt (p_ts p)).
Proof.
  destruct (api_status_last_is_cached integer_strtod no_driver_text 2000 paired_db)
    as (p & summary & Hin & _ & Hcache & Hstatus & Hlast); [compute_done|].
  exists p, summary. by split_and!.
Defined.

(** ** Live ingestion, then status and cache *)

(** Case on the first lifted conversion of the goal. *)
Ltac step_lift x :=
  match goal with
  | |- context [(lift ?r ≫= _) _] =>
      destruct r as [x|?]; [rewrite lift_return|by rewrite lift_raise]
  end.

Section LiveThenStatus.
Context (float_of_string : string → option float) (driver_text : pyval → result string).

(** What the resolver, served alone, has done when it returns. *)
Lemma get_satellite_id_alone_inv now norad name d sid d1 :
  get_satellite_id driver_text id id now norad name d = (Return sid, d1) →
  (∃ s, find (λ s, s_norad s =? norad) (satellites d) = Some s ∧
        sid = s_id s ∧ d1 = d) ∨
  (find (λ s, s_norad s =? norad) (satellites d) = None ∧
   sid = sat_auto d ∧
   ∃ nm, d1 = {| satellites := satellites d ++
                   [{| s_id := sat_auto d; s_norad := norad; s_name := nm;
                       s_created := now |}];
                 positions := positions d;
                 sat_auto := sat_auto d + 1; pos_auto := pos_auto d |}).
Proof.
  unfold get_satellite_id, select_satellite_by_norad, interleave, try_except, lift,
    mbind, M_bind, mret, M_ret, raise, id.
  destruct (find _ (satellites d)) as [s|] eqn:Hfind.
  - intros [= <- <-]. left. by exists s.
  - destruct (bind_name driver_text name) as [[nm|]|e]; simpl.
    + unfold insert_satellite. destruct (negb _); simpl.
      { by intros [= ?]. }
      destruct (existsb _ _); simpl.
      * by rewrite Hfind.
      * intros [= <- <-]. right. split_and!; [done..|]. by exists nm.
    + by rewrite Hfind.
    + destruct (decide (e = IntegrityError)); [by rewrite Hfind|done].
Qed.

(** What a successful live fetch that was answered has done. *)
Lemma api_iss_live_inv now data d resp d' :
  api_iss float_of_string driver_text now (FetchOk data) d = (Return resp, d') →
  ∃ sid d1 p alt vel,
    get_satellite_id driver_text id id now ISS
      (default (PStr "ISS") (fields data !! "name")) d = (Return sid, d1) ∧
    p_id p = pos_auto d1 ∧ p_sat p = sid ∧
    p_alt p = Some alt ∧ p_vel p = Some vel ∧
    Exists (λ s, s_id s = sid) (satellites d1) ∧
    position_ok (with_position d1 p) p ∧
    d' = with_position d1 p ∧
    resp = jsonify (obj [("source", PStr "live");
                         ("timestamp", PInt (p_ts p));
                         ("latitude", PFloat (p_lat p));
                         ("longitude", PFloat (p_lon p));
                         ("altitude_km", PFloat alt);
                         ("velocity_kmh", PFloat vel)]) 200.
Proof.
  unfold api_iss.
  destruct data as [| | | | | |m]; simpl py_get; try (by rewrite lift_raise).
  rewrite lift_return. unfold mbind at 1. unfold M_bind at 1.
  destruct (get_satellite_id _ _ _ _ _ _ d) as [[sid|e] d1] eqn:Hsid; [|done].
  step_lift ts. step_lift lat. step_lift lon. step_lift alt. step_lift vel.
  unfold mbind, M_bind, insert_position.
  destruct (bindable lat && bindable lon && opt_bindable (Some alt) && opt_bindable (Some vel))
    eqn:Hbind; simpl negb; cbv iota; [|done].
  destruct (int32 ts) eqn:Hts; simpl negb; cbv iota; [|done].
  destruct (existsb _ (satellites d1)) eqn:Hfk; simpl negb; cbv iota; [|done].
  intros [= <- <-].
  apply andb_prop in Hbind as [Hbind Hvel]. apply andb_prop in Hbind as [Hbind Halt].
  apply andb_prop in Hbind as [Hlat Hlon]. apply existsb_key in Hfk.
  exists sid, d1,
    {| p_id := pos_auto d1; p_sat := sid; p_ts := ts; p_lat := lat; p_lon := lon;
       p_alt := Some alt; p_vel := Some vel; p_created := now |}, alt, vel.
  split_and!; try done.
  unfold position_ok. simpl. split_and!; try done. lia.
Qed.

(** Under the schema, an answered live fetch adds exactly the new sample
    to the samples of the tracked object. *)
Lemma api_iss_live_joined now data d resp d' :
  wf d →
  api_iss float_of_string driver_text now (FetchOk data) d = (Return resp, d') →
  ∃ p alt vel,
    positions_of_norad ISS d' = positions_of_norad ISS d ++ [p] ∧
    positions d' = positions d ++ [p] ∧
    p_alt p = Some alt ∧ p_vel p = Some vel ∧
    resp = jsonify (obj [("source", PStr "live");
                         ("timestamp", PInt (p_ts p));
                         ("latitude", PFloat (p_lat p));
                         ("longitude", PFloat (p_lon p));
                         ("altitude_km", PFloat alt);
                         ("velocity_kmh", PFloat vel)]) 200.
Proof.
  intros (Hids & Hnorads & Hpids & Hsats & Hposs) Hrun.
  apply api_iss_live_inv in Hrun
    as (sid & d1 & p & alt & vel & Hsid & Hpid & Hpsat & Halt & Hvel & _ & _ & -> & ->).
  exists p, alt, vel.
  assert (positions d1 = positions d) as Hsame.
  { apply get_satellite_id_alone_inv in Hsid
      as [(s & _ & _ & ->)|(_ & _ & nm & ->)]; done. }
  split_and!; [|by cbn [with_position positions]; rewrite Hsame|done..].
  rewrite !positions_of_norad_joined. simpl. rewrite bind_app, bind_singleton.
  apply get_satellite_id_alone_inv in Hsid
    as [(s & Hfind & -> & ->)|(Hfind & -> & nm & ->)]; simpl.
  - apply find_key_Some in Hfind as [Hin Hs].
    by rewrite (joined_one ISS (satellites d) p s).
  - apply find_key_None in Hfind.
    assert (Hnone : ∀ q, joined ISS (satellites d) q = []).
    { intros q. apply joined_none. eapply Forall_impl; [exact Hfind|].
      intros s Hs [_ ?]. done. }
    rewrite joined_snoc, Hnone, decide_True by done.
    rewrite !bind_all_nil; [done| |].
    + apply Forall_forall. intros q _. apply Hnone.
    + apply Forall_forall. intros q Hq. rewrite joined_snoc, Hnone. simpl.
      rewrite decide_False; [done|]. intros [Heq _].
      rewrite Forall_forall in Hposs. destruct (Hposs q Hq) as (_ & _ & _ & _ & _ & _ & Hfk).
      apply Exists_exists in Hfk as (s & Hs & Hid).
      rewrite Forall_forall in Hsats. destruct (Hsats s Hs) as (Hlt & _). lia.
Qed.

(** X3.  In a database within the schema, a live fetch that is answered
    has appended one sample to the stored ones and answered 200 with
    source "live" and the timestamp, latitude, longitude, altitude and
    velocity of that sample; when its timestamp is strictly greater than
    that of every sample stored before that belongs to a satellite with
    the tracked identifier, a failed fetch right after is answered 200
    with the same values and source "cache". *)
Theorem live_then_cached (now now' : Z) (data : pyval) (d d' : db) (resp : response) :
  wf d →
  api_iss float_of_string driver_text now (FetchOk data) d = (Return resp, d') →
  ∃ p alt vel,
    positions d' = positions d ++ [p] ∧
    p_alt p = Some alt ∧ p_vel p = Some vel ∧
    resp = jsonify (obj [("source", PStr "live");
                         ("timestamp", PInt (p_ts p));
                         ("latitude", PFloat (p_lat p));
                         ("longitude", PFloat (p_lon p));
                         ("altitude_km", PFloat alt);
                         ("velocity_kmh", PFloat vel)]) 200 ∧
    ((∀ q, q ∈ positions d →
           Exists (λ s, s_id s = p_sat q ∧ s_norad s = ISS) (satellites d) →
           p_ts q < p_ts p) →
     api_iss float_of_string driver_text now' FetchFailed d' =
       (Return (jsonify (obj [("source", PStr "cache");
                              ("timestamp", PInt (p_ts p));
                              ("latitude", PFloat (p_lat p));
                              ("longitude", PFloat (p_lon p));
                              ("altitude_km", PFloat alt);
                              ("velocity_kmh", PFloat vel)]) 200), d')).
Proof.
  intros Hwf Hrun.
  destruct (api_iss_live_joined now data d resp d' Hwf Hrun)
    as (p & alt & vel & Hjoin & Hpos & Halt & Hvel & Hresp).
  exists p, alt, vel. split_and!; [done..|]. intros Hnewer.
  destruct (order_by_ts_desc_has_head (positions_of_norad ISS d')) as (p' & Hhd).
  { rewrite Hjoin. by destruct (positions_of_norad ISS d). }
  rewrite (api_iss_cached _ _ _ _ p') by done.
  apply order_by_ts_desc_head in Hhd as [Hin Hmax].
  rewrite Hjoin in Hin, Hmax.
  apply elem_of_app in Hin as [Hold|Hnew].
  - apply positions_of_norad_elem in Hold as [Hold Htracked].
    specialize (Hnewer p' Hold Htracked).
    assert (p_ts p ≤ p_ts p') by (apply Hmax, elem_of_app; right; left). lia.
  - apply list_elem_of_singleton in Hnew. subst p'. by rewrite Halt, Hvel.
Qed.

(** X4.  In a database within the schema, every live fetch that is
    answered raises the number of points the status query reports by
    exactly one. *)
Theorem live_fetch_adds_point (now : Z) (data : pyval) (d d' : db) (resp : response) :
  wf d →
  api_iss float_of_string driver_text now (FetchOk data) d = (Return resp, d') →
  ∃ n before after,
    api_status d = (Return (jsonify before 200), d) ∧
    fields before !! "points" = Some (PInt n) ∧
    api_status d' = (Return (jsonify after 200), d') ∧
    fields after !! "points" = Some (PInt (n + 1)).
Proof.
  intros Hwf Hrun.
  destruct (api_iss_live_joined now data d resp d' Hwf Hrun)
    as (p & alt & vel & Hjoin & _).
  rewrite !api_status_run.
  eexists _, _, _. split_and!; [reflexivity|reflexivity|reflexivity|].
  rewrite Hjoin, length_app. simpl.
  replace (Z.of_nat (length (positions_of_norad ISS d) + 1))
    with (Z.of_nat (length (positions_of_norad ISS d)) + 1) by lia.
  reflexivity.
Qed.

End LiveThenStatus.

Lemma live_then_cached_witness :
  ∃ d',
    api_iss integer_strtod no_driver_text 2000 (FetchOk (PDict bare_reading)) seeded_db =
      (Return (jsonify (obj [("source", PStr "live");
                             ("timestamp", PInt 1700000000);
                             ("latitude", PFloat ten);
                             ("longitude", PFloat twenty);
                             ("altitude_km", PFloat (S754_zero false));
                             ("velocity_kmh", PFloat (S754_zero false))]) 200), d') ∧
    api_iss integer_strtod no_driver_text 2001 FetchFailed d' =
      (Return (jsonify (obj [("source", PStr "cache");
                             ("timestamp", PInt 1700000000);
                             ("latitude", PFloat ten);
                             ("longitude", PFloat twenty);
                             ("altitude_km", PFloat (S754_zero false));
                             ("velocity_kmh", PFloat (S754_zero false))]) 200), d').
Proof.
  eexists. split; [reflexivity|].
  destruct (live_then_cached integer_strtod no_driver_text 2000 2001
              (PDict bare_reading) seeded_db _ _ ltac:(compute_done) eq_refl)
    as (p & alt & vel & Hpos & Halt & Hvel & Hresp & Hcache).
  apply app_singleton in Hpos as [[_ Hp]|[? _]]; [|done].
  injection Hp as <-. injection Halt as <-. injection Hvel as <-.
  apply Hcache. intros q Hq. by apply elem_of_nil in Hq.
Defined.

Lemma live_fetch_adds_point_witness :
  ∃ d' before after,
    api_iss integer_strtod no_driver_text 2000 (FetchOk (PDict bare_reading)) tracked_db =
      (Return (jsonify (obj [("source", PStr "live");
                             ("timestamp", PInt 1700000000);
                             ("latitude", PFloat ten);
                             ("longitude", PFloat twenty);
                             ("altitude_km", PFloat (S754_zero false));
                             ("velocity_kmh", PFloat (S754_zero false))]) 200), d') ∧
    api_status tracked_db = (Return (jsonify before 200), tracked_db) ∧
    fields before !! "points" = Some (PInt 2) ∧
    api_status d' = (Return (jsonify after 200), d') ∧
    fields after !! "points" = Some (PInt 3).
Proof.
  destruct (live_fetch_adds_point integer_strtod no_driver_text 2000
              (PDict bare_reading) tracked_db _ _ ltac:(compute_done) eq_refl)
    as (n & before & after & Hb & Hn & Ha & Hn').
  eexists _, before, after. split; [reflexivity|].
  assert (n = 2) as ->.
  { rewrite api_status_run in Hb. injection Hb as <-. by injection Hn. }
  by split_and!.
Defined.

(** ** The satellites listing *)

#[global] Instance id_asc_trans : Transitive id_asc.
Proof. unfold id_asc. intros a b c ? ?. lia. Qed.

#[global] Instance id_asc_total : Total id_asc.
Proof. unfold id_asc. intros a b. lia. Qed.

Lemma length_filter_or {A} (P Q : A → Prop)
    `{∀ x, Decision (P x)} `{∀ x, Decision (Q x)} (l : list A) :
  (∀ x, P x → Q x → False) →
  length (filter (λ x, P x ∨ Q x) l) = (length (filter P l) + length (filter Q l))%nat.
Proof.
  intros Hdis. induction l as [|x l IH]; [done|].
  rewrite !filter_cons.
  destruct (decide (P x)) as [HP|HP], (decide (Q x)) as [HQ|HQ].
  - destruct (Hdis x HP HQ).
  - rewrite decide_True by tauto. simpl. lia.
  - rewrite decide_True by tauto. simpl. lia.
  - rewrite decide_False by tauto. lia.
Qed.

(** The samples of the satellites of [S], counted satellite by satellite. *)
Lemma position_counts_sum (S : list satellite) (d : db) :
  NoDup (s_id <$> S) →
  foldr Z.add 0 ((λ s, position_count (s_id s) d) <$> S) =
    Z.of_nat (length (filter (λ p, Exists (λ s, s_id s = p_sat p) S) (positions d))).
Proof.
  induction S as [|s S IH]; intros Hnd.
  - rewrite (filter_none (λ p, Exists _ [])); [done|].
    apply Forall_forall. intros p _ H. by apply Exists_nil in H.
  - rewrite !fmap_cons in *. cbn [foldr].
    apply NoDup_cons in Hnd as [Hs Hnd]. rewrite IH by done. unfold position_count.
    rewrite (list_filter_iff (λ p, Exists _ (s :: S))
               (λ p, p_sat p = s_id s ∨ Exists (λ s', s_id s' = p_sat p) S)).
    2:{ intros p. rewrite Exists_cons.
        split; (intros [Heq|?]; [left; by symmetry|by right]). }
    rewrite length_filter_or; [lia|].
    intros p Hp (s' & Hin & Hid)%Exists_exists. apply Hs.
    rewrite <- Hp, <- Hid. by apply list_elem_of_fmap_2.
Qed.

(** X5.  The satellites listing leaves the database alone and answers 200
    with one row for each stored satellite, in ascending order of key,
    each with the number of samples that refer to it; in a database within
    the schema these numbers add up to the number of stored samples. *)
Theorem list_satellites_counts (d : db) :
  wf d →
  ∃ rows,
    list_satellites d = (Return (jsonify (PList (satellite_row <$> rows)) 200), d) ∧
    rows.*1 ≡ₚ satellites d ∧
    StronglySorted id_asc (rows.*1) ∧
    Forall (λ r, r.2 = position_count (s_id r.1) d) rows ∧
    foldr Z.add 0 (rows.*2) = Z.of_nat (length (positions d)).
Proof.
  intros (Hids & _ & _ & _ & Hposs).
  set (S := merge_sort id_asc (satellites d)).
  assert (Hperm : S ≡ₚ satellites d) by apply merge_sort_Permutation.
  exists ((λ s, (s, position_count (s_id s) d)) <$> S).
  assert (Hfst : ((λ s, (s, position_count (s_id s) d)) <$> S).*1 = S).
  { rewrite <- list_fmap_compose. apply list_fmap_id. }
  split_and!.
  - reflexivity.
  - by rewrite Hfst.
  - rewrite Hfst. apply (StronglySorted_merge_sort _).
  - apply Forall_fmap, Forall_forall. by intros s _.
  - rewrite <- list_fmap_compose.
    change (snd ∘ _) with (λ s, position_count (s_id s) d).
    assert (NoDup (s_id <$> S)) as HndS.
    { eapply (proj2 (NoDup_Permutation_proper _ _ (fmap_Permutation s_id _ _ Hperm))).
      exact Hids. }
    rewrite position_counts_sum by done.
    rewrite filter_all; [done|].
    eapply Forall_impl; [exact Hposs|]. intros p (_ & _ & _ & _ & _ & _ & Hfk).
    apply Exists_exists in Hfk as (s & Hin & Hid). apply Exists_exists.
    exists s. split; [|done]. by eapply elem_of_Permutation_proper.
Qed.

Lemma list_satellites_counts_witness :
  ∃ rows,
    list_satellites tracked_db =
      (Return (jsonify (PList (satellite_row <$> rows)) 200), tracked_db) ∧
    rows.*1 ≡ₚ satellites tracked_db ∧
    rows.*2 = [2].
Proof.
  destruct (list_satellites_counts tracked_db) as (rows & Hrun & Hperm & _ & Hcount & _);
    [compute_done|].
  exists rows. split_and!; [done..|].
  apply Permutation_singleton_r in Hperm.
  destruct rows as [|[s n] [|]]; simplify_eq/=.
  rewrite Forall_singleton in Hcount. f_equal. exact Hcount.
Defined.

(** ** The CSV export *)

(** The newest [n] of a non-empty list of samples, turned oldest first. *)
Lemma recent_rows_spec n l :
  1 ≤ n → l ≠ [] →
  limit_rows n (order_by_ts_desc l) ≠ [] ∧
  length (reverse (limit_rows n (order_by_ts_desc l))) = Nat.min (Z.to_nat n) (length l) ∧
  StronglySorted ts_asc (reverse (limit_rows n (order_by_ts_desc l))) ∧
  ∃ rest,
    reverse (limit_rows n (order_by_ts_desc l)) ++ rest ≡ₚ l ∧
    ∀ p q, p ∈ reverse (limit_rows n (order_by_ts_desc l)) → q ∈ rest → p_ts q ≤ p_ts p.
Proof.
  intros Hn Hne.
  destruct (limit_order_by_split n l) as (rest & Hperm & Hnew).
  set (kept := limit_rows n (order_by_ts_desc l)) in *.
  assert (Hlen : length kept = Nat.min (Z.to_nat n) (length l)).
  { unfold kept. rewrite limit_rows_length.
    by rewrite (Permutation_length (order_by_ts_desc_perm _)). }
  split_and!.
  - intros Hnil. rewrite Hnil in Hlen. simpl in Hlen.
    destruct l; [done|]. simpl in Hlen. lia.
  - by rewrite length_reverse.
  - apply reverse_ts_desc_asc. unfold kept, limit_rows.
    pose proof (order_by_ts_desc_sorted l) as Hs.
    rewrite <- (take_drop (Z.to_nat n)) in Hs.
    by apply StronglySorted_app_1_l in Hs.
  - exists rest. split; [by rewrite reverse_Permutation|].
    intros p q Hp Hq. rewrite elem_of_reverse in Hp. by apply Hnew.
Qed.

Section ExportProperties.
Context (csv_line : list pyval → string).

Lemma api_history_csv_run limit_arg n d :
  limit_of limit_arg 500 5000 = Return n →
  limit_rows n (order_by_ts_desc (positions_of_norad ISS d)) ≠ [] →
  api_history_csv csv_line limit_arg d =
    (Return {| att_status := 200;
               att_mimetype := "text/csv";
               att_disposition := "attachment; filename=iss_history.csv";
               att_data := String.concat ""
                 (csv_line csv_header ::
                  (csv_line ∘ csv_fields <$>
                     reverse (limit_rows n (order_by_ts_desc (positions_of_norad ISS d))))) |},
     d).
Proof.
  intros Hn Hne. unfold api_history_csv. rewrite Hn, lift_return.
  unfold select_recent_by_norad, mbind, M_bind.
  by destruct (limit_rows n _).
Qed.

Lemma api_history_run limit_arg n d :
  limit_of limit_arg 50 1000 = Return n →
  limit_rows n (order_by_ts_desc (positions_of_norad ISS d)) ≠ [] →
  api_history limit_arg d =
    (Return (jsonify (PList (history_row <$>
       reverse (limit_rows n (order_by_ts_desc (positions_of_norad ISS d))))) 200), d).
Proof.
  intros Hn Hne. unfold api_history. rewrite Hn, lift_return.
  unfold select_recent_by_norad, mbind, M_bind.
  by destruct (limit_rows n _).
Qed.

(** X6.  With a limit that is absent (500) or that [int] reads as [N],
    unique satellite keys, and at least one stored sample of a satellite
    with the tracked identifier, the CSV export answers 200 with an
    attachment of type text/csv named iss_history.csv whose text is the
    header line followed by one line for each of
    [min(max(1, min(N, 5000)), count)] rows; the rows are a newest
    selection of the stored samples of such satellites, oldest first,
    each line written from timestamp, latitude, longitude, altitude and
    velocity in that order; the database is unchanged. *)
Theorem api_history_csv_rows (limit_arg : option string) (N : Z) (d : db) :
  py_int (from_option PStr (PInt 500) limit_arg) = Return N →
  NoDup (s_id <$> satellites d) →
  Exists (λ p, Exists (λ s, s_id s = p_sat p ∧ s_norad s = ISS) (satellites d))
    (positions d) →
  ∃ rows rest,
    api_history_csv csv_line limit_arg d =
      (Return {| att_status := 200;
                 att_mimetype := "text/csv";
                 att_disposition := "attachment; filename=iss_history.csv";
                 att_data := String.concat ""
                   (csv_line [PStr "timestamp"; PStr "latitude"; PStr "longitude";
                              PStr "altitude_km"; PStr "velocity_kmh"] ::
                    ((λ p, csv_line [PInt (p_ts p); PFloat (p_lat p); PFloat (p_lon p);
                                     opt_float (p_alt p); opt_float (p_vel p)])
                       <$> rows)) |}, d) ∧
    length rows =
      Nat.min (Z.to_nat (Z.max 1 (Z.min N 5000)))
        (length (filter (λ p, Exists (λ s, s_id s = p_sat p ∧ s_norad s = ISS)
                                (satellites d)) (positions d))) ∧
    StronglySorted ts_asc rows ∧
    rows ++ rest ≡ₚ
      filter (λ p, Exists (λ s, s_id s = p_sat p ∧ s_norad s = ISS) (satellites d))
        (positions d) ∧
    ∀ p q, p ∈ rows → q ∈ rest → p_ts q ≤ p_ts p.
Proof.
  intros HN Hnd Hne%positions_of_norad_some.
  rewrite <- (positions_of_norad_filter ISS d Hnd).
  assert (limit_of limit_arg 500 5000 = Return (Z.max 1 (Z.min N 5000))) as Hn.
  { unfold limit_of. by rewrite HN. }
  destruct (recent_rows_spec (Z.max 1 (Z.min N 5000)) (positions_of_norad ISS d))
    as (Hkept & Hlen & Hsorted & rest & Hperm & Hnew); [lia|done|].
  eexists _, rest. split_and!; [by apply api_history_csv_run|done..].
Qed.

(** X7.  For a limit that [int] reads as a number of at most 1000, unique
    satellite keys, and at least one stored sample of a satellite with
    the tracked identifier, the CSV export and the history query answer
    from the same rows in the same order: the export has, after its
    header, one line for each row of the history, and these rows are
    stored samples of such satellites. *)
Theorem api_history_csv_matches_history (s : string) (N : Z) (d : db) :
  int_of_string s = Some N →
  N ≤ 1000 →
  NoDup (s_id <$> satellites d) →
  Exists (λ p, Exists (λ s, s_id s = p_sat p ∧ s_norad s = ISS) (satellites d))
    (positions d) →
  ∃ rows rest,
    api_history (Some s) d =
      (Return (jsonify (PList ((λ p, obj [("timestamp", PInt (p_ts p));
                                           ("latitude", PFloat (p_lat p));
                                           ("longitude", PFloat (p_lon p));
                                           ("altitude_km", opt_float (p_alt p));
                                           ("velocity_kmh", opt_float (p_vel p))])
                                     <$> rows)) 200), d) ∧
    api_history_csv csv_line (Some s) d =
      (Return {| att_status := 200;
                 att_mimetype := "text/csv";
                 att_disposition := "attachment; filename=iss_history.csv";
                 att_data := String.concat ""
                   (csv_line [PStr "timestamp"; PStr "latitude"; PStr "longitude";
                              PStr "altitude_km"; PStr "velocity_kmh"] ::
                    ((λ p, csv_line [PInt (p_ts p); PFloat (p_lat p); PFloat (p_lon p);
                                     opt_float (p_alt p); opt_float (p_vel p)])
                       <$> rows)) |}, d) ∧
    rows ≠ [] ∧
    rows ++ rest ≡ₚ
      filter (λ p, Exists (λ s, s_id s = p_sat p ∧ s_norad s = ISS) (satellites d))
        (positions d).
Proof.
  intros Hs HN Hnd Hne%positions_of_norad_some.
  rewrite <- (positions_of_norad_filter ISS d Hnd).
  assert (limit_of (Some s) 50 1000 = Return (Z.max 1 N)) as H50.
  { unfold limit_of. simpl. rewrite Hs. simpl. f_equal. lia. }
  assert (limit_of (Some s) 500 5000 = Return (Z.max 1 N)) as H500.
  { unfold limit_of. simpl. rewrite Hs. simpl. f_equal. lia. }
  destruct (recent_rows_spec (Z.max 1 N) (positions_of_norad ISS d))
    as (Hkept & _ & _ & rest & Hperm & _); [lia|done|].
  eexists _, rest.
  split_and!; [by apply api_history_run|by apply api_history_csv_run| |done].
  intros Hnil. apply Hkept. by apply (inj reverse).
Qed.

End ExportProperties.

Lemma api_history_csv_rows_witness :
  ∃ rows,
    api_history_csv sample_csv_line None tracked_db =
      (Return {| att_status := 200;
                 att_mimetype := "text/csv";
                 att_disposition := "attachment; filename=iss_history.csv";
                 att_data := String.concat ""
                   (sample_csv_line [PStr "timestamp"; PStr "latitude"; PStr "longitude";
                                     PStr "altitude_km"; PStr "velocity_kmh"] ::
                    ((λ p, sample_csv_line [PInt (p_ts p); PFloat (p_lat p);
                                            PFloat (p_lon p); opt_float (p_alt p);
                                            opt_float (p_vel p)]) <$> rows)) |},
       tracked_db) ∧
    length rows = 2%nat ∧
    StronglySorted ts_asc rows.
Proof.
  destruct (api_history_csv_rows sample_csv_line None 500 tracked_db)
    as (rows & rest & Hrun & Hlen & Hsorted & _);
    [reflexivity|compute_done|compute_done|].
  exists rows. by split_and!.
Defined.

Lemma api_history_csv_matches_history_witness :
  ∃ rows,
    api_history (Some "1") tracked_db =
      (Return (jsonify (PList ((λ p, obj [("timestamp", PInt (p_ts p));
                                           ("latitude", PFloat (p_lat p));
                                           ("longitude", PFloat (p_lon p));
                                           ("altitude_km", opt_float (p_alt p));
                                           ("velocity_kmh", opt_float (p_vel p))])
                                     <$> rows)) 200), tracked_db) ∧
    api_history_csv sample_csv_line (Some "1") tracked_db =
      (Return {| att_status := 200;
                 att_mimetype := "text/csv";
                 att_disposition := "attachment; filename=iss_history.csv";
                 att_data := String.concat ""
                   (sample_csv_line [PStr "timestamp"; PStr "latitude"; PStr "longitude";
                                     PStr "altitude_km"; PStr "velocity_kmh"] ::
                    ((λ p, sample_csv_line [PInt (p_ts p); PFloat (p_lat p);
                                            PFloat (p_lon p); opt_float (p_alt p);
                                            opt_float (p_vel p)]) <$> rows)) |},
       tracked_db) ∧
    rows ≠ [].
Proof.
  destruct (api_history_csv_matches_history sample_csv_line "1" 1 tracked_db)
    as (rows & rest & Hhistory & Hcsv & Hne & _);
    [reflexivity|lia|compute_done|compute_done|].
  exists rows. by split_and!.
Defined.

Lemma api_history_recent_witness :
  ∃ rows,
    api_history (Some "1") tracked_db =
      (Return (jsonify (PList ((λ p, obj [("timestamp", PInt (p_ts p));
                                           ("latitude", PFloat (p_lat p));
                                           ("longitude", PFloat (p_lon p));
                                           ("altitude_km", opt_float (p_alt p));
                                           ("velocity_kmh", opt_float (p_vel p))])
                                     <$> rows)) 200), tracked_db) ∧
    length rows = 1%nat ∧
    ∀ p, p ∈ rows → p_ts p = 1700000060.
Proof.
  destruct (api_history_recent (Some "1") 1 tracked_db)
    as (rows & rest & Hrun & Hlen & _ & Hperm & Hnew);
    [reflexivity|compute_done|compute_done|].
  change (filter _ _) with [sample_at 1 1700000000; sample_at 2 1700000060]
    in Hlen, Hperm.
  exists rows. split_and!; [done..|].
  intros p Hp.
  destruct rows as [|p1 [|]]; simplify_eq/=.
  apply list_elem_of_singleton in Hp as ->.
  destruct rest as [|q [|]];
    try (apply Permutation_length in Hperm; simpl in Hperm; lia).
  assert (p_ts q ≤ p_ts p1) as Hle by (apply Hnew; left).
  apply Permutation_length_2 in Hperm as [[-> ->]|[-> ->]]; simpl in *; lia.
Defined.

(** ** Queries change nothing *)

Lemma read_only_ret {A} (a : A) : read_only (mret a).
Proof. by intros d. Qed.

Lemma read_only_lift {A} (r : result A) : read_only (lift r).
Proof. by intros d. Qed.

Lemma read_only_raise {A} e : read_only (@raise A e).
Proof. by intros d. Qed.

Lemma read_only_bind {A B} (m : M A) (k : A → M B) :
  read_only m → (∀ a, read_only (k a)) → read_only (m ≫= k).
Proof.
  intros Hm Hk d. unfold mbind, M_bind.
  specialize (Hm d). destruct (m d) as [[a|e] d']; simpl in *; subst d'; [|done].
  apply Hk.
Qed.

Lemma select_status_read_only norad : read_only (select_status norad).
Proof. by intros d. Qed.

Lemma select_satellites_read_only : read_only select_satellites.
Proof. by intros d. Qed.

Lemma select_satellite_by_norad_read_only norad :
  read_only (select_satellite_by_norad norad).
Proof. by intros d. Qed.

Lemma select_recent_by_norad_read_only norad n : read_only (select_recent_by_norad norad n).
Proof. by intros d. Qed.

Lemma select_recent_by_satellite_read_only sat n :
  read_only (select_recent_by_satellite sat n).
Proof. by intros d. Qed.

Ltac read_only_step :=
  first
    [ apply read_only_ret | apply read_only_lift | apply read_only_raise
    | apply select_status_read_only | apply select_satellites_read_only
    | apply select_satellite_by_norad_read_only
    | apply select_recent_by_norad_read_only
    | apply select_recent_by_satellite_read_only
    | apply read_only_bind; [|intros ?]
    | match goal with
      | |- read_only (match ?x with _ => _ end) => destruct x
      end ].

Ltac read_only_all := cbv zeta; repeat read_only_step.

Section Queries.
Context (float_of_string : string → option float) (driver_text : pyval → result string).

(** X9.  The history query, the CSV export, the status query, the
    satellites listing, the positions query and the ingestion endpoint on a
    failed fetch never change the database, whatever their arguments and
    whether they answer or raise. *)
Theorem queries_read_only :
  (∀ limit, read_only (api_history limit)) ∧
  (∀ csv_line limit, read_only (api_history_csv csv_line limit)) ∧
  read_only api_status ∧
  read_only list_satellites ∧
  (∀ sat norad limit, read_only (list_positions sat norad limit)) ∧
  (∀ now, read_only (api_iss float_of_string driver_text now FetchFailed)).
Proof.
  split_and!.
  - intros limit. unfold api_history. read_only_all.
  - intros csv_line limit. unfold api_history_csv. read_only_all.
  - unfold api_status. read_only_all.
  - unfold list_satellites. read_only_all.
  - intros sat norad limit. unfold list_positions, list_positions_of. read_only_all.
  - intros now. unfold api_iss. read_only_all.
Qed.

End Queries.

Lemma handlers_preserve_wf_witness :
  wf (api_iss integer_strtod no_driver_text 2000 (FetchOk (PDict bare_reading)) empty_db).2 ∧
  wf (delete_satellite 1 tracked_db).2.
Proof.
  destruct (handlers_preserve_wf integer_strtod no_driver_text)
    as (Hempty & Hiss & _ & _ & _ & Hdel & _).
  split; [by apply Hiss|apply Hdel; compute_done].
Defined.

(** ** Deleting a sample *)

(** X11.  Deleting a sample by a key that is stored answers 200 and removes
    the rows of that key and nothing else: the other samples stay, in
    their order, and the satellites are untouched; deleting it again
    answers 404.  Deleting by a key that is not stored answers 404 and
    leaves the database as it was. *)
Theorem delete_position_row_removes (pid : Z) (d : db) :
  (Exists (λ p, p_id p = pid) (positions d) →
   ∃ d', delete_position_row pid d =
           (Return (jsonify (obj [("deleted", PBool true)]) 200), d') ∧
         positions d' = filter (λ p, p_id p ≠ pid) (positions d) ∧
         satellites d' = satellites d ∧
         delete_position_row pid d' =
           (Return (jsonify (error_body "position not found") 404), d')) ∧
  (Forall (λ p, p_id p ≠ pid) (positions d) →
   delete_position_row pid d =
     (Return (jsonify (error_body "position not found") 404), d)).
Proof.
  assert (Hmiss : ∀ d0, Forall (λ p, p_id p ≠ pid) (positions d0) →
            delete_position_row pid d0 =
              (Return (jsonify (error_body "position not found") 404), d0)).
  { intros d0 Hnone. unfold delete_position_row, delete_positions, mbind, M_bind.
    by rewrite (filter_none (λ p, p_id p = pid)). }
  split; [|apply Hmiss].
  intros Hex. unfold delete_position_row at 1. unfold delete_positions, mbind, M_bind.
  destruct (filter (λ p, p_id p = pid) (positions d)) as [|p0 hit] eqn:Hhit.
  { exfalso. apply Exists_exists in Hex as (p & Hin & Hp).
    by apply (filter_nil_not_elem_of _ _ p Hhit Hp). }
  eexists. split_and!; [reflexivity|done|done|].
  apply Hmiss. simpl. apply Forall_forall. by intros p [? _]%list_elem_of_filter.
Qed.

Lemma delete_position_row_removes_witness :
  (∃ d', delete_position_row 1 tracked_db =
           (Return (jsonify (obj [("deleted", PBool true)]) 200), d') ∧
         positions d' = [sample_at 2 1700000060] ∧
         delete_position_row 1 d' =
           (Return (jsonify (error_body "position not found") 404), d')) ∧
  delete_position_row 7 tracked_db =
    (Return (jsonify (error_body "position not found") 404), tracked_db).
Proof.
  destruct (delete_position_row_removes 1 tracked_db) as (Hdel & _).
  destruct (delete_position_row_removes 7 tracked_db) as (_ & Hmiss).
  split.
  - destruct Hdel as (d' & Hrun & Hpos & _ & Hagain); [compute_done|].
    exists d'. by split_and!.
  - apply Hmiss. compute_done.
Defined.

(** ** Registering satellites *)

Lemma find_app_None {A} (f : A → bool) (l k : list A) :
  find f l = None → find f (l ++ k) = find f k.
Proof.
  induction l as [|x l IH]; [done|]. simpl. destruct (f x); [done|exact IH].
Qed.

Section Registration.
Context (driver_text : pyval → result string).

(** X12.  Served alone, the identity resolver is idempotent: once it has
    returned a key, calling it again for the same external identifier, at
    any time and with any name, returns the same key and changes nothing.
    So start-up, which resolves the tracked object and returns nothing,
    changes nothing once the tracked object has been resolved. *)
Theorem get_satellite_id_idempotent (now now' norad sid : Z) (name name' : pyval)
    (d d1 : db) :
  get_satellite_id driver_text id id now norad name d = (Return sid, d1) →
  get_satellite_id driver_text id id now' norad name' d1 = (Return sid, d1) ∧
  (norad = ISS → setup_app driver_text now' d1 = (Return (), d1)).
Proof.
  intros Hrun.
  assert (∀ t nm, get_satellite_id driver_text id id t norad nm d1 = (Return sid, d1))
    as Hagain.
  { intros t nm.
    apply get_satellite_id_alone_inv in Hrun
      as [(s & Hfind & -> & ->)|(Hfind & -> & nm0 & ->)];
      unfold get_satellite_id, select_satellite_by_norad, mbind, M_bind; simpl.
    - by rewrite Hfind.
    - rewrite (find_app_None _ _ _ Hfind). simpl. by rewrite Z.eqb_refl. }
  split; [apply Hagain|]. intros ->.
  unfold setup_app. unfold mbind at 1. unfold M_bind at 1. by rewrite Hagain.
Qed.

End Registration.

Lemma get_satellite_id_idempotent_witness :
  get_satellite_id no_driver_text id id 1000 ISS (PStr "ISS") empty_db =
    (Return 1, seeded_db) ∧
  get_satellite_id no_driver_text id id 5000 ISS PNone seeded_db = (Return 1, seeded_db) ∧
  setup_app no_driver_text 5000 seeded_db = (Return (), seeded_db).
Proof.
  destruct (get_satellite_id_idempotent no_driver_text 1000 5000 ISS 1 (PStr "ISS") PNone
              empty_db seeded_db eq_refl) as [Hagain Hsetup].
  split_and!; [reflexivity|exact Hagain|by apply Hsetup].
Defined.

Lemma create_satellite_parsed now r d v nv name norad :
  data_get (request_data r) "name" = Return v →
  py_strip (py_or v (PStr "")) = Return name →
  name ≠ "" →
  data_get (request_data r) "norad_id" = Return nv →
  py_int nv = Return norad →
  create_satellite now r d =
    try_except
      (sid ← insert_satellite now norad (Some name);
       mret (jsonify (obj [("id", PInt sid); ("norad_id", PInt norad);
                           ("name", PStr name)]) 201))
      IntegrityError
      (mret (jsonify (error_body "norad_id already exists") 409)) d.
Proof.
  intros Hv Hname Hne Hnv Hint. unfold create_satellite.
  rewrite Hv, lift_return, Hname, lift_return, Hnv, lift_return.
  rewrite (proj2 (String.eqb_neq _ _) Hne).
  replace (match nv with PNone => true | _ => false end) with false
    by (by destruct nv).
  cbn [orb]. by rewrite Hint.
Qed.

(** X13.  A create request with a non-empty name of at most 100 characters
    and an external identifier within the column that no stored satellite
    carries is answered 201 with the next key, the identifier and the
    name stripped of surrounding white space; the satellite is appended
    with these values and the samples are untouched.  The same request
    sent again is answered 409 and stores no second satellite. *)
Theorem create_satellite_registers (now now' : Z) (r : request) (d : db)
    (v nv : pyval) (name : string) (norad : Z) :
  data_get (request_data r) "name" = Return v →
  py_strip (py_or v (PStr "")) = Return name →
  name ≠ "" →
  varchar100 name = true →
  data_get (request_data r) "norad_id" = Return nv →
  py_int nv = Return norad →
  int32 norad = true →
  Forall (λ s, s_norad s ≠ norad) (satellites d) →
  ∃ d' d'',
    create_satellite now r d =
      (Return (jsonify (obj [("id", PInt (sat_auto d)); ("norad_id", PInt norad);
                             ("name", PStr name)]) 201), d') ∧
    satellites d' = satellites d ++
      [{| s_id := sat_auto d; s_norad := norad; s_name := name; s_created := now |}] ∧
    positions d' = positions d ∧
    create_satellite now' r d' =
      (Return (jsonify (error_body "norad_id already exists") 409), d'') ∧
    satellites d'' = satellites d' ∧
    positions d'' = positions d'.
Proof.
  intros Hv Hname Hne Hlen Hnv Hint Hrange Hfresh.
  rewrite (create_satellite_parsed _ r _ v nv name norad) by done.
  unfold try_except at 1. unfold mbind, M_bind.
  rewrite insert_satellite_fresh by done.
  eexists _, _. split_and!; [reflexivity|reflexivity|reflexivity|..].
  - rewrite (create_satellite_parsed _ r _ v nv name norad) by done.
    unfold try_except, mbind, M_bind.
    rewrite insert_satellite_duplicate;
      [rewrite decide_True by done; reflexivity|done|done|].
    cbn [satellites]. apply Exists_app. right. apply Exists_cons. by left.
  - reflexivity.
  - reflexivity.
Qed.

Lemma create_satellite_registers_witness :
  ∃ d' d'',
    create_satellite 2000 (json_request [("name", PStr " Hubble "); ("norad_id", PStr "20580")])
      seeded_db =
      (Return (jsonify (obj [("id", PInt 2); ("norad_id", PInt 20580);
                             ("name", PStr "Hubble")]) 201), d') ∧
    s_name <$> satellites d' = ["ISS"; "Hubble"] ∧
    create_satellite 2001 (json_request [("name", PStr " Hubble "); ("norad_id", PStr "20580")])
      d' =
      (Return (jsonify (error_body "norad_id already exists") 409), d'') ∧
    satellites d'' = satellites d'.
Proof.
  destruct (create_satellite_registers 2000 2001
              (json_request [("name", PStr " Hubble "); ("norad_id", PStr "20580")])
              seeded_db (PStr " Hubble ") (PStr "20580") "Hubble" 20580)
    as (d' & d'' & Hrun & Hsat & _ & Hagain & Hsame & _);
    [reflexivity|reflexivity|done|reflexivity|reflexivity|reflexivity|reflexivity
    |compute_done|].
  exists d', d''. split_and!; [exact Hrun|by rewrite Hsat|exact Hagain|exact Hsame].
Defined.

(** X14.  A create request whose name is missing, null, empty or only
    white space, or that carries no external identifier, is answered 400
    "name and norad_id are required"; one with a name whose external
    identifier is text that is not an integer literal is answered 400
    "norad_id must be integer".  Neither changes the database. *)
Theorem create_satellite_rejects (now : Z) (r : request) (d : db)
    (v nv : pyval) (name : string) :
  data_get (request_data r) "name" = Return v →
  py_strip (py_or v (PStr "")) = Return name →
  data_get (request_data r) "norad_id" = Return nv →
  (name = "" ∨ nv = PNone →
   create_satellite now r d =
     (Return (jsonify (error_body "name and norad_id are required") 400), d)) ∧
  (∀ s, name ≠ "" → nv = PStr s → int_of_string s = None →
   create_satellite now r d =
     (Return (jsonify (error_body "norad_id must be integer") 400), d)).
Proof.
  intros Hv Hname Hnv. unfold create_satellite.
  rewrite Hv, lift_return, Hname, lift_return, Hnv, lift_return. split.
  - intros [->| ->]; [done|]. by rewrite orb_true_r.
  - intros s Hne -> Hs. rewrite (proj2 (String.eqb_neq _ _) Hne). simpl.
    by rewrite Hs.
Qed.

Lemma create_satellite_rejects_witness :
  create_satellite 2000 (json_request [("name", PStr "  "); ("norad_id", PInt 7)]) seeded_db =
    (Return (jsonify (error_body "name and norad_id are required") 400), seeded_db) ∧
  create_satellite 2000 (json_request [("name", PStr "Mir"); ("norad_id", PStr "x1")])
    seeded_db =
    (Return (jsonify (error_body "norad_id must be integer") 400), seeded_db).
Proof.
  split.
  - destruct (create_satellite_rejects 2000
                (json_request [("name", PStr "  "); ("norad_id", PInt 7)]) seeded_db
                (PStr "  ") (PInt 7) "") as (Hreq & _); [reflexivity..|].
    apply Hreq. by left.
  - destruct (create_satellite_rejects 2000
                (json_request [("name", PStr "Mir"); ("norad_id", PStr "x1")]) seeded_db
                (PStr "Mir") (PStr "x1") "Mir") as (_ & Hint); [reflexivity..|].
    by apply (Hint "x1").
Defined.

(** ** Positions query *)

Lemma list_positions_no_key norad_arg limit_arg n d :
  limit_of limit_arg 50 1000 = Return n →
  (norad_arg = None ∨ norad_arg = Some "") →
  ∀ sat_arg, sat_arg = None ∨ sat_arg = Some "" →
  list_positions sat_arg norad_arg limit_arg d =
    (Return (jsonify (error_body "satellite_id or norad_id required") 400), d).
Proof.
  intros Hn Hnorad sat_arg Hsat. unfold list_positions. rewrite Hn, lift_return.
  by destruct Hnorad as [-> | ->], Hsat as [-> | ->].
Qed.

Lemma list_positions_norad_path sat_arg norad_arg limit_arg n d :
  limit_of limit_arg 50 1000 = Return n →
  sat_arg = None ∨ sat_arg = Some "" →
  norad_arg ≠ "" →
  list_positions sat_arg (Some norad_arg) limit_arg d =
    match py_int (PStr norad_arg) with
    | Raise ValueError =>
        (Return (jsonify (error_body "norad_id must be integer") 400), d)
    | Raise e => (Raise e, d)
    | Return N =>
        match find (λ s, s_norad s =? N) (satellites d) with
        | None => (Return (jsonify (PList []) 200), d)
        | Some s => list_positions_of (PInt (s_id s)) n d
        end
    end.
Proof.
  intros Hn Hsat Hne. unfold list_positions. rewrite Hn, lift_return.
  cbn [from_option truthy]. rewrite (proj2 (String.eqb_neq _ _) Hne).
  replace (negb (truthy (from_option PStr PNone sat_arg))) with true
    by (by destruct Hsat as [-> | ->]).
  cbn [negb andb]. destruct (py_int (PStr norad_arg)) as [N|[]]; try done.
  unfold select_satellite_by_norad, mbind, M_bind.
  by destruct (find _ (satellites d)).
Qed.

(** X15.  A positions query by a satellite key that reads as an integer
    answers 200 with the rows of that satellite's samples, newest first:
    min(limit, count) of them with the limit clamped to 1..1000, no sample
    left out newer than one returned.  An external identifier sent along
    with the key is ignored, and the database is unchanged. *)
Theorem list_positions_newest (sat_arg : string) (norad_arg limit_arg : option string)
    (sat n : Z) (d : db) :
  int_of_string sat_arg = Some sat →
  limit_of limit_arg 50 1000 = Return n →
  ∃ rows,
    list_positions (Some sat_arg) norad_arg limit_arg d =
      (Return (jsonify (PList (position_row <$> rows)) 200), d) ∧
    list_positions (Some sat_arg) None limit_arg d =
      list_positions (Some sat_arg) norad_arg limit_arg d ∧
    1 ≤ n ≤ 1000 ∧
    length rows =
      Nat.min (Z.to_nat n) (length (filter (λ p, p_sat p = sat) (positions d))) ∧
    StronglySorted ts_desc rows ∧
    ∃ rest,
      rows ++ rest ≡ₚ filter (λ p, p_sat p = sat) (positions d) ∧
      ∀ p q, p ∈ rows → q ∈ rest → p_ts q ≤ p_ts p.
Proof.
  intros Hsat Hn.
  set (own := filter (λ p, p_sat p = sat) (positions d)).
  exists (limit_rows n (order_by_ts_desc own)). split_and!.
  - by apply list_positions_by_key.
  - by rewrite !(list_positions_by_key sat_arg _ limit_arg sat n).
  - by apply (limit_of_range limit_arg 50 1000).
  - by apply (limit_of_range limit_arg 50 1000).
  - rewrite limit_rows_length.
    by rewrite (Permutation_length (order_by_ts_desc_perm _)).
  - unfold limit_rows. pose proof (order_by_ts_desc_sorted own) as Hs.
    rewrite <- (take_drop (Z.to_nat n)) in Hs.
    by apply StronglySorted_app_1_l in Hs.
  - apply limit_order_by_split.
Qed.

Lemma list_positions_newest_witness :
  ∃ rows,
    list_positions (Some "1") (Some "99") (Some "1") tracked_db =
      (Return (jsonify (PList (position_row <$> rows)) 200), tracked_db) ∧
    length rows = 1%nat ∧
    ∀ p, p ∈ rows → 1700000060 ≤ p_ts p.
Proof.
  destruct (list_positions_newest "1" (Some "99") (Some "1") 1 1 tracked_db
              eq_refl eq_refl)
    as (rows & Hrun & _ & _ & Hlen & _ & rest & Hperm & Hnew).
  change (length rows = 1%nat) in Hlen.
  exists rows. split_and!; [exact Hrun|exact Hlen|].
  intros p Hp.
  assert (sample_at 2 1700000060 ∈ rows ++ rest) as Hin.
  { rewrite Hperm. compute_done. }
  apply elem_of_app in Hin as [Hin|Hin].
  - destruct rows as [|p1 [|? ?]]; try done.
    apply list_elem_of_singleton in Hin, Hp. by subst.
  - apply (Hnew p _ Hp Hin).
Defined.

(** X16.  A positions query by external identifier alone, in a database
    whose external identifiers are unique, answers as the query by the key
    of the satellite that carries the identifier does (when that key is
    not 0), and with 200 and the empty list when no satellite carries
    it; in both cases the database is unchanged. *)
Theorem list_positions_by_norad (norad_arg : string) (limit_arg : option string)
    (N n : Z) (d : db) :
  int_of_string norad_arg = Some N →
  limit_of limit_arg 50 1000 = Return n →
  NoDup (s_norad <$> satellites d) →
  (∀ s sat_arg, s ∈ satellites d → s_norad s = N → s_id s ≠ 0 →
     int_of_string sat_arg = Some (s_id s) →
     list_positions None (Some norad_arg) limit_arg d =
       list_positions (Some sat_arg) None limit_arg d ∧
     (list_positions None (Some norad_arg) limit_arg d).2 = d) ∧
  (Forall (λ s, s_norad s ≠ N) (satellites d) →
   list_positions None (Some norad_arg) limit_arg d =
     (Return (jsonify (PList []) 200), d)).
Proof.
  intros HN Hn Hnd.
  pose proof (int_of_string_nonempty _ _ HN) as Hne.
  rewrite (list_positions_norad_path None norad_arg limit_arg n) by (done || by left).
  cbn [py_int]. rewrite HN. split.
  - intros s sat_arg Hin Hs Hid Hsat.
    rewrite (find_key_unique s_norad _ N s) by done.
    rewrite (list_positions_by_key sat_arg None limit_arg (s_id s) n) by done.
    unfold list_positions_of. cbn [truthy py_int].
    rewrite (proj2 (Z.eqb_neq _ _) Hid). cbn [negb].
    unfold select_recent_by_satellite, mbind, M_bind, mret, M_ret.
    by rewrite fetched_rows_fetchall.
  - intros Hnone. by rewrite (proj2 (find_key_None s_norad _ N) Hnone).
Qed.

Lemma list_positions_by_norad_witness :
  list_positions None (Some "25544") None tracked_db =
    list_positions (Some "1") None None tracked_db ∧
  list_positions None (Some "20580") None tracked_db =
    (Return (jsonify (PList []) 200), tracked_db).
Proof.
  split.
  - destruct (list_positions_by_norad "25544" None 25544 50 tracked_db)
      as (Hsame & _); [reflexivity|reflexivity|compute_done|].
    apply (Hsame {| s_id := 1; s_norad := 25544; s_name := "ISS"; s_created := 1000 |} "1");
      [compute_done|reflexivity|done|reflexivity].
  - destruct (list_positions_by_norad "20580" None 20580 50 tracked_db)
      as (_ & Hnone); [reflexivity|reflexivity|compute_done|].
    apply Hnone. compute_done.
Defined.

(** X17.  With a limit that reads as an integer, a positions query is
    refused with 400 and no change to the database: "satellite_id or
    norad_id required" when both parameters are missing or empty;
    "satellite_id must be integer" when the key is text that is not an
    integer literal, whatever external identifier comes with it;
    "norad_id must be integer" when no key is given and the external
    identifier is text that is not an integer literal. *)
Theorem list_positions_rejects (limit_arg : option string) (n : Z) (d : db) :
  limit_of limit_arg 50 1000 = Return n →
  (∀ sat_arg norad_arg,
     sat_arg = None ∨ sat_arg = Some "" → norad_arg = None ∨ norad_arg = Some "" →
     list_positions sat_arg norad_arg limit_arg d =
       (Return (jsonify (error_body "satellite_id or norad_id required") 400), d)) ∧
  (∀ s norad_arg, s ≠ "" → int_of_string s = None →
     list_positions (Some s) norad_arg limit_arg d =
       (Return (jsonify (error_body "satellite_id must be integer") 400), d)) ∧
  (∀ sat_arg s, sat_arg = None ∨ sat_arg = Some "" → s ≠ "" → int_of_string s = None →
     list_positions sat_arg (Some s) limit_arg d =
       (Return (jsonify (error_body "norad_id must be integer") 400), d)).
Proof.
  intros Hn. split_and!.
  - intros sat_arg norad_arg Hsat Hnorad. by apply (list_positions_no_key _ _ n).
  - intros s norad_arg Hne Hs. unfold list_positions. rewrite Hn, lift_return.
    cbn [from_option truthy]. rewrite (proj2 (String.eqb_neq _ _) Hne).
    cbn [negb]. rewrite andb_false_r.
    unfold list_positions_of. cbn [truthy py_int].
    rewrite (proj2 (String.eqb_neq _ _) Hne). cbn [negb]. by rewrite Hs.
  - intros sat_arg s Hsat Hne Hs.
    rewrite (list_positions_norad_path sat_arg s limit_arg n) by done.
    cbn [py_int]. by rewrite Hs.
Qed.

Lemma list_positions_rejects_witness :
  list_positions None (Some "") None tracked_db =
    (Return (jsonify (error_body "satellite_id or norad_id required") 400), tracked_db) ∧
  list_positions (Some "one") (Some "25544") None tracked_db =
    (Return (jsonify (error_body "satellite_id must be integer") 400), tracked_db) ∧
  list_positions None (Some "iss") None tracked_db =
    (Return (jsonify (error_body "norad_id must be integer") 400), tracked_db).
Proof.
  destruct (list_positions_rejects None 50 tracked_db eq_refl) as (Hnone & Hsat & Hnorad).
  split_and!.
  - apply Hnone; [by left|by right].
  - by apply Hsat.
  - apply Hnorad; [by left|done|done].
Defined.

(** ** Outcome of an update *)

Lemma fmap_at_key_noop {A} (key : A → Z) (f : A → A) (k : Z) (l : list A) (a : A) :
  NoDup (key <$> l) → a ∈ l → key a = k → f a = a →
  (λ x, if decide (key x = k) then f x else x) <$> l = l.
Proof.
  intros Hnd Hin Hk Hfa. rewrite <- (list_fmap_id l) at 2.
  apply list_fmap_ext. intros i x Hx. simpl. case_decide; [|done].
  assert (x = a) as ->; [|done].
  apply (NoDup_fmap_elem_inj key l); [done|by eapply list_elem_of_lookup_2|done|congruence].
Qed.

Lemma db_eta (d : db) :
  {| satellites := satellites d; positions := positions d;
     sat_auto := sat_auto d; pos_auto := pos_auto d |} = d.
Proof. by destruct d. Qed.

Lemma update_satellites_one sid name norad d s :
  NoDup (s_id <$> satellites d) → s ∈ satellites d → s_id s = sid →
  from_option int32 true norad = true → from_option varchar100 true name = true →
  (∀ n s', norad = Some n → s' ∈ satellites d → s_norad s' = n → s_id s' = sid) →
  update_satellites sid name norad d =
    (Return (if decide (set_satellite name norad s = s) then 0 else 1),
     {| satellites :=
          (λ s', if decide (s_id s' = sid) then set_satellite name norad s' else s')
            <$> satellites d;
        positions := positions d;
        sat_auto := sat_auto d; pos_auto := pos_auto d |}).
Proof.
  intros Hnd Hin <- Hint Hlen Hfree. unfold update_satellites.
  rewrite (filter_key_unique s_id _ s) by done.
  rewrite Hint, Hlen. cbn [andb negb].
  assert (from_option (λ n, existsb (λ s', (s_norad s' =? n) && negb (s_id s' =? s_id s))
                              (satellites d)) false norad = false) as ->.
  { destruct norad as [n|]; [|done]. simpl.
    apply not_true_iff_false. intros (s' & Hs' & Hc)%existsb_exists.
    apply andb_prop in Hc as [Hn%Z.eqb_eq Hid%negb_true_iff%Z.eqb_neq].
    apply Hid. apply (Hfree n); [done|by apply list_elem_of_In|done]. }
  f_equal. f_equal. rewrite filter_cons, filter_nil. by repeat case_decide.
Qed.

Lemma update_satellite_parsed sid r d name norad :
  field_opt (request_data r) "name" (λ v, py_strip (py_or v (PStr ""))) = Return name →
  field_opt (request_data r) "norad_id" py_int = Return norad →
  is_none name && is_none norad = false →
  update_satellite sid r d =
    try_except
      (n ← update_satellites sid name norad;
       if n =? 0
       then mret (jsonify (error_body "satellite not found") 404)
       else mret (jsonify (obj [("updated", PBool true)]) 200))
      IntegrityError
      (mret (jsonify (error_body "norad_id already exists") 409)) d.
Proof.
  intros Hname Hnorad Hsome. unfold update_satellite.
  by rewrite Hname, lift_return, Hnorad, Hsome.
Qed.

Lemma update_satellite_noop sid r d name norad s :
  NoDup (s_id <$> satellites d) → s ∈ satellites d → s_id s = sid →
  field_opt (request_data r) "name" (λ v, py_strip (py_or v (PStr ""))) = Return name →
  field_opt (request_data r) "norad_id" py_int = Return norad →
  is_none name && is_none norad = false →
  from_option varchar100 true name = true → from_option int32 true norad = true →
  (∀ n s', norad = Some n → s' ∈ satellites d → s_norad s' = n → s_id s' = sid) →
  set_satellite name norad s = s →
  update_satellite sid r d =
    (Return (jsonify (error_body "satellite not found") 404), d).
Proof.
  intros Hnd Hin Hid Hname Hnorad Hsome Hlen Hint Hfree Hsame.
  rewrite (update_satellite_parsed sid r d name norad) by done.
  unfold try_except, mbind, M_bind.
  rewrite (update_satellites_one sid name norad d s) by done.
  rewrite decide_True by done. cbn [Z.eqb].
  rewrite (fmap_at_key_noop s_id _ sid _ s) by done.
  by rewrite db_eta.
Qed.

(** X18.  An update of a stored satellite whose fields convert and fit
    their columns is answered
    - 409, nothing changed, when it sets an external identifier that
      another satellite carries;
    - otherwise 404 "satellite not found", nothing changed, when every
      column it sets already holds the value sent, although the satellite
      is stored;
    - otherwise 200: the row then holds the values sent, the samples are
      untouched, and the same request sent again is answered 404. *)
Theorem update_satellite_outcome (sid : Z) (r : request) (d : db)
    (name : option string) (norad : option Z) (s : satellite) :
  wf d → s ∈ satellites d → s_id s = sid →
  field_opt (request_data r) "name" (λ v, py_strip (py_or v (PStr ""))) = Return name →
  field_opt (request_data r) "norad_id" py_int = Return norad →
  is_none name && is_none norad = false →
  from_option varchar100 true name = true → from_option int32 true norad = true →
  ((∃ n s', norad = Some n ∧ s' ∈ satellites d ∧ s_norad s' = n ∧ s_id s' ≠ sid) →
   update_satellite sid r d =
     (Return (jsonify (error_body "norad_id already exists") 409), d)) ∧
  ((∀ n s', norad = Some n → s' ∈ satellites d → s_norad s' = n → s_id s' = sid) →
   (set_satellite name norad s = s →
    update_satellite sid r d =
      (Return (jsonify (error_body "satellite not found") 404), d)) ∧
   (set_satellite name norad s ≠ s →
    ∃ d', update_satellite sid r d =
            (Return (jsonify (obj [("updated", PBool true)]) 200), d') ∧
          set_satellite name norad s ∈ satellites d' ∧
          positions d' = positions d ∧
          update_satellite sid r d' =
            (Return (jsonify (error_body "satellite not found") 404), d'))).
Proof.
  intros Hwf Hin Hid Hname Hnorad Hsome Hlen Hint.
  pose proof Hwf as (Hnd & _).
  split; [|intros Hfree; split].
  - intros (n & s' & -> & Hs' & Hn & Hother).
    rewrite (update_satellite_parsed sid r d name (Some n)) by done.
    unfold try_except, mbind, M_bind, update_satellites.
    rewrite <- Hid, (filter_key_unique s_id _ s) by done.
    rewrite Hint, Hlen. cbn [andb negb from_option].
    assert (existsb (λ s0, (s_norad s0 =? n) && negb (s_id s0 =? s_id s)) (satellites d)
            = true) as ->.
    { apply existsb_exists. exists s'. split; [by apply list_elem_of_In|].
      rewrite (proj2 (Z.eqb_eq _ _) Hn). simpl. apply negb_true_iff, Z.eqb_neq.
      by rewrite Hid. }
    by rewrite decide_True.
  - intros Hsame. by apply (update_satellite_noop sid r d name norad s).
  - intros Hdiff.
    pose proof (update_satellites_wf sid name norad d Hwf) as Hwf'.
    rewrite (update_satellite_parsed sid r d name norad) by done.
    unfold try_except at 1. unfold mbind, M_bind.
    rewrite (update_satellites_one sid name norad d s) in * by done.
    rewrite decide_False by done. cbn [Z.eqb snd] in *.
    eexists. split; [reflexivity|].
    assert (set_satellite name norad s ∈
              (λ s', if decide (s_id s' = sid) then set_satellite name norad s' else s')
                <$> satellites d) as Hin'.
    { apply list_elem_of_fmap. exists s. by rewrite decide_True. }
    split_and!; [exact Hin'|done|].
    apply (update_satellite_noop sid r _ name norad (set_satellite name norad s));
      try done.
    + apply Hwf'.
    + intros n s' -> (s0 & -> & Hs0)%list_elem_of_fmap Hn.
      case_decide; [done|]. simpl in Hn. by apply (Hfree n s0).
    + by destruct name, norad.
Qed.

Lemma update_satellite_outcome_witness :
  ∃ d',
    update_satellite 1 (json_request [("name", PStr " Zarya ")]) tracked_db =
      (Return (jsonify (obj [("updated", PBool true)]) 200), d') ∧
    {| s_id := 1; s_norad := 25544; s_name := "Zarya"; s_created := 1000 |}
      ∈ satellites d' ∧
    update_satellite 1 (json_request [("name", PStr " Zarya ")]) d' =
      (Return (jsonify (error_body "satellite not found") 404), d').
Proof.
  destruct (update_satellite_outcome 1 (json_request [("name", PStr " Zarya ")]) tracked_db
              (Some "Zarya") None
              {| s_id := 1; s_norad := 25544; s_name := "ISS"; s_created := 1000 |})
    as (_ & Hfree); [compute_done|compute_done|reflexivity..|].
  destruct Hfree as (_ & Hset); [done|].
  destruct Hset as (d' & Hrun & Hrow & _ & Hagain); [done|].
  exists d'. split_and!; [exact Hrun|exact Hrow|exact Hagain].
Defined.

Lemma update_positions_one pid u d p :
  NoDup (p_id <$> positions d) → p ∈ positions d → p_id p = pid →
  patch_bindable u = true → from_option int32 true (set_ts u) = true →
  update_positions pid u d =
    (Return (if decide (set_position u p = p) then 0 else 1),
     {| satellites := satellites d;
        positions :=
          (λ q, if decide (p_id q = pid) then set_position u q else q) <$> positions d;
        sat_auto := sat_auto d; pos_auto := pos_auto d |}).
Proof.
  intros Hnd Hin <- Hbind Hint. unfold update_positions.
  rewrite Hbind. cbn [negb].
  rewrite (filter_key_unique p_id _ p) by done.
  rewrite Hint. cbn [negb].
  f_equal. f_equal. rewrite filter_cons, filter_nil. by repeat case_decide.
Qed.

Section UpdateOutcome.
Context (float_of_string : string → option float).

Lemma update_position_row_parsed pid r d u :
  field_opt (request_data r) "timestamp" py_int = Return (set_ts u) →
  field_opt (request_data r) "latitude" (py_float float_of_string) = Return (set_lat u) →
  field_opt (request_data r) "longitude" (py_float float_of_string) = Return (set_lon u) →
  field_opt (request_data r) "altitude_km" (py_opt_float float_of_string) = Return (set_alt u) →
  field_opt (request_data r) "velocity_kmh" (py_opt_float float_of_string) = Return (set_vel u) →
  patch_empty u = false →
  update_position_row float_of_string pid r d =
    (n ← update_positions pid u;
     if n =? 0
     then mret (jsonify (error_body "position not found") 404)
     else mret (jsonify (obj [("updated", PBool true)]) 200)) d.
Proof.
  intros Hts Hlat Hlon Halt Hvel Hsome. unfold update_position_row.
  rewrite Hts, Hlat, Hlon, Halt, lift_return, Hvel, lift_return.
  destruct u as [ts lat lon alt vel]; simpl in *. by rewrite Hsome.
Qed.

Lemma update_position_row_noop pid r d u p :
  NoDup (p_id <$> positions d) → p ∈ positions d → p_id p = pid →
  field_opt (request_data r) "timestamp" py_int = Return (set_ts u) →
  field_opt (request_data r) "latitude" (py_float float_of_string) = Return (set_lat u) →
  field_opt (request_data r) "longitude" (py_float float_of_string) = Return (set_lon u) →
  field_opt (request_data r) "altitude_km" (py_opt_float float_of_string) = Return (set_alt u) →
  field_opt (request_data r) "velocity_kmh" (py_opt_float float_of_string) = Return (set_vel u) →
  patch_empty u = false → patch_bindable u = true →
  from_option int32 true (set_ts u) = true →
  set_position u p = p →
  update_position_row float_of_string pid r d =
    (Return (jsonify (error_body "position not found") 404), d).
Proof.
  intros Hnd Hin Hid Hts Hlat Hlon Halt Hvel Hsome Hbind Hint Hsame.
  rewrite (update_position_row_parsed pid r d u) by done.
  unfold mbind, M_bind.
  rewrite (update_positions_one pid u d p) by done.
  rewrite decide_True by done. cbn [Z.eqb].
  rewrite (fmap_at_key_noop p_id _ pid _ p) by done.
  by rewrite db_eta.
Qed.

(** X19.  An update of a stored sample whose fields convert, that the
    driver can render and whose timestamp fits the column is answered
    404 "position not found", nothing changed, when every column it sets
    already holds the value sent, although the sample is stored;
    otherwise it is answered 200, the row then holds the values sent
    under the same key and satellite, the satellites are untouched, and
    the same request sent again is answered 404. *)
Theorem update_position_row_outcome (pid : Z) (r : request) (d : db)
    (u : position_patch) (p : position) :
  NoDup (p_id <$> positions d) → p ∈ positions d → p_id p = pid →
  field_opt (request_data r) "timestamp" py_int = Return (set_ts u) →
  field_opt (request_data r) "latitude" (py_float float_of_string) = Return (set_lat u) →
  field_opt (request_data r) "longitude" (py_float float_of_string) = Return (set_lon u) →
  field_opt (request_data r) "altitude_km" (py_opt_float float_of_string) = Return (set_alt u) →
  field_opt (request_data r) "velocity_kmh" (py_opt_float float_of_string) = Return (set_vel u) →
  patch_empty u = false → patch_bindable u = true →
  from_option int32 true (set_ts u) = true →
  (set_position u p = p →
   update_position_row float_of_string pid r d =
     (Return (jsonify (error_body "position not found") 404), d)) ∧
  (set_position u p ≠ p →
   ∃ d', update_position_row float_of_string pid r d =
           (Return (jsonify (obj [("updated", PBool true)]) 200), d') ∧
         set_position u p ∈ positions d' ∧
         length (positions d') = length (positions d) ∧
         satellites d' = satellites d ∧
         update_position_row float_of_string pid r d' =
           (Return (jsonify (error_body "position not found") 404), d')).
Proof.
  intros Hnd Hin Hid Hts Hlat Hlon Halt Hvel Hsome Hbind Hint. split.
  - intros Hsame. by apply (update_position_row_noop pid r d u p).
  - intros Hdiff.
    rewrite (update_position_row_parsed pid r d u) by done.
    unfold mbind at 1. unfold M_bind.
    rewrite (update_positions_one pid u d p) by done.
    rewrite decide_False by done. cbn [Z.eqb].
    set (f := λ q, if decide (p_id q = pid) then set_position u q else q).
    assert (∀ q, p_id (f q) = p_id q) as Hfid.
    { intros q. unfold f. by case_decide. }
    eexists. split; [reflexivity|]. cbn [positions satellites].
    split_and!.
    + apply list_elem_of_fmap. exists p. unfold f. by rewrite decide_True.
    + by rewrite length_fmap.
    + done.
    + apply (update_position_row_noop pid r _ u (set_position u p)); try done.
      * cbn [positions]. rewrite <- list_fmap_compose.
        erewrite list_fmap_ext; [exact Hnd|]. intros i q _. apply Hfid.
      * cbn [positions]. apply list_elem_of_fmap. exists p.
        unfold f. by rewrite decide_True.
      * by destruct u as [[?|] [?|] [?|] [?|] [?|]].
Qed.

End UpdateOutcome.

Lemma update_position_row_outcome_witness :
  ∃ d',
    update_position_row integer_strtod 2 (json_request [("timestamp", PStr "1700000120")])
      tracked_db =
      (Return (jsonify (obj [("updated", PBool true)]) 200), d') ∧
    {| p_id := 2; p_sat := 1; p_ts := 1700000120; p_lat := half; p_lon := half;
       p_alt := None; p_vel := None; p_created := 1700000060 |} ∈ positions d' ∧
    update_position_row integer_strtod 2 (json_request [("timestamp", PStr "1700000120")]) d' =
      (Return (jsonify (error_body "position not found") 404), d').
Proof.
  destruct (update_position_row_outcome integer_strtod 2
              (json_request [("timestamp", PStr "1700000120")]) tracked_db
              {| set_ts := Some 1700000120; set_lat := None; set_lon := None;
                 set_alt := None; set_vel := None |}
              (sample_at 2 1700000060))
    as (_ & Hset); [compute_done|compute_done|reflexivity..|].
  destruct Hset as (d' & Hrun & Hrow & _ & _ & Hagain); [done|].
  exists d'. split_and!; [exact Hrun|exact Hrow|exact Hagain].
Defined.

(** ** Refused and undone sample creation *)

Section CreateAndDelete.
Context (float_of_string : string → option float).

(** X20.  A create request for a sample is refused without change to the
    database: 400 "no data provided" for an empty body; 400
    "satellite_id is required (int)" when the satellite key is missing
    or does not read as an integer; 400 "timestamp must be unix seconds"
    when the timestamp is text that is neither a default marker nor an
    integer literal; and 404 "satellite not found" when every field
    converts and no satellite has the key, whether or not the values
    would fit their columns. *)
Theorem create_position_rejects (now : Z) (r : request) (d : db) :
  (data_empty (request_data r) = true →
   create_position float_of_string now r d =
     (Return (jsonify (error_body "no data provided") 400), d)) ∧
  (∀ sv, data_empty (request_data r) = false →
     data_get (request_data r) "satellite_id" = Return sv →
     py_int sv = Raise TypeError ∨ py_int sv = Raise ValueError →
     create_position float_of_string now r d =
       (Return (jsonify (error_body "satellite_id is required (int)") 400), d)) ∧
  (∀ sv sat tv, data_empty (request_data r) = false →
     data_get (request_data r) "satellite_id" = Return sv →
     py_int sv = Return sat →
     data_get (request_data r) "timestamp" = Return tv →
     is_default_timestamp tv = false →
     py_int tv = Raise ValueError →
     create_position float_of_string now r d =
       (Return (jsonify (error_body "timestamp must be unix seconds") 400), d)) ∧
  (∀ sat ts lat lon alt vel, data_empty (request_data r) = false →
     (v ← data_get (request_data r) "satellite_id"; py_int v) = Return sat →
     (v ← data_get (request_data r) "timestamp";
      if is_default_timestamp v then Return now else py_int v) = Return ts →
     (v ← data_get (request_data r) "latitude"; py_float float_of_string v) = Return lat →
     (v ← data_get (request_data r) "longitude"; py_float float_of_string v) = Return lon →
     (v ← data_get (request_data r) "altitude_km"; py_opt_float float_of_string v)
       = Return alt →
     (v ← data_get (request_data r) "velocity_kmh"; py_opt_float float_of_string v)
       = Return vel →
     Forall (λ s, s_id s ≠ sat) (satellites d) →
     create_position float_of_string now r d =
       (Return (jsonify (error_body "satellite not found") 404), d)).
Proof.
  split_and!.
  - intros Hempty. unfold create_position. by rewrite Hempty.
  - intros sv Hne Hsv Hint. unfold create_position.
    rewrite Hne, Hsv, lift_return. by destruct Hint as [-> | ->].
  - intros sv sat tv Hne Hsv Hsat Htv Hdef Hts. unfold create_position.
    by rewrite Hne, Hsv, lift_return, Hsat, Htv, lift_return, Hdef, Hts.
  - intros sat ts lat lon alt vel Hne Hsat Hts Hlat Hlon Halt Hvel Hnone.
    apply rbind_Return in Hsat as (sv & Hsv & Hsat).
    apply rbind_Return in Hts as (tv & Htv & Hts).
    apply rbind_Return in Hlat as (lav & Hlav & Hlat).
    apply rbind_Return in Hlon as (lov & Hlov & Hlon).
    apply rbind_Return in Halt as (av & Hav & Halt).
    apply rbind_Return in Hvel as (vv & Hvv & Hvel).
    unfold create_position.
    rewrite Hne, Hsv, lift_return, Hsat, Htv, lift_return, Hts.
    rewrite Hlav, Hlov. simpl. rewrite Hlat, Hlon. simpl.
    rewrite Hav, lift_return, Hvv, lift_return, Halt, lift_return, Hvel, lift_return.
    unfold select_satellite_by_id, mbind, M_bind.
    by rewrite (proj2 (find_key_None s_id _ sat) Hnone).
Qed.

(** X21.  In a database within the schema, deleting a sample right after
    a valid create request stored it, by the key the create answered,
    is answered 200 and leaves the samples and the satellites as they
    were before the create; only the key counter has advanced, so the
    key is not handed out again. *)
Theorem create_then_delete_position (now : Z) (r : request) (d : db) (p : position) :
  wf d →
  accepted_sample float_of_string now (request_data r) d p →
  ∃ d' d'',
    create_position float_of_string now r d = (Return (jsonify (created_body p) 201), d') ∧
    delete_position_row (p_id p) d' =
      (Return (jsonify (obj [("deleted", PBool true)]) 200), d'') ∧
    positions d'' = positions d ∧
    satellites d'' = satellites d ∧
    pos_auto d'' = pos_auto d + 1.
Proof.
  intros (_ & _ & _ & _ & Hposs) Hacc.
  pose proof Hacc as (_ & _ & _ & _ & _ & _ & _ & Hid & _).
  assert (Forall (λ q, p_id q ≠ p_id p) (positions d)) as Hfresh.
  { eapply Forall_impl; [exact Hposs|]. intros q (Hlt & _). lia. }
  exists (with_position d p). eexists. split; [by apply create_position_accepts|].
  unfold delete_position_row, delete_positions, mbind, M_bind, with_position.
  cbn [positions satellites sat_auto pos_auto].
  rewrite !filter_app, !filter_cons, !filter_nil.
  rewrite decide_True by done. rewrite (decide_False (P := p_id p ≠ p_id p)) by tauto.
  rewrite (filter_none (λ q, p_id q = p_id p)) by done.
  rewrite (filter_all (λ q, p_id q ≠ p_id p)) by done.
  cbn [app length Z.of_nat Z.eqb]. rewrite app_nil_r.
  split_and!; reflexivity.
Qed.

End CreateAndDelete.

Lemma create_position_rejects_witness :
  create_position integer_strtod 2000 (json_request [("latitude", PInt 10)]) tracked_db =
    (Return (jsonify (error_body "satellite_id is required (int)") 400), tracked_db) ∧
  create_position integer_strtod 2000 (sample_request (PStr "noon")) tracked_db =
    (Return (jsonify (error_body "timestamp must be unix seconds") 400), tracked_db) ∧
  create_position integer_strtod 2000 (sample_request (PInt 5)) empty_db =
    (Return (jsonify (error_body "satellite not found") 404), empty_db).
Proof.
  split_and!.
  - destruct (create_position_rejects integer_strtod 2000
                (json_request [("latitude", PInt 10)]) tracked_db) as (_ & Hsat & _).
    apply (Hsat PNone); [reflexivity|reflexivity|by left].
  - destruct (create_position_rejects integer_strtod 2000
                (sample_request (PStr "noon")) tracked_db) as (_ & _ & Hts & _).
    by apply (Hts (PInt 1) 1 (PStr "noon")).
  - destruct (create_position_rejects integer_strtod 2000
                (sample_request (PInt 5)) empty_db) as (_ & _ & _ & Hmissing).
    apply (Hmissing 1 5 ten twenty None None); try reflexivity. constructor.
Defined.

Lemma create_then_delete_position_witness :
  ∃ d' d'',
    create_position integer_strtod 2000 (sample_request (PInt 1700000120)) tracked_db =
      (Return (jsonify (created_body (requested_sample 3 1700000120 2000)) 201), d') ∧
    delete_position_row 3 d' =
      (Return (jsonify (obj [("deleted", PBool true)]) 200), d'') ∧
    positions d'' = positions tracked_db.
Proof.
  destruct (create_then_delete_position integer_strtod 2000
              (sample_request (PInt 1700000120)) tracked_db
              (requested_sample 3 1700000120 2000))
    as (d' & d'' & Hcreate & Hdelete & Hpos & _).
  - compute_done.
  - apply (sample_request_accepted (PInt 1700000120) 1700000120 2000 tracked_db);
      [reflexivity|reflexivity|compute_done].
  - exists d', d''. by split_and!.
Defined.

(** ** Deleting a satellite leaves the others alone *)

(** X22.  Deleting a satellite, however the request is answered, keeps
    every satellite of another key and every sample of another
    satellite, so a positions query by another key is answered after the
    deletion as it was before. *)
Theorem delete_satellite_keeps_others (sid : Z) (sat_arg : string)
    (norad_arg limit_arg : option string) (sat n : Z) (d : db) :
  int_of_string sat_arg = Some sat →
  limit_of limit_arg 50 1000 = Return n →
  sat ≠ sid →
  filter (λ s, s_id s ≠ sid) (satellites (delete_satellite sid d).2) =
    filter (λ s, s_id s ≠ sid) (satellites d) ∧
  filter (λ p, p_sat p = sat) (positions (delete_satellite sid d).2) =
    filter (λ p, p_sat p = sat) (positions d) ∧
  (list_positions (Some sat_arg) norad_arg limit_arg (delete_satellite sid d).2).1 =
    (list_positions (Some sat_arg) norad_arg limit_arg d).1.
Proof.
  intros Hsat Hn Hother.
  assert (filter (λ s, s_id s ≠ sid) (satellites (delete_satellite sid d).2) =
            filter (λ s, s_id s ≠ sid) (satellites d) ∧
          filter (λ p, p_sat p = sat) (positions (delete_satellite sid d).2) =
            filter (λ p, p_sat p = sat) (positions d)) as [Hsats Hposs].
  { unfold delete_satellite, delete_satellites, mbind, M_bind.
    destruct (filter (λ s, s_id s = sid) (satellites d)) as [|s0 hit]; [done|].
    cbn [snd satellites positions Z.eqb length]. 
    destruct (Z.of_nat (S (length hit)) =? 0); unfold mret, M_ret;
      cbn [snd satellites positions].
    - split.
      + rewrite list_filter_filter. apply list_filter_iff. tauto.
      + rewrite list_filter_filter. apply list_filter_iff. intros p. split; [tauto|].
        intros Hp. split; [done|congruence].
    - split.
      + rewrite list_filter_filter. apply list_filter_iff. tauto.
      + rewrite list_filter_filter. apply list_filter_iff. intros p. split; [tauto|].
        intros Hp. split; [done|congruence]. }
  split_and!; [exact Hsats|exact Hposs|].
  rewrite !(list_positions_by_key sat_arg norad_arg limit_arg sat n) by done.
  cbn [fst]. by rewrite Hposs.
Qed.

Lemma delete_satellite_keeps_others_witness :
  (delete_satellite 2 paired_db).1 =
    Return (jsonify (obj [("deleted", PBool true)]) 200) ∧
  positions (delete_satellite 2 paired_db).2 = positions tracked_db ∧
  (list_positions (Some "1") None None (delete_satellite 2 paired_db).2).1 =
    (list_positions (Some "1") None None paired_db).1.
Proof.
  destruct (delete_satellite_keeps_others 2 "1" None None 1 50 paired_db)
    as (_ & _ & Hsame); [reflexivity|reflexivity|done|].
  split_and!; [reflexivity|reflexivity|exact Hsame].
Defined.
